(** * Touch input subsystem of CPU-Draw (src/input/TouchHelper.cpp)

    A shallow embedding of the touch-input module: the per-slot finger
    records, the reader thread's event decoder, the gesture recogniser,
    the injection path ([Upload], [Down], [Move], [Up], [Swipe]), the
    initialisation and shutdown code and the coordinate transforms.

    Conventions.
    - C++ [float] values are modelled as exact rationals [Q]; rounding is
      abstracted away, so an equality "up to floating-point rounding" is
      [Qeq] here.  The inputs on which a property is shown to fail are
      chosen so that the binary32 computation is exact as well.
    - [int] and [long long] are modelled as [Z].  Signed overflow is
      undefined behaviour in C++, so no wrap-around is written; the
      values that occur (identities, step counts, millisecond clocks)
      stay far inside the ranges of their types.
    - The wall clock ([GetCurrentTimeMs]) is an input: every decoded
      event and every synthetic call carries the reading [now] that the
      code observes while handling it.
    - Callbacks and [write] calls are recorded in an output trace. *)

From Stdlib Require Import ZArith QArith Bool List Lia Lqa.
From stdpp Require Import base list.
Import ListNotations.
Local Open Scope Z_scope.

(** ** Numbers *)

Definition Qltb (a b : Q) : bool := negb (Qle_bool b a).

(** [(int)f] : conversion of a float to [int] truncates toward zero. *)
Definition Q_to_int (q : Q) : Z := Z.quot (Qnum q) (Zpos (Qden q)).

(** ** My_Vector2 *)

(** Modelled from the spec: core/VectorStruct.h is not among the sources.
    [My_Vector2] is the two-component float vector that TouchHelper.cpp
    uses through its fields [x], [y], its default constructor (the zero
    vector, on which [RecognizeGesture] accumulates the centroid) and its
    component-wise operators.  Its [length()] method is kept abstract:
    the functions that call it take it as the parameter [vlen]. *)
Record My_Vector2 := mkVec { vx : Q; vy : Q }.

Definition vzero : My_Vector2 := mkVec 0 0.
Definition vadd (a b : My_Vector2) : My_Vector2 :=
  mkVec (vx a + vx b) (vy a + vy b).
Definition vsub (a b : My_Vector2) : My_Vector2 :=
  mkVec (vx a - vx b) (vy a - vy b).
Definition vmul (a b : My_Vector2) : My_Vector2 :=
  mkVec (vx a * vx b) (vy a * vy b).
Definition vscale (a : My_Vector2) (k : Q) : My_Vector2 :=
  mkVec (vx a * k) (vy a * k).
Definition vdiv (a : My_Vector2) (k : Q) : My_Vector2 :=
  mkVec (vx a / k) (vy a / k).

(** Division of a vector by an [int], with the zero divisor made
    explicit: the float quotient is infinite or NaN there. *)
Definition vdiv_int (a : My_Vector2) (n : Z) : option My_Vector2 :=
  if n =? 0 then None else Some (vdiv a (inject_Z n)).

Definition veq (a b : My_Vector2) : Prop :=
  (vx a == vx b)%Q /\ (vy a == vy b)%Q.

(** A computable Euclidean norm, used to run the model on concrete
    inputs: the square root is rounded down on the common denominator.
    It is exact whenever the squared length is a perfect square. *)
Definition Qsqrt_floor (q : Q) : Q :=
  Z.sqrt (Qnum q * Zpos (Qden q)) # Qden q.
Definition vec_length (v : My_Vector2) : Q :=
  Qsqrt_floor (Qred (vx v * vx v + vy v * vy v)).

(** ** Kernel input protocol (linux/input.h, linux/input-event-codes.h) *)

Definition EV_SYN : Z := 0.
Definition EV_KEY : Z := 1.
Definition EV_ABS : Z := 3.
Definition SYN_REPORT : Z := 0.
Definition SYN_MT_REPORT : Z := 2.
Definition ABS_X : Z := 0.
Definition ABS_Y : Z := 1.
Definition ABS_MT_SLOT : Z := 47.
Definition ABS_MT_POSITION_X : Z := 53.
Definition ABS_MT_POSITION_Y : Z := 54.
Definition ABS_MT_TRACKING_ID : Z := 57.
Definition ABS_MT_PRESSURE : Z := 58.
Definition BTN_TOOL_FINGER : Z := 325.
Definition BTN_TOUCH : Z := 330.

Definition MAX_FINGERS : Z := 10.

(** [struct input_event]; the [timeval] field is never read by the module
    and always written as zero, so it is left out. *)
Record input_event := mkEvent { ie_type : Z; ie_code : Z; ie_value : Z }.

Record input_absinfo := mkAbs {
  abs_value : Z; abs_minimum : Z; abs_maximum : Z;
  abs_fuzz : Z; abs_flat : Z; abs_resolution : Z }.

Definition abs_zero : input_absinfo := mkAbs 0 0 0 0 0 0.

(** ** TouchPoint and TouchDevice (include/input/TouchHelper.h) *)

Record TouchPoint := mkTouchPoint {
  pos : My_Vector2;
  startPos : My_Vector2;
  velocity : My_Vector2;
  id : Z;
  isDown : bool;
  pressure : Q;
  timestamp : Z }.

(** [TouchPoint()] *)
Definition TouchPoint_default : TouchPoint :=
  mkTouchPoint vzero vzero vzero 0 false 1 0.

Definition set_pos (p : My_Vector2) (f : TouchPoint) : TouchPoint :=
  mkTouchPoint p (startPos f) (velocity f) (id f) (isDown f) (pressure f) (timestamp f).
Definition set_pos_x (x : Q) (f : TouchPoint) : TouchPoint :=
  set_pos (mkVec x (vy (pos f))) f.
Definition set_pos_y (y : Q) (f : TouchPoint) : TouchPoint :=
  set_pos (mkVec (vx (pos f)) y) f.
Definition set_startPos (p : My_Vector2) (f : TouchPoint) : TouchPoint :=
  mkTouchPoint (pos f) p (velocity f) (id f) (isDown f) (pressure f) (timestamp f).
Definition set_velocity (v : My_Vector2) (f : TouchPoint) : TouchPoint :=
  mkTouchPoint (pos f) (startPos f) v (id f) (isDown f) (pressure f) (timestamp f).
Definition set_id (i : Z) (f : TouchPoint) : TouchPoint :=
  mkTouchPoint (pos f) (startPos f) (velocity f) i (isDown f) (pressure f) (timestamp f).
Definition set_isDown (b : bool) (f : TouchPoint) : TouchPoint :=
  mkTouchPoint (pos f) (startPos f) (velocity f) (id f) b (pressure f) (timestamp f).
Definition set_pressure (p : Q) (f : TouchPoint) : TouchPoint :=
  mkTouchPoint (pos f) (startPos f) (velocity f) (id f) (isDown f) p (timestamp f).
Definition set_timestamp (t : Z) (f : TouchPoint) : TouchPoint :=
  mkTouchPoint (pos f) (startPos f) (velocity f) (id f) (isDown f) (pressure f) t.

Record TouchDevice := mkTouchDevice {
  fd : Z;
  scaleX : Q;
  scaleY : Q;
  absX : input_absinfo;
  absY : input_absinfo;
  fingers : list TouchPoint }.

(** [TouchDevice()] : [TouchPoint fingers[10]] *)
Definition TouchDevice_default : TouchDevice :=
  mkTouchDevice (-1) 1 1 abs_zero abs_zero (replicate 10 TouchPoint_default).

Definition set_fingers (fs : list TouchPoint) (d : TouchDevice) : TouchDevice :=
  mkTouchDevice (fd d) (scaleX d) (scaleY d) (absX d) (absY d) fs.
Definition set_scales (sx sy : Q) (d : TouchDevice) : TouchDevice :=
  mkTouchDevice (fd d) sx sy (absX d) (absY d) (fingers d).

(** [device.fingers[slot] = f (device.fingers[slot])] *)
Definition alter_finger (slot : nat) (f : TouchPoint -> TouchPoint)
    (d : TouchDevice) : TouchDevice :=
  set_fingers (alter f slot (fingers d)) d.

(** ** Gestures *)

(** [enum class GestureType] *)
Module GestureType.
Inductive t := None | Tap | DoubleTap | LongPress | Swipe | Pinch | Rotate.
End GestureType.

Record GestureData := mkGesture {
  g_type : GestureType.t;
  g_position : My_Vector2;
  g_direction : My_Vector2;
  g_distance : Q;
  g_scale : Q;
  g_rotation : Q;
  g_fingerCount : Z }.

(** [GestureData()] *)
Definition GestureData_default : GestureData :=
  mkGesture GestureType.None vzero vzero 0 1 0 0.

Record GestureConfig := mkGestureConfig {
  tapMaxDistance : Q;
  tapMaxDuration : Z;
  doubleTapMaxInterval : Z;
  longPressMinDuration : Z;
  swipeMinDistance : Q;
  pinchMinDistance : Q;
  rotateMinAngle : Q }.

(** [GestureConfig()] *)
Definition GestureConfig_default : GestureConfig :=
  mkGestureConfig 20 300 400 500 50 20 (1 # 10).

(** The anonymous struct behind [g_gestureState]. *)
Record GestureState := mkGestureState {
  lastTapTime : Z;
  lastTapPos : My_Vector2;
  tapCount : Z;
  touchStartTime : Z;
  touchStartPos : My_Vector2;
  isLongPressing : bool }.

(** [g_gestureState = { 0 }] *)
Definition GestureState_zero : GestureState :=
  mkGestureState 0 vzero 0 0 vzero false.

(** ** Global state of namespace Input *)

(** The file-scope statics of TouchHelper.cpp, together with the two
    function-local statics [isFirstDown] (of [Upload]) and
    [lastCallbackTime] (of [TouchReadThread]).  A callback is modelled by
    the flag saying whether one is registered; its invocations appear in
    the output trace. *)
Record State := mkState {
  g_touchScale : My_Vector2;
  g_screenSize : My_Vector2;
  g_devices : list TouchDevice;
  g_outputFd : Z;
  g_orientation : Z;
  g_initialized : bool;
  g_readOnly : bool;
  g_gestureEnabled : bool;
  g_touchCallback : bool;
  g_gestureCallback : bool;
  g_gestureConfig : GestureConfig;
  g_gestureState : GestureState;
  isFirstDown : bool;
  lastCallbackTime : Z }.

(** The state of a freshly loaded process. *)
Definition State_initial : State :=
  mkState vzero vzero [] (-1) 0 false false false false false
          GestureConfig_default GestureState_zero true 0.

Definition set_g_touchScale (v : My_Vector2) (s : State) : State :=
  mkState v (g_screenSize s) (g_devices s) (g_outputFd s) (g_orientation s)
    (g_initialized s) (g_readOnly s) (g_gestureEnabled s) (g_touchCallback s)
    (g_gestureCallback s) (g_gestureConfig s) (g_gestureState s)
    (isFirstDown s) (lastCallbackTime s).
Definition set_g_screenSize (v : My_Vector2) (s : State) : State :=
  mkState (g_touchScale s) v (g_devices s) (g_outputFd s) (g_orientation s)
    (g_initialized s) (g_readOnly s) (g_gestureEnabled s) (g_touchCallback s)
    (g_gestureCallback s) (g_gestureConfig s) (g_gestureState s)
    (isFirstDown s) (lastCallbackTime s).
Definition set_g_devices (ds : list TouchDevice) (s : State) : State :=
  mkState (g_touchScale s) (g_screenSize s) ds (g_outputFd s) (g_orientation s)
    (g_initialized s) (g_readOnly s) (g_gestureEnabled s) (g_touchCallback s)
    (g_gestureCallback s) (g_gestureConfig s) (g_gestureState s)
    (isFirstDown s) (lastCallbackTime s).
Definition set_g_outputFd (o : Z) (s : State) : State :=
  mkState (g_touchScale s) (g_screenSize s) (g_devices s) o (g_orientation s)
    (g_initialized s) (g_readOnly s) (g_gestureEnabled s) (g_touchCallback s)
    (g_gestureCallback s) (g_gestureConfig s) (g_gestureState s)
    (isFirstDown s) (lastCallbackTime s).
Definition set_g_orientation (o : Z) (s : State) : State :=
  mkState (g_touchScale s) (g_screenSize s) (g_devices s) (g_outputFd s) o
    (g_initialized s) (g_readOnly s) (g_gestureEnabled s) (g_touchCallback s)
    (g_gestureCallback s) (g_gestureConfig s) (g_gestureState s)
    (isFirstDown s) (lastCallbackTime s).
Definition set_g_initialized (b : bool) (s : State) : State :=
  mkState (g_touchScale s) (g_screenSize s) (g_devices s) (g_outputFd s)
    (g_orientation s) b (g_readOnly s) (g_gestureEnabled s) (g_touchCallback s)
    (g_gestureCallback s) (g_gestureConfig s) (g_gestureState s)
    (isFirstDown s) (lastCallbackTime s).
Definition set_g_readOnly (b : bool) (s : State) : State :=
  mkState (g_touchScale s) (g_screenSize s) (g_devices s) (g_outputFd s)
    (g_orientation s) (g_initialized s) b (g_gestureEnabled s) (g_touchCallback s)
    (g_gestureCallback s) (g_gestureConfig s) (g_gestureState s)
    (isFirstDown s) (lastCallbackTime s).
Definition set_g_gestureEnabled (b : bool) (s : State) : State :=
  mkState (g_touchScale s) (g_screenSize s) (g_devices s) (g_outputFd s)
    (g_orientation s) (g_initialized s) (g_readOnly s) b (g_touchCallback s)
    (g_gestureCallback s) (g_gestureConfig s) (g_gestureState s)
    (isFirstDown s) (lastCallbackTime s).
Definition set_g_touchCallback (b : bool) (s : State) : State :=
  mkState (g_touchScale s) (g_screenSize s) (g_devices s) (g_outputFd s)
    (g_orientation s) (g_initialized s) (g_readOnly s) (g_gestureEnabled s) b
    (g_gestureCallback s) (g_gestureConfig s) (g_gestureState s)
    (isFirstDown s) (lastCallbackTime s).
Definition set_g_gestureCallback (b : bool) (s : State) : State :=
  mkState (g_touchScale s) (g_screenSize s) (g_devices s) (g_outputFd s)
    (g_orientation s) (g_initialized s) (g_readOnly s) (g_gestureEnabled s)
    (g_touchCallback s) b (g_gestureConfig s) (g_gestureState s)
    (isFirstDown s) (lastCallbackTime s).
Definition set_g_gestureConfig (c : GestureConfig) (s : State) : State :=
  mkState (g_touchScale s) (g_screenSize s) (g_devices s) (g_outputFd s)
    (g_orientation s) (g_initialized s) (g_readOnly s) (g_gestureEnabled s)
    (g_touchCallback s) (g_gestureCallback s) c (g_gestureState s)
    (isFirstDown s) (lastCallbackTime s).
Definition set_g_gestureState (g : GestureState) (s : State) : State :=
  mkState (g_touchScale s) (g_screenSize s) (g_devices s) (g_outputFd s)
    (g_orientation s) (g_initialized s) (g_readOnly s) (g_gestureEnabled s)
    (g_touchCallback s) (g_gestureCallback s) (g_gestureConfig s) g
    (isFirstDown s) (lastCallbackTime s).
Definition set_isFirstDown (b : bool) (s : State) : State :=
  mkState (g_touchScale s) (g_screenSize s) (g_devices s) (g_outputFd s)
    (g_orientation s) (g_initialized s) (g_readOnly s) (g_gestureEnabled s)
    (g_touchCallback s) (g_gestureCallback s) (g_gestureConfig s)
    (g_gestureState s) b (lastCallbackTime s).
Definition set_lastCallbackTime (t : Z) (s : State) : State :=
  mkState (g_touchScale s) (g_screenSize s) (g_devices s) (g_outputFd s)
    (g_orientation s) (g_initialized s) (g_readOnly s) (g_gestureEnabled s)
    (g_touchCallback s) (g_gestureCallback s) (g_gestureConfig s)
    (g_gestureState s) (isFirstDown s) t.

(** [g_devices[d].fingers[slot]], when both indices are in range. *)
Definition finger_at (ds : list TouchDevice) (d slot : nat) : option TouchPoint :=
  match ds !! d with
  | Some dev => fingers dev !! slot
  | None => None
  end.

(** What the module does to the outside world. *)
Inductive Output :=
  | GestureOut (g : GestureData)              (* g_gestureCallback(gesture) *)
  | TouchOut (ds : list TouchDevice)          (* g_touchCallback(&g_devices) *)
  | WriteOut (fd : Z) (buf : list input_event)  (* write(fd, buf, ...) *)
  | GrabOut (fd : Z)                          (* ioctl(fd, EVIOCGRAB, GRAB) *)
  | UngrabOut (fd : Z)                        (* ioctl(fd, EVIOCGRAB, UNGRAB) *)
  | CloseOut (fd : Z)                         (* close(fd) *)
  | DestroyOut (fd : Z).                      (* ioctl(fd, UI_DEV_DESTROY) *)

(** ** Simple setters and coordinate transforms *)

(** [orientation % 4] truncates toward zero in C++. *)
Definition SetOrientation (orientation : Z) (s : State) : State :=
  set_g_orientation (Z.rem orientation 4) s.

Definition SetTouchCallback (registered : bool) (s : State) : State :=
  set_g_touchCallback registered s.
Definition SetGestureCallback (registered : bool) (s : State) : State :=
  set_g_gestureCallback registered s.
Definition SetGestureConfig (c : GestureConfig) (s : State) : State :=
  set_g_gestureConfig c s.
Definition EnableGestureRecognition (enable : bool) (s : State) : State :=
  set_g_gestureEnabled enable s.

Definition TouchToScreen (s : State) (touchCoord : My_Vector2) : My_Vector2 :=
  let xt := (vx touchCoord / vx (g_touchScale s))%Q in
  let yt := (vy touchCoord / vy (g_touchScale s))%Q in
  if g_orientation s =? 1 then
    mkVec yt (vy (g_screenSize s) - xt)
  else if g_orientation s =? 2 then
    mkVec (vx (g_screenSize s) - xt) (vy (g_screenSize s) - yt)
  else if g_orientation s =? 3 then
    mkVec (vx (g_screenSize s) - yt) xt
  else
    mkVec xt yt.

Definition ScreenToTouch (s : State) (screenCoord : My_Vector2) : My_Vector2 :=
  vmul screenCoord (g_touchScale s).

(** ** Queries *)

Definition GetActiveTouches (s : State) : list TouchPoint :=
  filter (fun f => isDown f = true) (concat (map fingers (g_devices s))).

Definition GetTouchCount (s : State) : Z :=
  Z.of_nat (length (GetActiveTouches s)).

Definition IsTouching (s : State) : bool := 0 <? GetTouchCount s.

Definition GetTouchById (s : State) (i : Z) : option TouchPoint :=
  find (fun f => isDown f && (id f =? i)) (concat (map fingers (g_devices s))).

(** ** Injection: Upload *)

Definition ev (type code value : Z) : input_event := mkEvent type code value.

(** [g_input.downEvent] *)
Definition downEvent : list input_event :=
  [ev EV_KEY BTN_TOUCH 1; ev EV_KEY BTN_TOOL_FINGER 1].

(** The six events written for one down finger. *)
Definition finger_events (finger : TouchPoint) : list input_event :=
  [ ev EV_ABS ABS_X (Q_to_int (vx (pos finger)));
    ev EV_ABS ABS_Y (Q_to_int (vy (pos finger)));
    ev EV_ABS ABS_MT_POSITION_X (Q_to_int (vx (pos finger)));
    ev EV_ABS ABS_MT_POSITION_Y (Q_to_int (vy (pos finger)));
    ev EV_ABS ABS_MT_TRACKING_ID (id finger);
    ev EV_SYN SYN_MT_REPORT 0 ].

(** State of the two nested loops of [Upload]: the events stored so far
    (in order), [fingerCount], and whether [goto finish] was taken. *)
Record UploadLoop := mkLoop {
  lp_events : list input_event;
  lp_fingerCount : Z;
  lp_finished : bool }.

(** [for (auto &finger : device.fingers)] *)
Fixpoint Upload_fingers (fs : list TouchPoint) (l : UploadLoop) : UploadLoop :=
  match fs with
  | [] => l
  | finger :: rest =>
      if lp_finished l then l
      else if isDown finger then
        (* if (fingerCount++ > 20) goto finish; *)
        if 20 <? lp_fingerCount l then
          mkLoop (lp_events l) (lp_fingerCount l + 1) true
        else
          Upload_fingers rest
            (mkLoop (lp_events l ++ finger_events finger)
                    (lp_fingerCount l + 1) false)
      else Upload_fingers rest l
  end.

(** [for (auto &device : g_devices)] *)
Fixpoint Upload_devices (ds : list TouchDevice) (l : UploadLoop) : UploadLoop :=
  match ds with
  | [] => l
  | device :: rest =>
      if lp_finished l then l
      else Upload_devices rest (Upload_fingers (fingers device) l)
  end.

(** The part of [g_input.event] filled by one call, and the new value of
    [isFirstDown] before the final [write]. *)
Definition Upload_fill (s : State) : list input_event * bool * bool :=
  let events := lp_events (Upload_devices (g_devices s) (mkLoop [] 0 false)) in
  match events with
  | [] =>
      if negb (isFirstDown s) then
        ([ev EV_SYN SYN_MT_REPORT 0;
          ev EV_KEY BTN_TOUCH 0;
          ev EV_KEY BTN_TOOL_FINGER 0;
          ev EV_SYN SYN_REPORT 0], true, false)
      else
        ([ev EV_SYN SYN_MT_REPORT 0; ev EV_SYN SYN_REPORT 0], isFirstDown s, false)
  | _ :: _ =>
      (events ++ [ev EV_SYN SYN_REPORT 0], isFirstDown s, true)
  end.

(** The bytes handed to [write]: with [hasTouch && isFirstDown] the write
    starts at [&g_input], i.e. at [downEvent], and is two events longer. *)
Definition Upload_buffer (s : State) : list input_event :=
  match Upload_fill s with
  | (events, first, hasTouch) =>
      if hasTouch && first then downEvent ++ events else events
  end.

Definition Upload (s : State) : State * list Output :=
  match Upload_fill s with
  | (events, first, hasTouch) =>
      if hasTouch && first then
        (set_isFirstDown false s, [WriteOut (g_outputFd s) (downEvent ++ events)])
      else
        (set_isFirstDown first s, [WriteOut (g_outputFd s) events])
  end.

(** ** Synthetic input: Down, Move, Up *)

(** [g_devices[0].fingers[9] = f (g_devices[0].fingers[9])] *)
Definition alter_touch (f : TouchPoint -> TouchPoint) (s : State) : State :=
  set_g_devices (alter (alter_finger 9 f) 0%nat (g_devices s)) s.

Definition is_empty {A} (l : list A) : bool :=
  match l with [] => true | _ => false end.

Definition Down (now : Z) (x y : Q) (touchId : Z) (s : State) : State * list Output :=
  if is_empty (g_devices s) then (s, [])
  else
    let p := vmul (mkVec x y) (g_touchScale s) in
    Upload (alter_touch (fun touch =>
      set_timestamp now
        (set_isDown true
          (set_startPos p
            (set_pos p
              (set_id (if 0 <=? touchId then touchId else 19) touch))))) s).

Definition Move (x y : Q) (touchId : Z) (s : State) : State * list Output :=
  if is_empty (g_devices s) then (s, [])
  else
    Upload (alter_touch (set_pos (vmul (mkVec x y) (g_touchScale s))) s).

Definition Up (touchId : Z) (s : State) : State * list Output :=
  if is_empty (g_devices s) then (s, [])
  else Upload (alter_touch (set_isDown false) s).

(** ** Gesture recognition *)

Definition set_lastTap (t : Z) (p : My_Vector2) (g : GestureState) : GestureState :=
  mkGestureState t p (tapCount g) (touchStartTime g) (touchStartPos g) (isLongPressing g).
Definition set_tapCount (n : Z) (g : GestureState) : GestureState :=
  mkGestureState (lastTapTime g) (lastTapPos g) n (touchStartTime g) (touchStartPos g)
    (isLongPressing g).
Definition set_isLongPressing (b : bool) (g : GestureState) : GestureState :=
  mkGestureState (lastTapTime g) (lastTapPos g) (tapCount g) (touchStartTime g)
    (touchStartPos g) b.

Definition set_g_type (t : GestureType.t) (g : GestureData) : GestureData :=
  mkGesture t (g_position g) (g_direction g) (g_distance g) (g_scale g) (g_rotation g)
    (g_fingerCount g).
Definition set_g_position (p : My_Vector2) (g : GestureData) : GestureData :=
  mkGesture (g_type g) p (g_direction g) (g_distance g) (g_scale g) (g_rotation g)
    (g_fingerCount g).
Definition set_g_direction (p : My_Vector2) (g : GestureData) : GestureData :=
  mkGesture (g_type g) (g_position g) p (g_distance g) (g_scale g) (g_rotation g)
    (g_fingerCount g).
Definition set_g_distance (d : Q) (g : GestureData) : GestureData :=
  mkGesture (g_type g) (g_position g) (g_direction g) d (g_scale g) (g_rotation g)
    (g_fingerCount g).
Definition set_g_scale (d : Q) (g : GestureData) : GestureData :=
  mkGesture (g_type g) (g_position g) (g_direction g) (g_distance g) d (g_rotation g)
    (g_fingerCount g).
Definition set_g_fingerCount (n : Z) (g : GestureData) : GestureData :=
  mkGesture (g_type g) (g_position g) (g_direction g) (g_distance g) (g_scale g)
    (g_rotation g) n.

(** The first loop of [RecognizeGesture]: number of down slots and the
    sum of their positions. *)
Fixpoint count_active (fs : list TouchPoint) (activeCount : Z) (avgPos : My_Vector2)
    : Z * My_Vector2 :=
  match fs with
  | [] => (activeCount, avgPos)
  | f :: rest =>
      if isDown f then count_active rest (activeCount + 1) (vadd avgPos (pos f))
      else count_active rest activeCount avgPos
  end.

Definition Qabs_ (q : Q) : Q := if Qltb q 0 then (- q)%Q else q.

Section Recognizer.

(** [My_Vector2::length()], see the note on [My_Vector2]. *)
Variable vlen : My_Vector2 -> Q.

(** The branch [activeCount == 0]: the touch has ended. *)
Definition Recognize_ended (currentTime : Z) (avgPos : My_Vector2)
    (cfg : GestureConfig) (gs : GestureState) (gesture : GestureData)
    : GestureState * list Output :=
  let duration := currentTime - touchStartTime gs in
  let distance := vlen (vsub avgPos (touchStartPos gs)) in
  let '(gs1, out) :=
    if (duration <? tapMaxDuration cfg) && Qltb distance (tapMaxDistance cfg) then
      if (currentTime - lastTapTime gs <? doubleTapMaxInterval cfg)
         && Qltb (vlen (vsub avgPos (lastTapPos gs))) (tapMaxDistance cfg)
      then
        (set_tapCount 0 gs,
         [GestureOut (set_g_position avgPos (set_g_type GestureType.DoubleTap gesture))])
      else
        (set_lastTap currentTime avgPos gs,
         [GestureOut (set_g_position avgPos (set_g_type GestureType.Tap gesture))])
    else if Qltb (swipeMinDistance cfg) distance then
      (gs,
       [GestureOut
          (set_g_distance distance
            (set_g_direction (vdiv (vsub avgPos (touchStartPos gs)) distance)
              (set_g_position (touchStartPos gs)
                (set_g_type GestureType.Swipe gesture))))])
    else (gs, [])
  in (set_isLongPressing false gs1, out).

(** The branch [activeCount != 0]: long press, then pinch. *)
Definition Recognize_active (currentTime : Z) (activeCount : Z) (sumPos : My_Vector2)
    (device : TouchDevice) (cfg : GestureConfig) (gs : GestureState)
    (gesture0 : GestureData) : GestureState * list Output :=
  let avgPos := vdiv sumPos (inject_Z activeCount) in
  let gesture := set_g_fingerCount activeCount gesture0 in
  let '(gs1, gesture1, out1) :=
    if negb (isLongPressing gs) then
      let duration := currentTime - touchStartTime gs in
      let distance := vlen (vsub avgPos (touchStartPos gs)) in
      if (longPressMinDuration cfg <? duration) && Qltb distance (tapMaxDistance cfg) then
        let g := set_g_position avgPos (set_g_type GestureType.LongPress gesture) in
        (set_isLongPressing true gs, g, [GestureOut g])
      else (gs, gesture, [])
    else (gs, gesture, [])
  in
  let out2 :=
    if activeCount =? 2 then
      match filter (fun f => isDown f = true) (fingers device) with
      | t1 :: t2 :: _ =>
          let currentDist := vlen (vsub (pos t1) (pos t2)) in
          let startDist := vlen (vsub (startPos t1) (startPos t2)) in
          let distChange := Qabs_ (currentDist - startDist) in
          if Qltb (pinchMinDistance cfg) distChange then
            [GestureOut
               (set_g_scale (currentDist / startDist)
                 (set_g_position (vdiv (vadd (pos t1) (pos t2)) 2)
                   (set_g_type GestureType.Pinch gesture1)))]
          else []
      | _ => []
      end
    else []
  in (gs1, out1 ++ out2).

Definition RecognizeGesture (currentTime : Z) (device : TouchDevice) (s : State)
    : State * list Output :=
  if negb (g_gestureEnabled s) || negb (g_gestureCallback s) then (s, [])
  else
    let '(activeCount, avgPos) := count_active (fingers device) 0 vzero in
    let '(gs, out) :=
      if activeCount =? 0 then
        Recognize_ended currentTime avgPos (g_gestureConfig s) (g_gestureState s)
          GestureData_default
      else
        Recognize_active currentTime activeCount avgPos device (g_gestureConfig s)
          (g_gestureState s) GestureData_default
    in (set_g_gestureState gs s, out).

(** ** The reader thread *)

(** [ABS_MT_SLOT]: a value outside [0, MAX_FINGERS) selects slot 0. *)
Definition select_slot (value : Z) : nat :=
  if (value <? 0) || (MAX_FINGERS <=? value) then 0%nat else Z.to_nat value.

(** Identity given to a contact that arrives on [currentSlot] of the
    device read by thread [deviceIndex]. *)
Definition contact_id (deviceIndex currentSlot : nat) : Z :=
  (Z.of_nat deviceIndex * 2 + 1) * MAX_FINGERS + Z.of_nat currentSlot.

(** The [else] branch of the tracking-id case: a contact arrives. *)
Definition contact_arrival (deviceIndex currentSlot : nat) (now : Z)
    (finger : TouchPoint) : TouchPoint :=
  set_timestamp now
    (set_startPos (pos finger)
      (set_isDown true
        (set_id (contact_id deviceIndex currentSlot) finger))).

(** [device.fingers[currentSlot] = f (...)] for [device = g_devices[deviceIndex]] *)
Definition alter_slot (deviceIndex currentSlot : nat) (f : TouchPoint -> TouchPoint)
    (s : State) : State :=
  set_g_devices (alter (alter_finger currentSlot f) deviceIndex (g_devices s)) s.

(** The velocity loop run at a report boundary. *)
Definition update_velocity (now : Z) (finger : TouchPoint) : TouchPoint :=
  if isDown finger then
    if 0 <? now - timestamp finger then
      set_velocity (vsub (pos finger) (startPos finger)) finger
    else finger
  else finger.

Definition MIN_CALLBACK_INTERVAL : Z := 4.

(** Handling of [EV_SYN]/[SYN_REPORT]. *)
Definition report_boundary (deviceIndex : nat) (now : Z) (s : State)
    : State * list Output :=
  let s1 :=
    set_g_devices
      (alter (fun device => set_fingers (map (update_velocity now) (fingers device)) device)
             deviceIndex (g_devices s)) s in
  let '(s2, out2) :=
    if g_gestureEnabled s1 then
      match g_devices s1 !! deviceIndex with
      | Some device => RecognizeGesture now device s1
      | None => (s1, [])
      end
    else (s1, []) in
  if now - lastCallbackTime s2 <? MIN_CALLBACK_INTERVAL then (s2, out2)
  else
    let s3 := set_lastCallbackTime now s2 in
    if g_touchCallback s3 then (s3, out2 ++ [TouchOut (g_devices s3)])
    else if negb (g_readOnly s3) then
      let '(s4, out4) := Upload s3 in (s4, out2 ++ out4)
    else (s3, out2).

(** One iteration of the [for] loop of [TouchReadThread] on event [ie],
    for the thread of device [deviceIndex] whose local variable
    [currentSlot] is threaded through. *)
Definition TouchReadThread_event (deviceIndex : nat) (now : Z) (ie : input_event)
    (s : State) (currentSlot : nat) : State * nat * list Output :=
  if (ie_type ie =? EV_ABS) && (ie_code ie =? ABS_MT_SLOT) then
    (s, select_slot (ie_value ie), [])
  else if (ie_type ie =? EV_ABS) && (ie_code ie =? ABS_MT_TRACKING_ID) then
    if ie_value ie =? -1 then
      (alter_slot deviceIndex currentSlot (set_isDown false) s, currentSlot, [])
    else
      (alter_slot deviceIndex currentSlot
         (contact_arrival deviceIndex currentSlot now) s, currentSlot, [])
  else if (ie_type ie =? EV_ABS) && (ie_code ie =? ABS_MT_POSITION_X) then
    match g_devices s !! deviceIndex with
    | Some device =>
        (alter_slot deviceIndex currentSlot
           (set_pos_x (inject_Z (ie_value ie) * scaleX device)) s, currentSlot, [])
    | None => (s, currentSlot, [])
    end
  else if (ie_type ie =? EV_ABS) && (ie_code ie =? ABS_MT_POSITION_Y) then
    match g_devices s !! deviceIndex with
    | Some device =>
        (alter_slot deviceIndex currentSlot
           (set_pos_y (inject_Z (ie_value ie) * scaleY device)) s, currentSlot, [])
    | None => (s, currentSlot, [])
    end
  else if (ie_type ie =? EV_ABS) && (ie_code ie =? ABS_MT_PRESSURE) then
    (alter_slot deviceIndex currentSlot
       (set_pressure (inject_Z (ie_value ie) / 255)) s, currentSlot, [])
  else if (ie_type ie =? EV_SYN) && (ie_code ie =? SYN_REPORT) then
    let '(s', out) := report_boundary deviceIndex now s in (s', currentSlot, out)
  else (s, currentSlot, []).

(** The events of one [read], decoded in order under the lock.  Each
    event comes with the clock reading taken while it is handled. *)
Fixpoint TouchReadThread_batch (deviceIndex : nat) (batch : list (Z * input_event))
    (s : State) (currentSlot : nat) : State * nat * list Output :=
  match batch with
  | [] => (s, currentSlot, [])
  | (now, ie) :: rest =>
      let '(s1, slot1, out1) := TouchReadThread_event deviceIndex now ie s currentSlot in
      let '(s2, slot2, out2) := TouchReadThread_batch deviceIndex rest s1 slot1 in
      (s2, slot2, out1 ++ out2)
  end.

(** All reader threads together.  The lock serialises the batches, so a
    run is a sequence of (device index, batch); [slots d] is the local
    [currentSlot] of the thread reading device [d] (initially 0). *)
Fixpoint run_readers (trace : list (nat * list (Z * input_event)))
    (s : State) (slots : nat -> nat) : State * (nat -> nat) * list Output :=
  match trace with
  | [] => (s, slots, [])
  | (d, batch) :: rest =>
      let '(s1, slot1, out1) := TouchReadThread_batch d batch s (slots d) in
      let '(s2, slots2, out2) :=
        run_readers rest s1 (fun d' => if Nat.eqb d' d then slot1 else slots d') in
      (s2, slots2, out1 ++ out2)
  end.

End Recognizer.

Definition slots_initial : nat -> nat := fun _ => 0%nat.

(** ** Shutdown and initialisation *)

Definition Close (s : State) : State * list Output :=
  if g_initialized s then
    let out_devices :=
      flat_map (fun device =>
                  (if negb (g_readOnly s) then [UngrabOut (fd device)] else [])
                  ++ [CloseOut (fd device)]) (g_devices s) in
    if 0 <? g_outputFd s then
      (set_g_devices [] (set_g_outputFd (-1) (set_g_initialized false s)),
       out_devices ++ [DestroyOut (g_outputFd s); CloseOut (g_outputFd s)])
    else
      (set_g_devices [] (set_g_initialized false s), out_devices)
  else (s, []).

Definition IsInitialized (s : State) : bool := g_initialized s.

(** [CheckDeviceIsTouch], on the bytes that [EVIOCGBIT(EV_ABS)] returns:
    bit [k] of byte [j] announces axis code [j * 8 + k]. *)
Definition has_axis (bits : list Z) (code : Z) : bool :=
  Z.testbit (nth (Z.to_nat (code / 8)) bits 0) (code mod 8).
Definition CheckDeviceIsTouch (bits : list Z) : bool :=
  has_axis bits ABS_MT_SLOT && has_axis bits ABS_MT_POSITION_X
  && has_axis bits ABS_MT_POSITION_Y.

(** What the operating system answers during [Init]. *)
Record DevNode := mkNode {
  node_fd : Z;                          (* open(path, O_RDWR), negative on failure *)
  node_bits : list Z;                   (* EVIOCGBIT(EV_ABS) *)
  node_absX : option input_absinfo;     (* EVIOCGABS(ABS_MT_POSITION_X), if it returns 0 *)
  node_absY : option input_absinfo }.   (* EVIOCGABS(ABS_MT_POSITION_Y), if it returns 0 *)

Record Env := mkEnv {
  env_opendir : bool;         (* opendir("/dev/input/") returned a directory *)
  env_eventCount : nat;       (* entries whose name contains "event" *)
  env_node : nat -> DevNode;  (* /dev/input/event<i> *)
  env_uinput_fd : Z;          (* open("/dev/uinput", O_WRONLY | O_NONBLOCK) *)
  env_dev_create : Z }.       (* ioctl(g_outputFd, UI_DEV_CREATE) *)

(** The probing loop [for (i = 0; i <= eventCount; i++)]. *)
Fixpoint probe_devices (env : Env) (readOnly : bool) (indices : list nat)
    : list TouchDevice * list Output :=
  match indices with
  | [] => ([], [])
  | i :: rest =>
      let node := env_node env i in
      let '(ds, out) := probe_devices env readOnly rest in
      if node_fd node <? 0 then (ds, out)
      else if CheckDeviceIsTouch (node_bits node) then
        match node_absX node, node_absY node with
        | Some ax, Some ay =>
            (mkTouchDevice (node_fd node) 1 1 ax ay (fingers TouchDevice_default) :: ds,
             (if negb readOnly then [GrabOut (node_fd node)] else []) ++ out)
        | _, _ => (ds, out)
        end
      else (ds, CloseOut (node_fd node) :: out)
  end.

Definition Init (env : Env) (screenSize : My_Vector2) (readOnly : bool) (s : State)
    : State * bool * list Output :=
  let '(s0, out0) := Close s in
  let s1 := set_g_readOnly readOnly (set_g_devices [] s0) in
  let s2 :=
    set_g_screenSize
      (if Qltb (vy screenSize) (vx screenSize) then screenSize
       else mkVec (vy screenSize) (vx screenSize)) s1 in
  if negb (env_opendir env) then (s2, false, out0)
  else
    let '(devices, out1) := probe_devices env readOnly (seq 0 (S (env_eventCount env))) in
    let s3 := set_g_devices devices s2 in
    match devices with
    | [] => (s3, false, out0 ++ out1)
    | first :: _ =>
        let touchWidth := abs_maximum (absX first) in
        let touchHeight := abs_maximum (absY first) in
        let s4 := if readOnly then s3 else set_g_outputFd (env_uinput_fd env) s3 in
        if negb readOnly && (env_uinput_fd env <=? 0) then (s4, false, out0 ++ out1)
        else if negb readOnly && negb (env_dev_create env =? 0) then
          (s4, false, out0 ++ out1)
        else
          let scaled :=
            map (fun device =>
                   set_scales (inject_Z touchWidth / inject_Z (abs_maximum (absX device)))
                              (inject_Z touchHeight / inject_Z (abs_maximum (absY device)))
                              device) devices in
          let actualSize :=
            if Qltb (vy screenSize) (vx screenSize)
            then mkVec (vy screenSize) (vx screenSize) else screenSize in
          let s5 :=
            set_g_initialized true
              (set_g_touchScale
                 (mkVec (inject_Z touchWidth / vx actualSize)
                        (inject_Z touchHeight / vy actualSize))
                 (set_g_devices scaled s4)) in
          (s5, true, out0 ++ out1)
    end.

(** ** Timed tap and swipe *)

Definition TouchAt (now : Z) (p : My_Vector2) (durationMs : Z) (s : State)
    : State * list Output :=
  let '(s1, out1) := Down now (vx p) (vy p) 0 s in
  let '(s2, out2) := Up 0 s1 in
  (s2, out1 ++ out2).

(** [int steps = durationMs / 16;] : integer division truncates. *)
Definition Swipe_steps (durationMs : Z) : Z := Z.quot durationMs 16.

(** [My_Vector2 delta = (end - start) / steps;] *)
Definition Swipe_delta (start end_ : My_Vector2) (durationMs : Z) : option My_Vector2 :=
  vdiv_int (vsub end_ start) (Swipe_steps durationMs).

(** [for (int i = 1; i < steps; i++)], [n] iterations left. *)
Fixpoint Swipe_loop (start delta : My_Vector2) (n : nat) (i : Z) (s : State)
    : State * list Output :=
  match n with
  | O => (s, [])
  | S n' =>
      let p := vadd start (vscale delta (inject_Z i)) in
      let '(s1, out1) := Move (vx p) (vy p) 0 s in
      let '(s2, out2) := Swipe_loop start delta n' (i + 1) s1 in
      (s2, out1 ++ out2)
  end.

(** The loop body uses [delta] only when [steps >= 2]; with [steps = 0]
    the quotient is undefined and the loop does not run. *)
Definition Swipe (now : Z) (start end_ : My_Vector2) (durationMs : Z) (s : State)
    : State * list Output :=
  let steps := Swipe_steps durationMs in
  let '(s1, out1) := Down now (vx start) (vy start) 0 s in
  let '(s2, out2) :=
    match Swipe_delta start end_ durationMs with
    | Some delta => Swipe_loop start delta (Z.to_nat (steps - 1)) 1 s1
    | None => (s1, [])
    end in
  let '(s3, out3) := Move (vx end_) (vy end_) 0 s2 in
  let '(s4, out4) := Up 0 s3 in
  (s4, out1 ++ out2 ++ out3 ++ out4).

(** ** Concrete configurations used by the examples *)

(** Axis bitmap announcing codes 47, 53 and 54. *)
Definition touch_bits : list Z := [0; 0; 0; 0; 0; 128; 96].

(** A 1080 x 2400 touch panel behind /dev/input/event0. *)
Definition panel_node : DevNode :=
  mkNode 3 touch_bits (Some (mkAbs 0 0 1080 0 0 0)) (Some (mkAbs 0 0 2400 0 0 0)).
Definition absent_node : DevNode := mkNode (-1) [] None None.

Definition env_panels (panels : nat) (uinput_fd dev_create : Z) : Env :=
  mkEnv true panels
        (fun i => if Nat.ltb i panels then panel_node else absent_node)
        uinput_fd dev_create.

Definition portrait : My_Vector2 := mkVec 1080 2400.

(** Read-only start on one panel, as main.cpp does it. *)
Definition st_readonly : State :=
  fst (fst (Init (env_panels 1 (-1) (-1)) portrait true State_initial)).

(** Start in injection mode with a working /dev/uinput (descriptor 4). *)
Definition st_inject : State :=
  fst (fst (Init (env_panels 1 4 0) portrait false State_initial)).

(** Injection mode where /dev/uinput cannot be opened. *)
Definition init_no_uinput : State * bool * list Output :=
  Init (env_panels 1 (-1) 0) portrait false State_initial.

(** Read-only start with gesture recognition switched on and a gesture
    callback registered. *)
Definition st_gestures : State :=
  SetGestureCallback true (EnableGestureRecognition true st_readonly).

Definition abs_event (code value : Z) : input_event := ev EV_ABS code value.
Definition syn_report : input_event := ev EV_SYN SYN_REPORT 0.

(** A clock reading in milliseconds since the epoch. *)
Definition t0 : Z := 1759104000000.

(** One finger arrives on slot 0 at (100, 200) ... *)
Definition batch_down : list (Z * input_event) :=
  [ (t0, abs_event ABS_MT_SLOT 0);
    (t0, abs_event ABS_MT_POSITION_X 100);
    (t0, abs_event ABS_MT_POSITION_Y 200);
    (t0, abs_event ABS_MT_TRACKING_ID 7);
    (t0, syn_report) ].

(** ... and leaves 50 ms later without having moved. *)
Definition batch_up : list (Z * input_event) :=
  [ (t0 + 50, abs_event ABS_MT_TRACKING_ID (-1));
    (t0 + 50, syn_report) ].

Definition tap_trace : list (nat * list (Z * input_event)) :=
  [ (0%nat, batch_down); (0%nat, batch_up) ].

(** Every slot of devices [0 .. devices-1] receives a contact. *)
Definition slot_down (k : nat) : list (Z * input_event) :=
  [ (t0, abs_event ABS_MT_SLOT (Z.of_nat k));
    (t0, abs_event ABS_MT_TRACKING_ID (Z.of_nat k)) ].
Definition all_slots_down (devices : nat) : list (nat * list (Z * input_event)) :=
  map (fun d => (d, flat_map slot_down (seq 0 10))) (seq 0 devices).

(** Three panels, injection mode, all thirty slots down. *)
Definition st_three_panels : State :=
  fst (fst (Init (env_panels 3 4 0) portrait false State_initial)).
Definition st_thirty_down : State :=
  fst (fst (run_readers vec_length (all_slots_down 3) st_three_panels slots_initial)).

(** Number of tracking-id events, i.e. of per-finger groups, in a buffer. *)
Definition count_groups (buf : list input_event) : nat :=
  length (filter (fun e => (ie_type e =? EV_ABS) && (ie_code e =? ABS_MT_TRACKING_ID) = true) buf).

(** The registry right before the [Upload] call inside [Up], after a
    synthetic [Down] at (100, 200) in injection mode. *)
Definition st_lifted : State :=
  alter_touch (set_isDown false) (fst (Down t0 100 200 0 st_inject)).

(** A slot takes part in queries and uploads when its flag is set. *)
Definition is_down (f : TouchPoint) : Prop := isDown f = true.

(** Admissible batches and runs: [ok now ie] is asked of every event. *)
Definition batch_ok (ok : Z -> input_event -> bool) (batch : list (Z * input_event))
    : bool :=
  forallb (fun e => ok (fst e) (snd e)) batch.
Definition trace_ok (ok : Z -> input_event -> bool)
    (trace : list (nat * list (Z * input_event))) : bool :=
  forallb (fun b => batch_ok ok (snd b)) trace.

(** ** Predicates used in the statements *)

(** The fields of the state that the recogniser and the claims read. *)
Record Frame := mkFrame {
  fr_config : GestureConfig;
  fr_startTime : Z;
  fr_startPos : My_Vector2;
  fr_enabled : bool;
  fr_callback : bool;
  fr_touchScale : My_Vector2;
  fr_screenSize : My_Vector2;
  fr_orientation : Z;
  fr_initialized : bool;
  fr_readOnly : bool;
  fr_outputFd : Z }.

Definition frame_of (s : State) : Frame :=
  mkFrame (g_gestureConfig s) (touchStartTime (g_gestureState s))
          (touchStartPos (g_gestureState s)) (g_gestureEnabled s)
          (g_gestureCallback s) (g_touchScale s) (g_screenSize s)
          (g_orientation s) (g_initialized s) (g_readOnly s) (g_outputFd s).

(** Every slot of the registry satisfies [P], which may depend on the
    device index and the slot index. *)
Definition slots_satisfy (P : nat -> nat -> TouchPoint -> Prop)
    (ds : list TouchDevice) : Prop :=
  forall d k f, finger_at ds d k = Some f -> P d k f.

(** A registry as [Init] leaves it: ten slots per device, none down. *)
Definition registry_idle (s : State) : bool :=
  forallb (fun device =>
             Nat.eqb (length (fingers device)) 10
             && forallb (fun f => negb (isDown f)) (fingers device))
          (g_devices s).

(** A down slot sits below index 10 and carries the identity of its place. *)
Definition placed (d k : nat) (f : TouchPoint) : Prop :=
  isDown f = true -> (k < 10)%nat /\ id f = contact_id d k.

Definition pressure_normal (f : TouchPoint) : bool :=
  Qle_bool 0 (pressure f) && Qle_bool (pressure f) 1.

Definition registry_pressures_normal (s : State) : bool :=
  forallb (fun device => forallb pressure_normal (fingers device)) (g_devices s).

(** A pressure-axis event is in range when its raw value is in 0 .. 255;
    events of other kinds always are. *)
Definition pressure_in_range (now : Z) (ie : input_event) : bool :=
  if (ie_type ie =? EV_ABS) && (ie_code ie =? ABS_MT_PRESSURE)
  then (0 <=? ie_value ie) && (ie_value ie <=? 255)
  else true.

(** The tap of [tap_trace] with a pressure report of 128 added. *)
Definition pressure_trace : list (nat * list (Z * input_event)) :=
  [ (0%nat, (t0, abs_event ABS_MT_PRESSURE 128) :: batch_down); (0%nat, batch_up) ].

Definition is_tap_gesture (o : Output) : bool :=
  match o with
  | GestureOut g =>
      match g_type g with
      | GestureType.Tap | GestureType.DoubleTap => true
      | _ => false
      end
  | _ => false
  end.

(** The clock reading of the event is not before [limit]. *)
Definition not_before (limit : Z) (now : Z) (ie : input_event) : bool :=
  limit <=? now.

(** ** Further entry points and the loops behind them *)

(** The scanning loops of [CheckDeviceIsTouch]: for every byte [j] and
    every bit [k] of it, [bits[j] & (1 << k)] decides whether axis code
    [j * 8 + k] is announced; the three flags only ever turn true. *)
Definition scan_bit (j byte : Z) (flags : bool * bool * bool) (k : Z)
    : bool * bool * bool :=
  if negb (Z.land byte (Z.shiftl 1 k) =? 0) then
    let code := j * 8 + k in
    let '(hasSlot, hasPosX, hasPosY) := flags in
    (if code =? ABS_MT_SLOT then true else hasSlot,
     if code =? ABS_MT_POSITION_X then true else hasPosX,
     if code =? ABS_MT_POSITION_Y then true else hasPosY)
  else flags.

Definition scan_byte (j byte : Z) (flags : bool * bool * bool) : bool * bool * bool :=
  fold_left (scan_bit j byte) [0; 1; 2; 3; 4; 5; 6; 7] flags.

Fixpoint scan_bytes (j : Z) (bits : list Z) (flags : bool * bool * bool)
    : bool * bool * bool :=
  match bits with
  | [] => flags
  | byte :: rest => scan_bytes (j + 1) rest (scan_byte j byte flags)
  end.

Definition CheckDeviceIsTouch_scan (bits : list Z) : bool :=
  let '(hasSlot, hasPosX, hasPosY) := scan_bytes 0 bits (false, false, false) in
  hasSlot && hasPosX && hasPosY.

(** The counting loops of [GetTouchCount]. *)
Fixpoint count_fingers (fs : list TouchPoint) (count : Z) : Z :=
  match fs with
  | [] => count
  | finger :: rest => count_fingers rest (if isDown finger then count + 1 else count)
  end.

Fixpoint count_devices (ds : list TouchDevice) (count : Z) : Z :=
  match ds with
  | [] => count
  | device :: rest => count_devices rest (count_fingers (fingers device) count)
  end.

Definition GetTouchCount_loop (s : State) : Z := count_devices (g_devices s) 0.

(** The search loops shared by the pointer-returning queries: the first
    slot (in registry order) that satisfies [test], as the place
    (device index, slot index) the returned pointer refers to. *)
Fixpoint find_finger (test : TouchPoint -> bool) (fs : list TouchPoint) (k : nat)
    : option nat :=
  match fs with
  | [] => None
  | finger :: rest => if test finger then Some k else find_finger test rest (S k)
  end.

Fixpoint find_touch (test : TouchPoint -> bool) (ds : list TouchDevice) (d : nat)
    : option (nat * nat) :=
  match ds with
  | [] => None
  | device :: rest =>
      match find_finger test (fingers device) 0 with
      | Some k => Some (d, k)
      | None => find_touch test rest (S d)
      end
  end.

(** [GetTouchById]: the place of the returned [TouchPoint *], [None] for
    [nullptr]. *)
Definition GetTouchById_place (s : State) (i : Z) : option (nat * nat) :=
  find_touch (fun finger => isDown finger && (id finger =? i)) (g_devices s) 0.

(** [IsTouchingAt]: the squared distance is taken in screen coordinates;
    the local [touchPos] of the source is computed and never used. *)
Definition IsTouchingAt (s : State) (p : My_Vector2) (radius : Q) : bool :=
  let radiusSq := (radius * radius)%Q in
  existsb (fun device =>
    existsb (fun finger =>
      isDown finger &&
      (let screenFinger := TouchToScreen s (pos finger) in
       let distSq :=
         (vx (vsub screenFinger p) * vx (vsub screenFinger p)
          + vy (vsub screenFinger p) * vy (vsub screenFinger p))%Q in
       Qle_bool distSq radiusSq))
      (fingers device))
    (g_devices s).

(** [std::numeric_limits<float>::max()] *)
Definition FLT_MAX : Q := inject_Z 340282346638528859811704183484516925440.

(** The loops of [GetNearestTouch]; the accumulator is the pair
    ([nearest], [minDist]) and [nearest] is kept as a place. *)
Fixpoint nearest_fingers (vlen : My_Vector2 -> Q) (touchPos : My_Vector2) (d : nat)
    (fs : list TouchPoint) (k : nat) (acc : option (nat * nat) * Q)
    : option (nat * nat) * Q :=
  match fs with
  | [] => acc
  | finger :: rest =>
      nearest_fingers vlen touchPos d rest (S k)
        (if isDown finger then
           let dist := vlen (vsub (pos finger) touchPos) in
           if Qltb dist (snd acc) then (Some (d, k), dist) else acc
         else acc)
  end.

Fixpoint nearest_devices (vlen : My_Vector2 -> Q) (touchPos : My_Vector2)
    (ds : list TouchDevice) (d : nat) (acc : option (nat * nat) * Q)
    : option (nat * nat) * Q :=
  match ds with
  | [] => acc
  | device :: rest =>
      nearest_devices vlen touchPos rest (S d)
        (nearest_fingers vlen touchPos d (fingers device) 0 acc)
  end.

Definition GetNearestTouch (vlen : My_Vector2 -> Q) (s : State) (p : My_Vector2)
    : option (nat * nat) :=
  fst (nearest_devices vlen (ScreenToTouch s p) (g_devices s) 0 (None, FLT_MAX)).

Definition GetScale (s : State) : My_Vector2 := g_touchScale s.
Definition GetGestureConfig (s : State) : GestureConfig := g_gestureConfig s.
Definition IsGestureRecognitionEnabled (s : State) : bool := g_gestureEnabled s.

(** The touch set-up of [RenderThread] in main.cpp: read-only start,
    orientation from the window's aspect, callback registration.  [None]
    stands for the early [return] after a failed [Init]. *)
Definition RenderThread_touch_setup (env : Env) (actualWidth actualHeight : Z)
    (s : State) : option State :=
  let '(s1, started, _) :=
    Init env (mkVec (inject_Z actualWidth) (inject_Z actualHeight)) true s in
  if started then
    Some (SetTouchCallback true
            (SetOrientation (if actualHeight <? actualWidth then 1 else 0) s1))
  else None.

(** The re-initialisation [RenderThread] performs when the display's
    orientation changed: [Close], [Init] (its result is not looked at),
    [SetOrientation], [SetTouchCallback]. *)
Definition RenderThread_touch_reinit (env : Env) (width height : Z)
    (s : State) : State :=
  let currentOrientation := if height <? width then 1 else 0 in
  let '(s1, _) := Close s in
  let '(s2, _, _) :=
    Init env (mkVec (inject_Z width) (inject_Z height)) true s1 in
  SetTouchCallback true (SetOrientation currentOrientation s2).

(** Kinds of output. *)
Definition is_write (o : Output) : bool :=
  match o with WriteOut _ _ => true | _ => false end.
Definition is_gesture (o : Output) : bool :=
  match o with GestureOut _ => true | _ => false end.
Definition is_long_press (o : Output) : bool :=
  match o with
  | GestureOut g => match g_type g with GestureType.LongPress => true | _ => false end
  | _ => false
  end.
Definition is_grab (o : Output) : bool :=
  match o with GrabOut _ => true | _ => false end.

(** Bit [k] of byte [c - j] of [bits], when the list is taken to start at
    byte index [j]; ioctl bytes beyond the returned ones count as zero. *)
Definition announced_from (j : Z) (bits : list Z) (c k : Z) : bool :=
  (j <=? c) && Z.testbit (nth (Z.to_nat (c - j)) bits 0) k.

(** * Properties *)

(** ** Coordinate transforms *)

(** Without rotation the two transforms are inverse to each other, as
    long as the scale factors are not zero. *)
Lemma roundtrip_unrotated (s : State) (p : My_Vector2) :
  g_orientation s = 0 ->
  ~ (vx (g_touchScale s) == 0)%Q ->
  ~ (vy (g_touchScale s) == 0)%Q ->
  veq (ScreenToTouch s (TouchToScreen s p)) p.
Proof.
  intros Ho Hx Hy. unfold ScreenToTouch, TouchToScreen, veq, vmul.
  rewrite Ho. cbn [Z.eqb vx vy].
  split; field; assumption.
Qed.

Lemma roundtrip_unrotated_witness :
  veq (ScreenToTouch st_readonly (TouchToScreen st_readonly (mkVec 100 200)))
      (mkVec 100 200).
Proof.
  apply (roundtrip_unrotated st_readonly (mkVec 100 200)).
  - reflexivity.
  - vm_compute. discriminate.
  - vm_compute. discriminate.
Defined.

(** C1.  [ScreenToTouch] only multiplies by the scale and never undoes
    the rotation that [TouchToScreen] applies: on a 1080 x 2400 panel
    started in portrait, the touch point (0, 0) does not come back under
    any of the orientation codes 1, 2 and 3. *)
Theorem ScreenToTouch_ignores_rotation :
  let back o :=
    ScreenToTouch (SetOrientation o st_readonly)
      (TouchToScreen (SetOrientation o st_readonly) vzero) in
  back 1 = mkVec (0 # 2592000) (2799360000 # 2592000) /\
  ~ veq (back 1) vzero /\ ~ veq (back 2) vzero /\ ~ veq (back 3) vzero.
Proof.
  cbv zeta. split; [vm_compute; reflexivity|].
  repeat split; intros [Hx Hy]; vm_compute in Hx, Hy; discriminate.
Qed.

(** ** Swipe *)

(** C10.  With [durationMs >= 16] the step count [durationMs / 16] is at
    least one, so the divisor of the per-step delta is not zero and the
    delta is defined: it is the [steps]-th part of the displacement. *)
Theorem Swipe_divisor_nonzero (start end_ : My_Vector2) (durationMs : Z) :
  16 <= durationMs ->
  Swipe_steps durationMs = Z.quot durationMs 16 /\
  1 <= Swipe_steps durationMs /\
  Swipe_steps durationMs <> 0 /\
  exists delta,
    Swipe_delta start end_ durationMs = Some delta /\
    veq (vscale delta (inject_Z (Swipe_steps durationMs))) (vsub end_ start).
Proof.
  intros Hd.
  assert (Hsteps : 1 <= Swipe_steps durationMs).
  { unfold Swipe_steps. rewrite Z.quot_div_nonneg by lia.
    apply Z.div_le_lower_bound; lia. }
  split; [reflexivity|]. split; [exact Hsteps|]. split; [lia|].
  unfold Swipe_delta, vdiv_int.
  destruct (Swipe_steps durationMs =? 0) eqn:E; [apply Z.eqb_eq in E; lia|].
  eexists. split; [reflexivity|].
  assert (Hq : ~ (inject_Z (Swipe_steps durationMs) == 0)%Q).
  { intros H. unfold Qeq in H. cbn in H. lia. }
  unfold veq, vscale, vdiv; cbn [vx vy]. split; field; exact Hq.
Qed.

Lemma Swipe_divisor_nonzero_witness :
  Swipe_steps 300 = Z.quot 300 16 /\
  1 <= Swipe_steps 300 /\
  Swipe_steps 300 <> 0 /\
  exists delta,
    Swipe_delta (mkVec 100 200) (mkVec 100 1400) 300 = Some delta /\
    veq (vscale delta (inject_Z (Swipe_steps 300)))
        (vsub (mkVec 100 1400) (mkVec 100 200)).
Proof.
  apply (Swipe_divisor_nonzero (mkVec 100 200) (mkVec 100 1400) 300). lia.
Defined.

(** Below 16 ms the step count is zero and the delta is undefined. *)
Example Swipe_steps_short : Swipe_steps 15 = 0 /\ Swipe_delta vzero portrait 15 = None.
Proof. split; reflexivity. Qed.

(** ** Initialisation failures *)

(** On the two early failures the registry is empty. *)
Lemma Init_no_directory (env : Env) (screenSize : My_Vector2) (readOnly : bool)
    (s : State) :
  env_opendir env = false ->
  let r := Init env screenSize readOnly s in
  snd (fst r) = false /\ g_devices (fst (fst r)) = [] /\
  g_initialized (fst (fst r)) = false.
Proof.
  intros Hdir. unfold Init, Close.
  destruct (g_initialized s) eqn:Hi; [destruct (0 <? g_outputFd s)|];
    rewrite Hdir; cbn; auto.
Qed.

(** Whenever [Init] returns false the initialised flag is off. *)
Lemma Init_false_uninitialized (env : Env) (screenSize : My_Vector2)
    (readOnly : bool) (s : State) :
  snd (fst (Init env screenSize readOnly s)) = false ->
  g_initialized (fst (fst (Init env screenSize readOnly s))) = false.
Proof.
  unfold Init.
  assert (Hc : g_initialized (fst (Close s)) = false).
  { unfold Close. destruct (g_initialized s) eqn:E;
      [destruct (0 <? g_outputFd s)|]; cbn; auto. }
  destruct (Close s) as [s0 out0]. cbn [fst] in Hc.
  destruct (negb (env_opendir env)); [intros _; exact Hc|].
  destruct (probe_devices env readOnly _) as [devices out1].
  destruct devices as [|first rest]; [intros _; exact Hc|].
  destruct (negb readOnly && (env_uinput_fd env <=? 0)).
  { intros _. destruct readOnly; exact Hc. }
  destruct (negb readOnly && negb (env_dev_create env =? 0)).
  { intros _. destruct readOnly; exact Hc. }
  cbn. discriminate.
Qed.

(** With no qualifying device the registry is empty as well. *)
Lemma Init_no_device (screenSize : My_Vector2) (readOnly : bool) :
  let r := Init (env_panels 0 4 0) screenSize readOnly State_initial in
  snd (fst r) = false /\ g_devices (fst (fst r)) = [] /\
  g_initialized (fst (fst r)) = false.
Proof. cbv zeta. destruct readOnly; repeat split. Qed.

Lemma Down_empty_registry (now : Z) (x y : Q) (touchId : Z) (s : State) :
  g_devices s = [] -> Down now x y touchId s = (s, []).
Proof. intros H. unfold Down. rewrite H. reflexivity. Qed.

Lemma Move_empty_registry (x y : Q) (touchId : Z) (s : State) :
  g_devices s = [] -> Move x y touchId s = (s, []).
Proof. intros H. unfold Move. rewrite H. reflexivity. Qed.

Lemma Up_empty_registry (touchId : Z) (s : State) :
  g_devices s = [] -> Up touchId s = (s, []).
Proof. intros H. unfold Up. rewrite H. reflexivity. Qed.

Lemma Close_uninitialized (s : State) :
  g_initialized s = false -> Close s = (s, []).
Proof. intros H. unfold Close. rewrite H. reflexivity. Qed.

(** C5.  When /dev/uinput cannot be opened in injection mode, [Init]
    returns false and leaves [g_initialized] false, but the probed panel
    stays in the registry (and stays grabbed): [Close] does nothing,
    while [Down] passes its emptiness guard, marks slot 9 of device 0 as
    down and issues a write. *)
Theorem failed_Init_keeps_registry :
  let s := fst (fst init_no_uinput) in
  snd (fst init_no_uinput) = false /\
  IsInitialized s = false /\
  length (g_devices s) = 1%nat /\
  snd init_no_uinput = [GrabOut 3] /\
  Close s = (s, []) /\
  GetTouchCount s = 0 /\
  GetTouchCount (fst (Down t0 100 200 0 s)) = 1 /\
  snd (Down t0 100 200 0 s) =
    [WriteOut (-1)
       (downEvent ++ finger_events (mkTouchPoint vzero vzero vzero 0 true 1 t0)
        ++ [syn_report])].
Proof. cbv zeta. vm_compute. repeat split. Qed.

(** ** Slot updates *)

Lemma finger_at_alter (ds : list TouchDevice) (d k : nat)
    (f : TouchPoint -> TouchPoint) (d' k' : nat) :
  finger_at (alter (alter_finger k f) d ds) d' k' =
  if decide (d = d' /\ k = k') then f <$> finger_at ds d' k'
  else finger_at ds d' k'.
Proof.
  unfold finger_at. rewrite list_lookup_alter.
  destruct (decide (d = d')) as [->|Hd].
  - destruct (ds !! d') as [dev|]; cbn.
    + rewrite list_lookup_alter.
      destruct (decide (k = k')) as [->|Hk]; destruct (decide _) as [H|H];
        try reflexivity; tauto.
    + destruct (decide _); reflexivity.
  - destruct (decide _) as [H|H]; [tauto|reflexivity].
Qed.

Lemma finger_at_alter_ne (ds : list TouchDevice) (d k : nat)
    (f : TouchPoint -> TouchPoint) (d' k' : nat) :
  (d', k') <> (d, k) ->
  finger_at (alter (alter_finger k f) d ds) d' k' = finger_at ds d' k'.
Proof.
  intros Hne. rewrite finger_at_alter.
  destruct (decide _) as [[-> ->]|]; [congruence|reflexivity].
Qed.

Lemma finger_at_alter_eq (ds : list TouchDevice) (d k : nat)
    (f : TouchPoint -> TouchPoint) :
  finger_at (alter (alter_finger k f) d ds) d k = f <$> finger_at ds d k.
Proof.
  rewrite finger_at_alter. destruct (decide _) as [|H]; [reflexivity|tauto].
Qed.

(** A report boundary rewrites the velocities of one device. *)
Lemma finger_at_velocity (ds : list TouchDevice) (d : nat) (now : Z) (d' k : nat) :
  finger_at
    (alter (fun device => set_fingers (map (update_velocity now) (fingers device)) device)
           d ds) d' k =
  if decide (d = d') then update_velocity now <$> finger_at ds d' k
  else finger_at ds d' k.
Proof.
  unfold finger_at. rewrite list_lookup_alter.
  destruct (decide (d = d')) as [->|Hd]; [|reflexivity].
  destruct (ds !! d') as [dev|]; cbn; [|reflexivity].
  change (map (update_velocity now) (fingers dev))
    with (update_velocity now <$> fingers dev).
  apply list_lookup_fmap.
Qed.

(** ** Tracking-id events *)

(** C8.  Decoding a tracking-id event with value -1 produces no output,
    keeps the thread's slot and every global other than the registry,
    and inside the registry changes nothing but the down flag of slot
    [currentSlot] of device [deviceIndex]: that slot keeps its position,
    origin, identity, velocity, pressure and timestamp; every other slot
    of every device, and the scale factors, axis ranges and descriptor of
    every device, are as before. *)
Theorem tracking_lift_clears_only_down_flag (vlen : My_Vector2 -> Q)
    (deviceIndex currentSlot : nat) (now : Z) (s : State) :
  let r := TouchReadThread_event vlen deviceIndex now
             (abs_event ABS_MT_TRACKING_ID (-1)) s currentSlot in
  let s' := fst (fst r) in
  snd r = [] /\ snd (fst r) = currentSlot /\
  s' = set_g_devices (g_devices s') s /\
  length (g_devices s') = length (g_devices s) /\
  (forall d, set_fingers [] <$> (g_devices s' !! d)
             = set_fingers [] <$> (g_devices s !! d)) /\
  (forall d k, (d, k) <> (deviceIndex, currentSlot) ->
     finger_at (g_devices s') d k = finger_at (g_devices s) d k) /\
  (forall f, finger_at (g_devices s) deviceIndex currentSlot = Some f ->
     exists f', finger_at (g_devices s') deviceIndex currentSlot = Some f' /\
       isDown f' = false /\ pos f' = pos f /\ startPos f' = startPos f /\
       id f' = id f /\ velocity f' = velocity f /\ pressure f' = pressure f /\
       timestamp f' = timestamp f) /\
  (forall d k, finger_at (g_devices s) d k = None ->
     finger_at (g_devices s') d k = None).
Proof.
  cbv zeta. unfold TouchReadThread_event, alter_slot. cbn.
  repeat split.
  - apply length_alter.
  - intros d. rewrite list_lookup_alter.
    destruct (decide (deviceIndex = d)) as [->|]; [|reflexivity].
    destruct (g_devices s !! d); reflexivity.
  - intros d k Hne. apply finger_at_alter_ne. exact Hne.
  - intros f Hf. rewrite finger_at_alter_eq, Hf. cbn.
    eexists. split; [reflexivity|]. cbn. repeat split.
  - intros d k Hn. rewrite finger_at_alter, Hn.
    destruct (decide _); reflexivity.
Qed.

Example tracking_lift_example :
  let s := fst (fst (TouchReadThread_batch vec_length 0 batch_down st_readonly 0)) in
  let s' := fst (fst (TouchReadThread_event vec_length 0 (t0 + 50)
                        (abs_event ABS_MT_TRACKING_ID (-1)) s 0)) in
  (* the fractions are 100 * (1080 / 1080) and 200 * (2400 / 2400), unreduced *)
  let p := mkVec (108000 # 1080) (480000 # 2400) in
  finger_at (g_devices s) 0 0 = Some (mkTouchPoint p p vzero 10 true 1 t0) /\
  finger_at (g_devices s') 0 0 = Some (mkTouchPoint p p vzero 10 false 1 t0).
Proof. cbv zeta. split; vm_compute; reflexivity. Qed.

(** ** Upload *)

Lemma count_groups_app (a b : list input_event) :
  count_groups (a ++ b) = (count_groups a + count_groups b)%nat.
Proof. unfold count_groups. rewrite filter_app, length_app. reflexivity. Qed.

Lemma count_groups_finger (f : TouchPoint) : count_groups (finger_events f) = 1%nat.
Proof. reflexivity. Qed.

(** The events stored by the loops only grow. *)
Lemma Upload_fingers_grows (fs : list TouchPoint) (l : UploadLoop) :
  exists more, lp_events (Upload_fingers fs l) = lp_events l ++ more.
Proof.
  revert l. induction fs as [|f fs IH]; intros l; cbn.
  - exists []. symmetry. apply app_nil_r.
  - destruct (lp_finished l); [exists []; symmetry; apply app_nil_r|].
    destruct (isDown f).
    + destruct (20 <? lp_fingerCount l); cbn.
      * exists []. symmetry. apply app_nil_r.
      * destruct (IH (mkLoop (lp_events l ++ finger_events f)
                            (lp_fingerCount l + 1) false)) as [more Hm].
        rewrite Hm. cbn [lp_events]. rewrite <- app_assoc. eauto.
    + apply IH.
Qed.

Lemma Upload_devices_grows (ds : list TouchDevice) (l : UploadLoop) :
  exists more, lp_events (Upload_devices ds l) = lp_events l ++ more.
Proof.
  revert l. induction ds as [|d ds IH]; intros l; cbn.
  - exists []. symmetry. apply app_nil_r.
  - destruct (lp_finished l); [exists []; symmetry; apply app_nil_r|].
    destruct (IH (Upload_fingers (fingers d) l)) as [m1 H1].
    destruct (Upload_fingers_grows (fingers d) l) as [m2 H2].
    rewrite H1, H2, <- app_assoc. eauto.
Qed.

(** Slots that are up contribute nothing. *)
Lemma Upload_fingers_all_up (fs : list TouchPoint) (l : UploadLoop) :
  filter is_down fs = [] -> Upload_fingers fs l = l.
Proof.
  induction fs as [|f fs IH]; intros Hf; cbn; [reflexivity|].
  rewrite filter_cons in Hf. unfold is_down at 1 in Hf.
  destruct (decide (isDown f = true)) as [Hd|Hd]; [discriminate|].
  destruct (isDown f); [congruence|].
  rewrite (IH Hf). destruct (lp_finished l); reflexivity.
Qed.

Lemma Upload_devices_all_up (ds : list TouchDevice) (l : UploadLoop) :
  filter is_down (concat (map fingers ds)) = [] -> Upload_devices ds l = l.
Proof.
  induction ds as [|d ds IH]; intros Hf; cbn; [reflexivity|].
  cbn in Hf. rewrite filter_app in Hf. apply app_eq_nil in Hf as [H1 H2].
  rewrite (Upload_fingers_all_up _ _ H1), (IH H2).
  destruct (lp_finished l); reflexivity.
Qed.

(** A slot that is down leaves events behind while the cap is not reached. *)
Lemma Upload_fingers_some_down (fs : list TouchPoint) (l : UploadLoop) :
  lp_finished l = false -> lp_fingerCount l <= 20 ->
  filter is_down fs <> [] -> lp_events (Upload_fingers fs l) <> [].
Proof.
  revert l. induction fs as [|f fs IH]; intros l Hfin Hcnt Hf; cbn.
  - contradiction.
  - rewrite Hfin. rewrite filter_cons in Hf. unfold is_down at 1 in Hf.
    destruct (decide (isDown f = true)) as [Hd|Hd].
    + rewrite Hd. destruct (20 <? lp_fingerCount l) eqn:E;
        [apply Z.ltb_lt in E; lia|].
      destruct (Upload_fingers_grows fs
                  (mkLoop (lp_events l ++ finger_events f) (lp_fingerCount l + 1) false))
        as [more Hm].
      rewrite Hm. cbn [lp_events]. intros H.
      apply app_eq_nil in H as [H _]. apply app_eq_nil in H as [_ H]. discriminate.
    + destruct (isDown f); [congruence|]. apply IH; assumption.
Qed.

Lemma Upload_devices_some_down (ds : list TouchDevice) (l : UploadLoop) :
  lp_finished l = false -> lp_fingerCount l <= 20 ->
  filter is_down (concat (map fingers ds)) <> [] ->
  lp_events (Upload_devices ds l) <> [].
Proof.
  revert l. induction ds as [|d ds IH]; intros l Hfin Hcnt Hf; cbn.
  - contradiction.
  - rewrite Hfin. cbn in Hf. rewrite filter_app in Hf.
    destruct (filter is_down (fingers d)) as [|x xs] eqn:E.
    + rewrite (Upload_fingers_all_up _ _ E). apply IH; assumption.
    + destruct (Upload_devices_grows ds (Upload_fingers (fingers d) l)) as [more Hm].
      rewrite Hm. intros H. apply app_eq_nil in H as [H _].
      revert H. apply Upload_fingers_some_down; [assumption..|].
      rewrite E. discriminate.
Qed.

Lemma GetTouchCount_zero (s : State) :
  GetTouchCount s = 0 -> filter is_down (concat (map fingers (g_devices s))) = [].
Proof.
  unfold GetTouchCount, GetActiveTouches. intros H.
  apply length_zero_iff_nil. unfold is_down. lia.
Qed.

Lemma GetTouchCount_pos (s : State) :
  0 < GetTouchCount s -> filter is_down (concat (map fingers (g_devices s))) <> [].
Proof.
  unfold GetTouchCount, GetActiveTouches. intros H E.
  unfold is_down in E. rewrite E in H. cbn in H. lia.
Qed.

(** After an upload that found a finger down, the sticky flag is off. *)
Lemma Upload_with_touch_clears_flag (s : State) :
  0 < GetTouchCount s -> isFirstDown (fst (Upload s)) = false.
Proof.
  intros H. apply GetTouchCount_pos in H.
  apply (Upload_devices_some_down _ (mkLoop [] 0 false)) in H; [|reflexivity|cbn; lia].
  unfold Upload, Upload_fill.
  destruct (lp_events _) as [|e es]; [contradiction|].
  destruct (isFirstDown s); reflexivity.
Qed.

(** C6 (amended).  When no finger is down, [Upload] writes a buffer that
    starts with SYN_MT_REPORT and ends with SYN_REPORT and holds no
    absolute-axis event.  If the sticky flag is set nothing lies between
    the two; if it is clear (which is its value after any upload that
    found a finger down) the key-up events of BTN_TOUCH and
    BTN_TOOL_FINGER lie between them.  The call sets the flag, so the
    key-up events are written once. *)
Theorem Upload_zero_fingers (s : State) :
  GetTouchCount s = 0 ->
  Upload s = (set_isFirstDown true s, [WriteOut (g_outputFd s) (Upload_buffer s)]) /\
  Upload_buffer s =
    [ev EV_SYN SYN_MT_REPORT 0]
    ++ (if isFirstDown s then []
        else [ev EV_KEY BTN_TOUCH 0; ev EV_KEY BTN_TOOL_FINGER 0])
    ++ [ev EV_SYN SYN_REPORT 0] /\
  Forall (fun e => ie_type e <> EV_ABS) (Upload_buffer s) /\
  (forall s0, 0 < GetTouchCount s0 -> isFirstDown (fst (Upload s0)) = false).
Proof.
  intros H. apply GetTouchCount_zero in H.
  split; [|split; [|split]].
  - unfold Upload, Upload_buffer, Upload_fill.
    rewrite (Upload_devices_all_up _ _ H). cbn.
    destruct (isFirstDown s) eqn:E; cbn; [|reflexivity].
    rewrite <- E. destruct s; reflexivity.
  - unfold Upload_buffer, Upload_fill.
    rewrite (Upload_devices_all_up _ _ H). cbn.
    destruct (isFirstDown s); reflexivity.
  - unfold Upload_buffer, Upload_fill.
    rewrite (Upload_devices_all_up _ _ H). cbn.
    destruct (isFirstDown s); cbn; repeat constructor; discriminate.
  - exact Upload_with_touch_clears_flag.
Qed.

Lemma Upload_zero_fingers_witness :
  Upload st_lifted
    = (set_isFirstDown true st_lifted,
       [WriteOut (g_outputFd st_lifted) (Upload_buffer st_lifted)]) /\
  Upload_buffer st_lifted =
    [ev EV_SYN SYN_MT_REPORT 0]
    ++ (if isFirstDown st_lifted then []
        else [ev EV_KEY BTN_TOUCH 0; ev EV_KEY BTN_TOOL_FINGER 0])
    ++ [ev EV_SYN SYN_REPORT 0] /\
  Forall (fun e => ie_type e <> EV_ABS) (Upload_buffer st_lifted) /\
  (forall s0, 0 < GetTouchCount s0 -> isFirstDown (fst (Upload s0)) = false).
Proof. apply (Upload_zero_fingers st_lifted). vm_compute. reflexivity. Defined.

(** C6, as stated, fails on the first upload after the last finger left:
    the buffer written by [Up] after [Down] does not end in SYN_MT_REPORT
    followed by SYN_REPORT, because the two key-up events come between
    them. *)
Lemma Upload_keyups_precede_sync :
  GetTouchCount st_lifted = 0 /\
  Upload_buffer st_lifted =
    [ev EV_SYN SYN_MT_REPORT 0; ev EV_KEY BTN_TOUCH 0;
     ev EV_KEY BTN_TOOL_FINGER 0; ev EV_SYN SYN_REPORT 0] /\
  snd (Up 0 (fst (Down t0 100 200 0 st_inject)))
    = [WriteOut 4 (Upload_buffer st_lifted)] /\
  ~ (exists front,
       Upload_buffer st_lifted
       = front ++ [ev EV_SYN SYN_MT_REPORT 0; ev EV_SYN SYN_REPORT 0]).
Proof.
  split; [vm_compute; reflexivity|].
  split; [vm_compute; reflexivity|].
  split; [vm_compute; reflexivity|].
  intros [front H].
  assert (E : Upload_buffer st_lifted =
    [ev EV_SYN SYN_MT_REPORT 0; ev EV_KEY BTN_TOUCH 0;
     ev EV_KEY BTN_TOOL_FINGER 0; ev EV_SYN SYN_REPORT 0])
    by (vm_compute; reflexivity).
  rewrite E in H. clear E.
  destruct front as [|a [|b [|c front]]]; cbv in H; try discriminate.
  injection H as Ha Hb Hc Ht.
  destruct front as [|x [|y front]]; cbv in Ht; discriminate.
Qed.

(** The test [fingerCount++ > 20] lets the counter values 0 .. 20
    through: the loops store one group per down finger up to the
    twenty-first and stop at the twenty-second. *)
Lemma Upload_fingers_cap (fs : list TouchPoint) (l : UploadLoop) :
  (if lp_finished l then count_groups (lp_events l) = 21%nat
   else Z.of_nat (count_groups (lp_events l)) = lp_fingerCount l
        /\ lp_fingerCount l <= 21) ->
  let l' := Upload_fingers fs l in
  if lp_finished l' then count_groups (lp_events l') = 21%nat
  else Z.of_nat (count_groups (lp_events l')) = lp_fingerCount l'
       /\ lp_fingerCount l' <= 21.
Proof.
  revert l. induction fs as [|f fs IH]; intros l Hl; cbv zeta;
    cbn [Upload_fingers]; [exact Hl|].
  destruct (lp_finished l) eqn:Hfin; [rewrite Hfin; exact Hl|].
  destruct (isDown f).
  - destruct (20 <? lp_fingerCount l) eqn:E;
      cbn [lp_finished lp_events lp_fingerCount].
    + apply Z.ltb_lt in E. lia.
    + apply Z.ltb_ge in E. apply IH.
      cbn [lp_finished lp_events lp_fingerCount].
      rewrite count_groups_app, count_groups_finger. lia.
  - apply IH. rewrite Hfin. exact Hl.
Qed.

Lemma Upload_devices_cap (ds : list TouchDevice) (l : UploadLoop) :
  (if lp_finished l then count_groups (lp_events l) = 21%nat
   else Z.of_nat (count_groups (lp_events l)) = lp_fingerCount l
        /\ lp_fingerCount l <= 21) ->
  (count_groups (lp_events (Upload_devices ds l)) <= 21)%nat.
Proof.
  revert l. induction ds as [|d ds IH]; intros l Hl; cbn [Upload_devices].
  - destruct (lp_finished l); lia.
  - destruct (lp_finished l) eqn:Hfin; [lia|].
    apply IH. apply Upload_fingers_cap. rewrite Hfin. exact Hl.
Qed.

Lemma Upload_groups_bound (s : State) :
  (count_groups (Upload_buffer s) <= 21)%nat.
Proof.
  assert (H : (count_groups (lp_events (Upload_devices (g_devices s)
                 (mkLoop [] 0 false))) <= 21)%nat).
  { apply Upload_devices_cap. cbn [lp_finished lp_events lp_fingerCount].
    change (count_groups []) with 0%nat. lia. }
  unfold Upload_buffer, Upload_fill.
  destruct (lp_events _) as [|e es].
  - destruct (isFirstDown s); vm_compute; lia.
  - destruct (isFirstDown s); cbn [negb andb];
      rewrite ?count_groups_app;
      change (count_groups downEvent) with 0%nat;
      change (count_groups [ev EV_SYN SYN_REPORT 0]) with 0%nat; lia.
Qed.

(** C7.  With all thirty slots of three panels down, one [Upload] writes
    twenty-one per-finger groups, one more than the cap of twenty: the
    twenty-first down finger (slot 0 of the third panel, identity 50) is
    still written. *)
Theorem Upload_writes_twenty_one_groups :
  GetTouchCount st_thirty_down = 30 /\
  count_groups (Upload_buffer st_thirty_down) = 21%nat /\
  nth_error (GetActiveTouches st_thirty_down) 20
    = Some (mkTouchPoint vzero vzero vzero 50 true 1 t0) /\
  nth_error (Upload_buffer st_thirty_down) (2 + 20 * 6 + 4)
    = Some (abs_event ABS_MT_TRACKING_ID 50) /\
  length (Upload_buffer st_thirty_down) = (2 + 21 * 6 + 1)%nat.
Proof. repeat split; vm_compute; reflexivity. Qed.

(** ** What the reader thread leaves alone *)

Lemma Upload_frame (s : State) :
  exists b, fst (Upload s) = set_isFirstDown b s.
Proof.
  unfold Upload. destruct (Upload_fill s) as [[events first] hasTouch].
  destruct (hasTouch && first); eexists; reflexivity.
Qed.

Lemma Upload_writes_only (s : State) :
  exists buf, snd (Upload s) = [WriteOut (g_outputFd s) buf].
Proof.
  unfold Upload. destruct (Upload_fill s) as [[events first] hasTouch].
  destruct (hasTouch && first); eexists; reflexivity.
Qed.

Ltac split_ifs :=
  repeat match goal with
         | |- context [if ?b then _ else _] => destruct b
         | |- context [match ?l with [] => _ | _ :: _ => _ end] => destruct l
         end.

(** The recogniser never assigns the start of the gesture window. *)
Lemma Recognize_ended_start (vlen : My_Vector2 -> Q) (now : Z) (avgPos : My_Vector2)
    (cfg : GestureConfig) (gs : GestureState) (g0 : GestureData) :
  touchStartTime (fst (Recognize_ended vlen now avgPos cfg gs g0)) = touchStartTime gs /\
  touchStartPos (fst (Recognize_ended vlen now avgPos cfg gs g0)) = touchStartPos gs.
Proof. unfold Recognize_ended. split_ifs; cbn; auto. Qed.

Lemma Recognize_active_start (vlen : My_Vector2 -> Q) (now n : Z) (sumPos : My_Vector2)
    (device : TouchDevice) (cfg : GestureConfig) (gs : GestureState) (g0 : GestureData) :
  touchStartTime (fst (Recognize_active vlen now n sumPos device cfg gs g0))
    = touchStartTime gs /\
  touchStartPos (fst (Recognize_active vlen now n sumPos device cfg gs g0))
    = touchStartPos gs.
Proof.
  unfold Recognize_active.
  destruct (negb (isLongPressing gs));
    [destruct (_ && _)|]; cbn; auto.
Qed.

Lemma RecognizeGesture_frame (vlen : My_Vector2 -> Q) (now : Z) (device : TouchDevice)
    (s : State) :
  exists gs,
    fst (RecognizeGesture vlen now device s) = set_g_gestureState gs s /\
    touchStartTime gs = touchStartTime (g_gestureState s) /\
    touchStartPos gs = touchStartPos (g_gestureState s).
Proof.
  unfold RecognizeGesture.
  destruct (negb (g_gestureEnabled s) || negb (g_gestureCallback s)).
  - exists (g_gestureState s). destruct s; auto.
  - destruct (count_active (fingers device) 0 vzero) as [n avg].
    destruct (n =? 0).
    + destruct (Recognize_ended_start vlen now avg (g_gestureConfig s)
                  (g_gestureState s) GestureData_default) as [H1 H2].
      destruct (Recognize_ended _ _ _ _ _ _) as [gs out]. exists gs. auto.
    + destruct (Recognize_active_start vlen now n avg device (g_gestureConfig s)
                  (g_gestureState s) GestureData_default) as [H1 H2].
      destruct (Recognize_active _ _ _ _ _ _ _ _) as [gs out]. exists gs. auto.
Qed.

Lemma report_boundary_fields (vlen : My_Vector2 -> Q) (d : nat) (now : Z) (s : State) :
  let s' := fst (report_boundary vlen d now s) in
  g_devices s' =
    alter (fun device => set_fingers (map (update_velocity now) (fingers device)) device)
          d (g_devices s) /\
  frame_of s' = frame_of s.
Proof.
  cbv zeta. unfold report_boundary.
  set (s1 := set_g_devices _ s).
  assert (H1 : g_devices s1 = alter (fun device =>
             set_fingers (map (update_velocity now) (fingers device)) device)
             d (g_devices s) /\ frame_of s1 = frame_of s) by (split; reflexivity).
  assert (H2 : exists gs out2,
     (if g_gestureEnabled s1
      then match g_devices s1 !! d with
           | Some device => RecognizeGesture vlen now device s1
           | None => (s1, [])
           end
      else (s1, [])) = (set_g_gestureState gs s1, out2) /\
     touchStartTime gs = touchStartTime (g_gestureState s1) /\
     touchStartPos gs = touchStartPos (g_gestureState s1)).
  { assert (Hid : s1 = set_g_gestureState (g_gestureState s1) s1)
      by (destruct s1; reflexivity).
    destruct (g_gestureEnabled s1);
      [destruct (g_devices s1 !! d) as [device|]|].
    - destruct (RecognizeGesture_frame vlen now device s1) as [gs [E [Ht Hp]]].
      destruct (RecognizeGesture vlen now device s1) as [s2 out2].
      cbn in E. subst s2. eauto.
    - exists (g_gestureState s1), []. rewrite <- Hid. auto.
    - exists (g_gestureState s1), []. rewrite <- Hid. auto. }
  destruct H2 as [gs [out2 [E [Ht Hp]]]]. rewrite E.
  destruct H1 as [Hd Hf].
  assert (Hf2 : frame_of (set_g_gestureState gs s1) = frame_of s).
  { rewrite <- Hf. unfold frame_of. cbn. rewrite Ht, Hp. reflexivity. }
  destruct (now - lastCallbackTime (set_g_gestureState gs s1) <? MIN_CALLBACK_INTERVAL).
  - split; [exact Hd|exact Hf2].
  - destruct (g_touchCallback _); [split; [exact Hd|exact Hf2]|].
    destruct (negb (g_readOnly _)); [|split; [exact Hd|exact Hf2]].
    destruct (Upload_frame (set_lastCallbackTime now (set_g_gestureState gs s1)))
      as [b Hb].
    destruct (Upload _) as [s4 out4]. cbn in Hb. subst s4.
    split; [exact Hd|exact Hf2].
Qed.

Lemma TouchReadThread_event_frame (vlen : My_Vector2 -> Q) (d : nat) (now : Z)
    (ie : input_event) (s : State) (slot : nat) :
  frame_of (fst (fst (TouchReadThread_event vlen d now ie s slot))) = frame_of s.
Proof.
  unfold TouchReadThread_event, alter_slot.
  repeat (match goal with
          | |- context [if ?b && ?c then _ else _] => destruct (b && c)
          end; [try reflexivity|]); try reflexivity.
  - destruct (ie_value ie =? -1); reflexivity.
  - destruct (g_devices s !! d); reflexivity.
  - destruct (g_devices s !! d); reflexivity.
  - destruct (report_boundary_fields vlen d now s) as [_ H].
    destruct (report_boundary vlen d now s) as [s' out]. exact H.
Qed.

(** ** Invariants of the slots under decoding *)

(** Case analysis along the tests of [TouchReadThread_event]. *)
Ltac case_axis ie code :=
  destruct ((ie_type ie =? EV_ABS) && (ie_code ie =? code)).
Ltac case_report ie :=
  destruct ((ie_type ie =? EV_SYN) && (ie_code ie =? SYN_REPORT)).

Section SlotInvariant.

Variable vlen : My_Vector2 -> Q.
Variable P : nat -> nat -> TouchPoint -> Prop.

Lemma slots_satisfy_alter (ds : list TouchDevice) (d k : nat)
    (g : TouchPoint -> TouchPoint) :
  (forall f, finger_at ds d k = Some f -> P d k f -> P d k (g f)) ->
  slots_satisfy P ds -> slots_satisfy P (alter (alter_finger k g) d ds).
Proof.
  intros Hg Hds d' k' f'. rewrite finger_at_alter.
  destruct (decide _) as [[-> ->]|_]; [|apply Hds].
  destruct (finger_at ds d' k') as [f|] eqn:E; cbn; [|discriminate].
  intros [= <-]. apply Hg; [reflexivity|]. apply Hds. exact E.
Qed.

(** An invariant of every slot survives one decoded event as soon as
    each of the six slot updates of the decoder respects it. *)
Lemma TouchReadThread_event_inv (d : nat) (now : Z) (ie : input_event) (s : State)
    (slot : nat) :
  (forall f, P d slot f -> P d slot (set_isDown false f)) ->
  (forall f, P d slot f -> P d slot (contact_arrival d slot now f)) ->
  (forall f x, P d slot f -> P d slot (set_pos_x x f)) ->
  (forall f y, P d slot f -> P d slot (set_pos_y y f)) ->
  (forall f, ie_type ie = EV_ABS -> ie_code ie = ABS_MT_PRESSURE ->
             P d slot f -> P d slot (set_pressure (inject_Z (ie_value ie) / 255) f)) ->
  (forall k f, P d k f -> P d k (update_velocity now f)) ->
  slots_satisfy P (g_devices s) ->
  slots_satisfy P (g_devices (fst (fst (TouchReadThread_event vlen d now ie s slot)))).
Proof.
  intros Hup Harr Hx Hy Hpr Hvel Hs.
  unfold TouchReadThread_event, alter_slot.
  case_axis ie ABS_MT_SLOT; [exact Hs|].
  case_axis ie ABS_MT_TRACKING_ID.
  { destruct (ie_value ie =? -1); cbn; apply slots_satisfy_alter; auto. }
  case_axis ie ABS_MT_POSITION_X.
  { destruct (g_devices s !! d); [|exact Hs].
    cbn. apply slots_satisfy_alter; auto. }
  case_axis ie ABS_MT_POSITION_Y.
  { destruct (g_devices s !! d); [|exact Hs].
    cbn. apply slots_satisfy_alter; auto. }
  destruct ((ie_type ie =? EV_ABS) && (ie_code ie =? ABS_MT_PRESSURE)) eqn:E.
  { apply andb_prop in E as [E1 E2].
    apply Z.eqb_eq in E1. apply Z.eqb_eq in E2.
    cbn. apply slots_satisfy_alter; auto. }
  case_report ie; [|exact Hs].
  destruct (report_boundary_fields vlen d now s) as [Hd _].
  destruct (report_boundary vlen d now s) as [s' out]. cbn in *.
  rewrite Hd. intros d' k f. rewrite finger_at_velocity.
  destruct (decide (d = d')) as [<-|]; [|apply Hs].
  destruct (finger_at (g_devices s) d k) as [f0|] eqn:E0; cbn; [|discriminate].
  intros [= <-]. apply Hvel. apply Hs. exact E0.
Qed.

End SlotInvariant.

(** The thread's slot after an event is the old one or a clamped one. *)
Lemma TouchReadThread_event_slot (vlen : My_Vector2 -> Q) (d : nat) (now : Z)
    (ie : input_event) (s : State) (slot : nat) :
  (slot < 10)%nat ->
  (snd (fst (TouchReadThread_event vlen d now ie s slot)) < 10)%nat.
Proof.
  intros Hs. unfold TouchReadThread_event.
  case_axis ie ABS_MT_SLOT.
  { cbn. unfold select_slot, MAX_FINGERS.
    destruct ((ie_value ie <? 0) || (10 <=? ie_value ie)) eqn:E; [lia|].
    apply orb_false_iff in E as [E1 E2].
    apply Z.ltb_ge in E1. apply Z.leb_gt in E2. lia. }
  case_axis ie ABS_MT_TRACKING_ID; [destruct (ie_value ie =? -1); exact Hs|].
  case_axis ie ABS_MT_POSITION_X; [destruct (g_devices s !! d); exact Hs|].
  case_axis ie ABS_MT_POSITION_Y; [destruct (g_devices s !! d); exact Hs|].
  case_axis ie ABS_MT_PRESSURE; [exact Hs|].
  case_report ie; [|exact Hs].
  destruct (report_boundary vlen d now s). exact Hs.
Qed.

(** The number of devices and of slots per device never changes. *)
Lemma TouchReadThread_event_shape (vlen : My_Vector2 -> Q) (d : nat) (now : Z)
    (ie : input_event) (s : State) (slot : nat) (d' k : nat) :
  is_Some (finger_at (g_devices (fst (fst (TouchReadThread_event vlen d now ie s slot)))) d' k)
  <-> is_Some (finger_at (g_devices s) d' k).
Proof.
  assert (Halt : forall g,
    is_Some (finger_at (alter (alter_finger slot g) d (g_devices s)) d' k)
    <-> is_Some (finger_at (g_devices s) d' k)).
  { intros g. rewrite finger_at_alter. destruct (decide _); [|reflexivity].
    apply fmap_is_Some. }
  unfold TouchReadThread_event, alter_slot.
  case_axis ie ABS_MT_SLOT; [reflexivity|].
  case_axis ie ABS_MT_TRACKING_ID; [destruct (ie_value ie =? -1); apply Halt|].
  case_axis ie ABS_MT_POSITION_X;
    [destruct (g_devices s !! d); [apply Halt|reflexivity]|].
  case_axis ie ABS_MT_POSITION_Y;
    [destruct (g_devices s !! d); [apply Halt|reflexivity]|].
  case_axis ie ABS_MT_PRESSURE; [apply Halt|].
  case_report ie; [|reflexivity].
  destruct (report_boundary_fields vlen d now s) as [Hd _].
  destruct (report_boundary vlen d now s) as [s' out]. cbn in *.
  rewrite Hd, finger_at_velocity. destruct (decide _); [|reflexivity].
  apply fmap_is_Some.
Qed.

(** ** Contact identities *)

(** For up to a hundred million devices the identity fits an [int]. *)
Lemma contact_id_range (d k : nat) :
  Z.of_nat d <= 100000000 -> (k < 10)%nat ->
  10 <= contact_id d k < 2 ^ 31.
Proof. unfold contact_id, MAX_FINGERS. intros Hd Hk. lia. Qed.

(** Different places have different identities. *)
Lemma contact_id_injective (d1 k1 d2 k2 : nat) :
  (k1 < 10)%nat -> (k2 < 10)%nat ->
  contact_id d1 k1 = contact_id d2 k2 -> d1 = d2 /\ k1 = k2.
Proof. unfold contact_id, MAX_FINGERS. intros H1 H2 H. lia. Qed.

Lemma registry_idle_slots (s : State) (d k : nat) (f : TouchPoint) :
  registry_idle s = true -> finger_at (g_devices s) d k = Some f -> isDown f = false.
Proof.
  unfold registry_idle, finger_at. intros H Hf.
  destruct (g_devices s !! d) as [dev|] eqn:E; [|discriminate].
  rewrite forallb_forall in H.
  apply list_elem_of_lookup_2, list_elem_of_In, H in E.
  apply andb_prop in E as [_ E]. rewrite forallb_forall in E.
  apply list_elem_of_lookup_2, list_elem_of_In, E in Hf.
  destruct (isDown f); [discriminate|reflexivity].
Qed.

Lemma registry_idle_shape (s : State) (d k : nat) :
  registry_idle s = true -> (d < length (g_devices s))%nat -> (k < 10)%nat ->
  is_Some (finger_at (g_devices s) d k).
Proof.
  unfold registry_idle, finger_at. intros H Hd Hk.
  destruct (lookup_lt_is_Some_2 _ _ Hd) as [dev E]. rewrite E.
  rewrite forallb_forall in H.
  apply list_elem_of_lookup_2, list_elem_of_In, H in E.
  apply andb_prop in E as [E _]. apply Nat.eqb_eq in E.
  apply lookup_lt_is_Some_2. lia.
Qed.

Lemma update_velocity_keeps (now : Z) (f : TouchPoint) :
  isDown (update_velocity now f) = isDown f /\
  id (update_velocity now f) = id f /\
  pressure (update_velocity now f) = pressure f.
Proof.
  unfold update_velocity.
  destruct (isDown f) eqn:E; [destruct (0 <? now - timestamp f)|]; cbn; auto.
Qed.

Lemma TouchReadThread_event_placed (vlen : My_Vector2 -> Q) (d : nat) (now : Z)
    (ie : input_event) (s : State) (slot : nat) :
  (slot < 10)%nat ->
  slots_satisfy placed (g_devices s) ->
  slots_satisfy placed (g_devices (fst (fst (TouchReadThread_event vlen d now ie s slot)))).
Proof.
  intros Hslot. apply TouchReadThread_event_inv; unfold placed; cbn; auto.
  - discriminate.
  - intros k f H. destruct (update_velocity_keeps now f) as [-> [-> _]]. exact H.
Qed.

Section Runs.

Variable vlen : My_Vector2 -> Q.

(** Preservation along a batch and along a run: [Inv] is a property of
    states and [Out] one of outputs that every admissible event (those
    accepted by [ok], given its clock reading) keeps, respectively
    produces, for slots below 10. *)
Variable Inv : State -> Prop.
Variable Out : Output -> Prop.
Variable ok : Z -> input_event -> bool.
Hypothesis Inv_event : forall d now ie s slot,
  ok now ie = true -> (slot < 10)%nat -> Inv s ->
  Inv (fst (fst (TouchReadThread_event vlen d now ie s slot))) /\
  Forall Out (snd (TouchReadThread_event vlen d now ie s slot)).

Lemma TouchReadThread_batch_inv (d : nat) (batch : list (Z * input_event)) (s : State)
    (slot : nat) :
  batch_ok ok batch = true -> (slot < 10)%nat -> Inv s ->
  (snd (fst (TouchReadThread_batch vlen d batch s slot)) < 10)%nat /\
  Inv (fst (fst (TouchReadThread_batch vlen d batch s slot))) /\
  Forall Out (snd (TouchReadThread_batch vlen d batch s slot)).
Proof.
  revert s slot. induction batch as [|[now ie] rest IH]; intros s slot Hok Hslot Hs.
  - cbn. auto.
  - cbn [TouchReadThread_batch]. cbn in Hok. apply andb_prop in Hok as [Hok1 Hok2].
    pose proof (TouchReadThread_event_slot vlen d now ie s slot Hslot) as H1.
    pose proof (Inv_event d now ie s slot Hok1 Hslot Hs) as [H2 H3].
    destruct (TouchReadThread_event vlen d now ie s slot) as [[s1 slot1] out1].
    cbn in H1, H2, H3. specialize (IH s1 slot1 Hok2 H1 H2).
    destruct (TouchReadThread_batch vlen d rest s1 slot1) as [[s2 slot2] out2].
    cbn in *. destruct IH as [? [? ?]].
    repeat split; try assumption. apply Forall_app. auto.
Qed.

Lemma run_readers_inv (trace : list (nat * list (Z * input_event))) (s : State)
    (slots : nat -> nat) :
  trace_ok ok trace = true -> (forall d, (slots d < 10)%nat) -> Inv s ->
  (forall d, (snd (fst (run_readers vlen trace s slots)) d < 10)%nat) /\
  Inv (fst (fst (run_readers vlen trace s slots))) /\
  Forall Out (snd (run_readers vlen trace s slots)).
Proof.
  revert s slots.
  induction trace as [|[d batch] rest IH]; intros s slots Hok Hslots Hs.
  - cbn. auto.
  - cbn [run_readers]. cbn in Hok. apply andb_prop in Hok as [Hok1 Hok2].
    destruct (TouchReadThread_batch_inv d batch s (slots d) Hok1 (Hslots d) Hs)
      as [H1 [H2 H3]].
    destruct (TouchReadThread_batch vlen d batch s (slots d)) as [[s1 slot1] out1].
    cbn in H1, H2, H3.
    specialize (IH s1 (fun d' => if Nat.eqb d' d then slot1 else slots d') Hok2).
    destruct (run_readers vlen rest s1 _) as [[s2 slots2] out2].
    cbn in *. destruct IH as [? [? ?]]; [|exact H2|].
    { intros d'. destruct (Nat.eqb d' d); auto. }
    repeat split; try assumption. apply Forall_app. auto.
Qed.

End Runs.

Lemma batch_ok_any (batch : list (Z * input_event)) :
  batch_ok (fun _ _ => true) batch = true.
Proof. induction batch as [|e b IH]; [reflexivity|exact IH]. Qed.

Lemma trace_ok_any (trace : list (nat * list (Z * input_event))) :
  trace_ok (fun _ _ => true) trace = true.
Proof.
  induction trace as [|[d batch] rest IH]; [reflexivity|].
  unfold trace_ok in *. cbn [forallb snd].
  rewrite IH, batch_ok_any. reflexivity.
Qed.

(** C4.  Start from a registry in which no slot is down and let the
    reader threads decode any sequence of batches.  Then (a) a
    tracking-id event with value >= 0 decoded next by the thread of
    device [d], whose current slot is [slots d], marks that slot down
    with identity [(d * 2 + 1) * 10 + slots d]; (b) every slot that is
    down carries the identity computed from its device and slot index;
    hence (c) two down slots at different (device, slot) places never
    carry the same identity, so an identity is not given out again while
    its contact is down. *)
Theorem contact_identities_distinct (vlen : My_Vector2 -> Q)
    (trace : list (nat * list (Z * input_event))) (s0 : State) :
  registry_idle s0 = true ->
  let s := fst (fst (run_readers vlen trace s0 slots_initial)) in
  let slots := snd (fst (run_readers vlen trace s0 slots_initial)) in
  (forall d now v, 0 <= v -> (d < length (g_devices s0))%nat ->
     exists f,
       finger_at
         (g_devices (fst (fst (TouchReadThread_event vlen d now
                                 (abs_event ABS_MT_TRACKING_ID v) s (slots d)))))
         d (slots d) = Some f /\
       isDown f = true /\
       id f = (Z.of_nat d * 2 + 1) * 10 + Z.of_nat (slots d)) /\
  (forall d k f, finger_at (g_devices s) d k = Some f -> isDown f = true ->
     id f = (Z.of_nat d * 2 + 1) * 10 + Z.of_nat k) /\
  (forall d1 k1 f1 d2 k2 f2,
     finger_at (g_devices s) d1 k1 = Some f1 ->
     finger_at (g_devices s) d2 k2 = Some f2 ->
     isDown f1 = true -> isDown f2 = true ->
     (d1, k1) <> (d2, k2) -> id f1 <> id f2).
Proof.
  intros Hidle. cbv zeta.
  pose (I := fun s : State =>
    slots_satisfy placed (g_devices s) /\
    forall d k, is_Some (finger_at (g_devices s) d k)
                <-> is_Some (finger_at (g_devices s0) d k)).
  assert (HI : forall d now ie s slot, true = true -> (slot < 10)%nat -> I s ->
             I (fst (fst (TouchReadThread_event vlen d now ie s slot))) /\
             Forall (fun _ => True) (snd (TouchReadThread_event vlen d now ie s slot))).
  { intros d now ie s slot _ Hslot [H1 H2]. split; [split|].
    - apply TouchReadThread_event_placed; assumption.
    - intros d' k. rewrite TouchReadThread_event_shape. apply H2.
    - apply Forall_forall. auto. }
  assert (H0 : I s0).
  { split; [|reflexivity]. intros d k f Hf Hd.
    rewrite (registry_idle_slots s0 d k f Hidle Hf) in Hd. discriminate. }
  destruct (run_readers_inv vlen I (fun _ => True) (fun _ _ => true) HI
              trace s0 slots_initial) as [Hslots [[Hpl Hshape] _]];
    [apply trace_ok_any|intros d; cbv; lia|exact H0|].
  destruct (run_readers vlen trace s0 slots_initial) as [[s slots] out].
  cbn [fst snd] in *.
  split; [|split].
  - intros d now v Hv Hd.
    destruct (proj2 (Hshape d (slots d))
                (registry_idle_shape s0 d (slots d) Hidle Hd (Hslots d))) as [f0 Hf0].
    unfold TouchReadThread_event, alter_slot. cbn.
    replace (v =? -1) with false by (symmetry; apply Z.eqb_neq; lia).
    cbn. rewrite finger_at_alter_eq, Hf0. cbn.
    eexists. split; [reflexivity|]. split; reflexivity.
  - intros d k f Hf Hd. apply (Hpl d k f Hf Hd).
  - intros d1 k1 f1 d2 k2 f2 Hf1 Hf2 Hd1 Hd2 Hne Heq.
    destruct (Hpl d1 k1 f1 Hf1 Hd1) as [Hk1 Hi1].
    destruct (Hpl d2 k2 f2 Hf2 Hd2) as [Hk2 Hi2].
    rewrite Hi1, Hi2 in Heq. unfold contact_id, MAX_FINGERS in Heq.
    apply Hne. f_equal; lia.
Qed.

Lemma contact_identities_distinct_witness :
  let s := fst (fst (run_readers vec_length (all_slots_down 3) st_three_panels
                       slots_initial)) in
  let slots := snd (fst (run_readers vec_length (all_slots_down 3) st_three_panels
                           slots_initial)) in
  (forall d now v, 0 <= v -> (d < length (g_devices st_three_panels))%nat ->
     exists f,
       finger_at
         (g_devices (fst (fst (TouchReadThread_event vec_length d now
                                 (abs_event ABS_MT_TRACKING_ID v) s (slots d)))))
         d (slots d) = Some f /\
       isDown f = true /\
       id f = (Z.of_nat d * 2 + 1) * 10 + Z.of_nat (slots d)) /\
  (forall d k f, finger_at (g_devices s) d k = Some f -> isDown f = true ->
     id f = (Z.of_nat d * 2 + 1) * 10 + Z.of_nat k) /\
  (forall d1 k1 f1 d2 k2 f2,
     finger_at (g_devices s) d1 k1 = Some f1 ->
     finger_at (g_devices s) d2 k2 = Some f2 ->
     isDown f1 = true -> isDown f2 = true ->
     (d1, k1) <> (d2, k2) -> id f1 <> id f2).
Proof.
  apply (contact_identities_distinct vec_length (all_slots_down 3) st_three_panels).
  vm_compute. reflexivity.
Defined.

(** The identities of the thirty contacts of [st_thirty_down]. *)
Example thirty_identities :
  map id (GetActiveTouches st_thirty_down)
  = [10; 11; 12; 13; 14; 15; 16; 17; 18; 19;
     30; 31; 32; 33; 34; 35; 36; 37; 38; 39;
     50; 51; 52; 53; 54; 55; 56; 57; 58; 59].
Proof. vm_compute. reflexivity. Qed.

(** ** Pressure *)

Lemma normalized_in_unit (v : Z) :
  0 <= v <= 255 -> (0 <= inject_Z v / 255 <= 1)%Q.
Proof.
  intros Hv. unfold Qle, Qdiv, Qmult, Qinv, inject_Z. cbn. lia.
Qed.

Lemma pressure_normal_iff (f : TouchPoint) :
  pressure_normal f = true <-> (0 <= pressure f <= 1)%Q.
Proof.
  unfold pressure_normal. rewrite andb_true_iff, !Qle_bool_iff. reflexivity.
Qed.

Lemma registry_pressures_slots (s : State) :
  registry_pressures_normal s = true ->
  slots_satisfy (fun _ _ f => pressure_normal f = true) (g_devices s).
Proof.
  unfold registry_pressures_normal, finger_at. intros H d k f Hf.
  unfold finger_at in Hf.
  destruct (g_devices s !! d) as [dev|] eqn:E; [|discriminate].
  rewrite forallb_forall in H.
  apply list_elem_of_lookup_2, list_elem_of_In, H in E.
  rewrite forallb_forall in E.
  apply list_elem_of_lookup_2, list_elem_of_In, E in Hf. exact Hf.
Qed.

Lemma TouchReadThread_event_pressures (vlen : My_Vector2 -> Q) (d : nat) (now : Z)
    (ie : input_event) (s : State) (slot : nat) :
  pressure_in_range now ie = true ->
  slots_satisfy (fun _ _ f => pressure_normal f = true) (g_devices s) ->
  slots_satisfy (fun _ _ f => pressure_normal f = true)
    (g_devices (fst (fst (TouchReadThread_event vlen d now ie s slot)))).
Proof.
  intros Hok. apply TouchReadThread_event_inv; cbn; auto.
  - intros f Ht Hc _. unfold pressure_in_range in Hok.
    rewrite Ht, Hc in Hok. cbn in Hok.
    apply andb_prop in Hok as [H1 H2].
    apply Z.leb_le in H1. apply Z.leb_le in H2.
    apply pressure_normal_iff. cbn. apply normalized_in_unit. lia.
  - intros k f H. unfold pressure_normal.
    destruct (update_velocity_keeps now f) as [_ [_ ->]]. exact H.
Qed.

(** C9 (amended).  A pressure-axis event stores [value / 255] in the
    current slot; for raw values in 0 .. 255 this lies in [0, 1].  So if
    every slot starts with a pressure in [0, 1] (the constructor stores
    1) and every decoded pressure event carries a raw value in 0 .. 255,
    then every slot's pressure stays in [0, 1]. *)
Theorem pressure_normalized (vlen : My_Vector2 -> Q)
    (trace : list (nat * list (Z * input_event))) (s0 : State) :
  registry_pressures_normal s0 = true ->
  trace_ok pressure_in_range trace = true ->
  let s := fst (fst (run_readers vlen trace s0 slots_initial)) in
  (forall d k f, finger_at (g_devices s) d k = Some f -> (0 <= pressure f <= 1)%Q) /\
  (forall d slot now v f, 0 <= v <= 255 ->
     finger_at (g_devices s) d slot = Some f ->
     finger_at
       (g_devices (fst (fst (TouchReadThread_event vlen d now
                               (abs_event ABS_MT_PRESSURE v) s slot))))
       d slot = Some (set_pressure (inject_Z v / 255) f) /\
     (0 <= inject_Z v / 255 <= 1)%Q).
Proof.
  intros H0 Hok. cbv zeta.
  destruct (run_readers_inv vlen
              (fun s => slots_satisfy (fun _ _ f => pressure_normal f = true)
                          (g_devices s))
              (fun _ => True) pressure_in_range) with
    (trace := trace) (s := s0) (slots := slots_initial) as [_ [H _]].
  - intros d now ie s slot Hin _ Hs. split.
    + apply TouchReadThread_event_pressures; assumption.
    + apply Forall_forall. auto.
  - exact Hok.
  - intros d. cbv. lia.
  - apply registry_pressures_slots. exact H0.
  - split.
    + intros d k f Hf. apply pressure_normal_iff. exact (H d k f Hf).
    + intros d slot now v f Hv Hf. split; [|apply normalized_in_unit; exact Hv].
      unfold TouchReadThread_event, alter_slot. cbn.
      rewrite finger_at_alter_eq, Hf. reflexivity.
Qed.

Lemma pressure_normalized_witness :
  let s := fst (fst (run_readers vec_length pressure_trace st_readonly slots_initial)) in
  (forall d k f, finger_at (g_devices s) d k = Some f -> (0 <= pressure f <= 1)%Q) /\
  (forall d slot now v f, 0 <= v <= 255 ->
     finger_at (g_devices s) d slot = Some f ->
     finger_at
       (g_devices (fst (fst (TouchReadThread_event vec_length d now
                               (abs_event ABS_MT_PRESSURE v) s slot))))
       d slot = Some (set_pressure (inject_Z v / 255) f) /\
     (0 <= inject_Z v / 255 <= 1)%Q).
Proof.
  apply (pressure_normalized vec_length pressure_trace st_readonly).
  - vm_compute. reflexivity.
  - vm_compute. reflexivity.
Defined.

(** C9, as stated, fails: the decoder divides by 255 without clamping, so
    a raw pressure of 510 (a device whose pressure axis goes beyond 255)
    is stored as 2. *)
Lemma pressure_above_one :
  registry_pressures_normal st_readonly = true /\
  exists f,
    finger_at
      (g_devices (fst (fst (TouchReadThread_event vec_length 0 t0
                              (abs_event ABS_MT_PRESSURE 510) st_readonly 0))))
      0 0 = Some f /\
    (pressure f == 2)%Q /\ ~ (pressure f <= 1)%Q.
Proof.
  split; [vm_compute; reflexivity|].
  eexists. split; [vm_compute; reflexivity|].
  cbn [pressure]. split; [reflexivity|].
  intros H. vm_compute in H. apply H. reflexivity.
Qed.

(** ** Gesture window *)

Lemma Recognize_ended_no_tap (vlen : My_Vector2 -> Q) (now : Z) (avgPos : My_Vector2)
    (cfg : GestureConfig) (gs : GestureState) (g0 : GestureData) :
  tapMaxDuration cfg <= now - touchStartTime gs ->
  Forall (fun o => is_tap_gesture o = false)
         (snd (Recognize_ended vlen now avgPos cfg gs g0)).
Proof.
  intros H. unfold Recognize_ended.
  replace (now - touchStartTime gs <? tapMaxDuration cfg) with false
    by (symmetry; apply Z.ltb_ge; exact H).
  cbn [andb]. destruct (Qltb _ _); cbn; repeat constructor.
Qed.

Lemma Recognize_active_no_tap (vlen : My_Vector2 -> Q) (now n : Z) (sumPos : My_Vector2)
    (device : TouchDevice) (cfg : GestureConfig) (gs : GestureState) (g0 : GestureData) :
  Forall (fun o => is_tap_gesture o = false)
         (snd (Recognize_active vlen now n sumPos device cfg gs g0)).
Proof.
  unfold Recognize_active.
  destruct (negb (isLongPressing gs)); [destruct (_ && _)|];
    cbn [snd]; apply Forall_app; split; try (repeat constructor);
    (destruct (n =? 2); [|constructor]);
    (destruct (filter _ _) as [|t1 [|t2 ts]]; try constructor);
    (destruct (Qltb _ _); repeat constructor).
Qed.

Lemma RecognizeGesture_no_tap (vlen : My_Vector2 -> Q) (now : Z) (device : TouchDevice)
    (s : State) :
  tapMaxDuration (g_gestureConfig s) <= now - touchStartTime (g_gestureState s) ->
  Forall (fun o => is_tap_gesture o = false) (snd (RecognizeGesture vlen now device s)).
Proof.
  intros H. unfold RecognizeGesture.
  destruct (negb (g_gestureEnabled s) || negb (g_gestureCallback s)); [constructor|].
  destruct (count_active (fingers device) 0 vzero) as [n avg].
  destruct (n =? 0).
  - pose proof (Recognize_ended_no_tap vlen now avg _ _ GestureData_default H) as Ht.
    destruct (Recognize_ended _ _ _ _ _ _) as [gs out]. exact Ht.
  - pose proof (Recognize_active_no_tap vlen now n avg device (g_gestureConfig s)
                  (g_gestureState s) GestureData_default) as Ht.
    destruct (Recognize_active _ _ _ _ _ _ _ _) as [gs out]. exact Ht.
Qed.

Lemma report_boundary_no_tap (vlen : My_Vector2 -> Q) (d : nat) (now : Z) (s : State) :
  tapMaxDuration (g_gestureConfig s) <= now - touchStartTime (g_gestureState s) ->
  Forall (fun o => is_tap_gesture o = false) (snd (report_boundary vlen d now s)).
Proof.
  intros H. unfold report_boundary.
  set (s1 := set_g_devices _ s).
  assert (H2 : Forall (fun o => is_tap_gesture o = false)
     (snd (if g_gestureEnabled s1
           then match g_devices s1 !! d with
                | Some device => RecognizeGesture vlen now device s1
                | None => (s1, [])
                end
           else (s1, [])))).
  { destruct (g_gestureEnabled s1); [|constructor].
    destruct (g_devices s1 !! d); [|constructor].
    apply RecognizeGesture_no_tap. exact H. }
  destruct (if g_gestureEnabled s1 then _ else _) as [s2 out2]. cbn [snd] in H2.
  destruct (now - lastCallbackTime s2 <? MIN_CALLBACK_INTERVAL); [exact H2|].
  destruct (g_touchCallback _).
  { apply Forall_app. split; [exact H2|repeat constructor]. }
  destruct (negb (g_readOnly _)); [|exact H2].
  destruct (Upload_writes_only (set_lastCallbackTime now s2)) as [buf Hb].
  destruct (Upload _) as [s4 out4]. cbn in Hb. subst out4.
  apply Forall_app. split; [exact H2|repeat constructor].
Qed.

Lemma TouchReadThread_event_no_tap (vlen : My_Vector2 -> Q) (d : nat) (now : Z)
    (ie : input_event) (s : State) (slot : nat) :
  tapMaxDuration (g_gestureConfig s) <= now - touchStartTime (g_gestureState s) ->
  Forall (fun o => is_tap_gesture o = false) (snd (TouchReadThread_event vlen d now ie s slot)).
Proof.
  intros H. unfold TouchReadThread_event.
  case_axis ie ABS_MT_SLOT; [constructor|].
  case_axis ie ABS_MT_TRACKING_ID; [destruct (ie_value ie =? -1); constructor|].
  case_axis ie ABS_MT_POSITION_X; [destruct (g_devices s !! d); constructor|].
  case_axis ie ABS_MT_POSITION_Y; [destruct (g_devices s !! d); constructor|].
  case_axis ie ABS_MT_PRESSURE; [constructor|].
  case_report ie; [|constructor].
  pose proof (report_boundary_no_tap vlen d now s H) as Ht.
  destruct (report_boundary vlen d now s) as [s' out]. exact Ht.
Qed.

(** No run of the reader threads changes the configuration, the flags
    or the start of the gesture window. *)
Lemma run_readers_frame (vlen : My_Vector2 -> Q)
    (trace : list (nat * list (Z * input_event))) (s0 : State) :
  frame_of (fst (fst (run_readers vlen trace s0 slots_initial))) = frame_of s0.
Proof.
  destruct (run_readers_inv vlen (fun s => frame_of s = frame_of s0)
              (fun _ => True) (fun _ _ => true))
    with (trace := trace) (s := s0) (slots := slots_initial) as [_ [H _]].
  - intros d now ie s slot _ _ Hs. split.
    + rewrite TouchReadThread_event_frame. exact Hs.
    + apply Forall_forall. auto.
  - apply trace_ok_any.
  - intros d. cbv. lia.
  - reflexivity.
  - exact H.
Qed.

(** The synthetic entry points only write to the virtual device and
    leave the recognition context alone: they never reach the
    recogniser. *)
Lemma synthetic_input_no_gesture (now : Z) (x y : Q) (touchId : Z) (s : State) :
  let calls := [Down now x y touchId s; Move x y touchId s; Up touchId s] in
  Forall (fun r =>
            g_gestureState (fst r) = g_gestureState s /\
            Forall (fun o => exists fd buf, o = WriteOut fd buf) (snd r)) calls.
Proof.
  assert (H : forall s1, g_gestureState s1 = g_gestureState s ->
            g_gestureState (fst (Upload s1)) = g_gestureState s /\
            Forall (fun o => exists fd buf, o = WriteOut fd buf) (snd (Upload s1))).
  { intros s1 Hg. destruct (Upload_frame s1) as [b Hb].
    destruct (Upload_writes_only s1) as [buf Hw].
    rewrite Hb, Hw. split; [exact Hg|]. repeat constructor. eauto. }
  cbv zeta. unfold Down, Move, Up.
  destruct (is_empty (g_devices s)).
  - repeat constructor.
  - repeat constructor; apply H; reflexivity.
Qed.

(** The start of the gesture window is read but never assigned: no run
    of the reader threads changes it, and while the clock is at or past
    [touchStartTime + tapMaxDuration] no Tap and no DoubleTap is
    delivered. *)
Lemma tap_needs_recorded_start (vlen : My_Vector2 -> Q)
    (trace : list (nat * list (Z * input_event))) (s0 : State) :
  trace_ok (not_before (touchStartTime (g_gestureState s0)
                        + tapMaxDuration (g_gestureConfig s0))) trace = true ->
  let r := run_readers vlen trace s0 slots_initial in
  touchStartTime (g_gestureState (fst (fst r))) = touchStartTime (g_gestureState s0) /\
  touchStartPos (g_gestureState (fst (fst r))) = touchStartPos (g_gestureState s0) /\
  Forall (fun o => is_tap_gesture o = false) (snd r).
Proof.
  intros Hok. cbv zeta.
  destruct (run_readers_inv vlen
              (fun s => frame_of s = frame_of s0)
              (fun o => is_tap_gesture o = false)
              (not_before (touchStartTime (g_gestureState s0)
                           + tapMaxDuration (g_gestureConfig s0))))
    with (trace := trace) (s := s0) (slots := slots_initial) as [_ [H1 H2]].
  - intros d now ie s slot Hin _ Hs. split.
    + rewrite TouchReadThread_event_frame. exact Hs.
    + apply TouchReadThread_event_no_tap.
      unfold not_before in Hin. apply Z.leb_le in Hin.
      assert (Hc : g_gestureConfig s = g_gestureConfig s0)
        by exact (f_equal fr_config Hs).
      assert (Ht : touchStartTime (g_gestureState s) = touchStartTime (g_gestureState s0))
        by exact (f_equal fr_startTime Hs).
      rewrite Hc, Ht. lia.
  - exact Hok.
  - intros d. cbv. lia.
  - reflexivity.
  - split; [exact (f_equal fr_startTime H1)|].
    split; [exact (f_equal fr_startPos H1)|exact H2].
Qed.

(** C2.  Recognition is enabled and a callback is registered; one
    contact arrives on slot 0 at (100, 200) and leaves 50 ms later
    without moving.  Whatever [length()] computes, no Tap (and no
    DoubleTap) is delivered: the duration is measured from
    [touchStartTime], which is still 0, so it is the clock reading
    itself and is never below [tapMaxDuration].  With the Euclidean
    length nothing at all is delivered. *)
Theorem tap_not_delivered (vlen : My_Vector2 -> Q) :
  g_gestureEnabled st_gestures = true /\
  g_gestureCallback st_gestures = true /\
  tapMaxDuration (g_gestureConfig st_gestures) = 300 /\
  Forall (fun o => is_tap_gesture o = false)
         (snd (run_readers vlen tap_trace st_gestures slots_initial)) /\
  snd (run_readers vec_length tap_trace st_gestures slots_initial) = [] /\
  GetTouchCount
    (fst (fst (run_readers vec_length tap_trace st_gestures slots_initial))) = 0.
Proof.
  split; [reflexivity|]. split; [reflexivity|]. split; [reflexivity|].
  split; [|split; vm_compute; reflexivity].
  apply (tap_needs_recorded_start vlen tap_trace st_gestures).
  vm_compute. reflexivity.
Qed.

(** C3.  The first report of [batch_down] takes the device from no
    active slot to one active slot at (100, 200), at clock reading [t0].
    Afterwards the shared context still holds start time 0 and start
    position (0, 0): nothing was recorded, and the later duration and
    distance computations measure from these zeros. *)
Theorem window_start_not_recorded (vlen : My_Vector2 -> Q) :
  let s1 := fst (fst (run_readers vlen [(0%nat, batch_down)] st_gestures
                        slots_initial)) in
  GetTouchCount st_gestures = 0 /\
  GetTouchCount
    (fst (fst (run_readers vec_length [(0%nat, batch_down)] st_gestures
                 slots_initial))) = 1 /\
  touchStartTime (g_gestureState s1) = 0 /\
  touchStartPos (g_gestureState s1) = vzero /\
  touchStartTime (g_gestureState s1) <> t0.
Proof.
  cbv zeta.
  pose proof (run_readers_frame vlen [(0%nat, batch_down)] st_gestures) as H.
  split; [vm_compute; reflexivity|].
  split; [vm_compute; reflexivity|].
  rewrite (f_equal fr_startTime H : touchStartTime _ = _).
  rewrite (f_equal fr_startPos H : touchStartPos _ = _).
  repeat split. discriminate.
Qed.

(** * Further properties of the module *)

(** ** Device probing *)

Lemma land_bit_test (a k : Z) :
  0 <= k -> (Z.land a (Z.shiftl 1 k) =? 0) = negb (Z.testbit a k).
Proof.
  intros Hk. rewrite Z.shiftl_1_l.
  destruct (Z.testbit a k) eqn:E; cbn.
  - apply Z.eqb_neq. intros H.
    assert (Ht : Z.testbit (Z.land a (2 ^ k)) k = true)
      by (rewrite Z.land_spec, E, Z.pow2_bits_true; auto).
    rewrite H, Z.bits_0 in Ht. discriminate.
  - apply Z.eqb_eq. apply Z.bits_inj'. intros n Hn.
    rewrite Z.land_spec, Z.bits_0, Z.pow2_bits_eqb by exact Hk.
    destruct (Z.eqb_spec k n) as [<-|_]; [rewrite E; reflexivity|apply andb_false_r].
Qed.

Lemma scan_bit_spec (j byte k : Z) (a b c : bool) :
  0 <= k ->
  scan_bit j byte (a, b, c) k =
  (a || (Z.testbit byte k && (j * 8 + k =? ABS_MT_SLOT)),
   b || (Z.testbit byte k && (j * 8 + k =? ABS_MT_POSITION_X)),
   c || (Z.testbit byte k && (j * 8 + k =? ABS_MT_POSITION_Y))).
Proof.
  intros Hk. unfold scan_bit. rewrite land_bit_test by exact Hk.
  rewrite negb_involutive.
  destruct (Z.testbit byte k); cbn [andb].
  - destruct (_ =? ABS_MT_SLOT), (_ =? ABS_MT_POSITION_X), (_ =? ABS_MT_POSITION_Y);
      rewrite ?orb_true_r, ?orb_false_r; reflexivity.
  - rewrite !orb_false_r. reflexivity.
Qed.

Lemma code_eqb (j k q r : Z) :
  0 <= k < 8 -> 0 <= r < 8 ->
  (j * 8 + k =? q * 8 + r) = (j =? q) && (k =? r).
Proof.
  intros Hk Hr.
  destruct (Z.eqb_spec (j * 8 + k) (q * 8 + r)) as [H|H];
    destruct (Z.eqb_spec j q), (Z.eqb_spec k r); cbn; try reflexivity; lia.
Qed.

Lemma scan_byte_spec (j byte : Z) (a b c : bool) :
  scan_byte j byte (a, b, c) =
  (a || ((j =? 5) && Z.testbit byte 7),
   b || ((j =? 6) && Z.testbit byte 5),
   c || ((j =? 6) && Z.testbit byte 6)).
Proof.
  unfold scan_byte. cbn [fold_left].
  rewrite !scan_bit_spec by lia.
  change ABS_MT_SLOT with (5 * 8 + 7).
  change ABS_MT_POSITION_X with (6 * 8 + 5).
  change ABS_MT_POSITION_Y with (6 * 8 + 6).
  rewrite !code_eqb by lia. cbn [Z.eqb Pos.eqb].
  destruct (j =? 5), (j =? 6); cbn [andb];
    rewrite ?andb_false_r, ?andb_true_r, ?orb_false_r; reflexivity.
Qed.

Lemma announced_from_step (j byte : Z) (rest : list Z) (c k : Z) :
  ((j =? c) && Z.testbit byte k) || announced_from (j + 1) rest c k
  = announced_from j (byte :: rest) c k.
Proof.
  unfold announced_from.
  destruct (Z.eqb_spec j c) as [->|Hne].
  - replace (c + 1 <=? c) with false by (symmetry; apply Z.leb_gt; lia).
    rewrite Z.leb_refl, Z.sub_diag. cbn. apply orb_false_r.
  - cbn [andb orb]. destruct (Z.leb_spec (j + 1) c) as [Hle|Hgt].
    + replace (j <=? c) with true by (symmetry; apply Z.leb_le; lia).
      replace (Z.to_nat (c - j)) with (S (Z.to_nat (c - (j + 1)))) by lia.
      reflexivity.
    + replace (j <=? c) with false by (symmetry; apply Z.leb_gt; lia).
      reflexivity.
Qed.

Lemma scan_bytes_spec (bits : list Z) (j : Z) (a b c : bool) :
  scan_bytes j bits (a, b, c) =
  (a || announced_from j bits 5 7,
   b || announced_from j bits 6 5,
   c || announced_from j bits 6 6).
Proof.
  revert j a b c. induction bits as [|byte rest IH]; intros j a b c.
  - unfold announced_from. cbn [scan_bytes].
    assert (H : forall n k, Z.testbit (nth n (@nil Z) 0) k = false)
      by (intros [|n] k; apply Z.bits_0).
    rewrite !H, !andb_false_r, !orb_false_r. reflexivity.
  - cbn [scan_bytes]. rewrite scan_byte_spec, IH.
    rewrite <- !orb_assoc, !announced_from_step. reflexivity.
Qed.

(** X1.  The two scanning loops of [CheckDeviceIsTouch] accept an axis
    bitmap exactly when bit 7 of byte 5 and bits 5 and 6 of byte 6 are
    set, i.e. when the codes ABS_MT_SLOT (47), ABS_MT_POSITION_X (53) and
    ABS_MT_POSITION_Y (54) are announced; bytes that the ioctl did not
    return count as zero.  This is the closed form used by [Init]. *)
Theorem CheckDeviceIsTouch_scan_spec (bits : list Z) :
  CheckDeviceIsTouch_scan bits = CheckDeviceIsTouch bits /\
  (CheckDeviceIsTouch_scan bits = true <->
   Z.testbit (nth 5 bits 0) 7 = true /\
   Z.testbit (nth 6 bits 0) 5 = true /\
   Z.testbit (nth 6 bits 0) 6 = true).
Proof.
  assert (E : CheckDeviceIsTouch_scan bits =
              Z.testbit (nth 5 bits 0) 7 && Z.testbit (nth 6 bits 0) 5
              && Z.testbit (nth 6 bits 0) 6).
  { unfold CheckDeviceIsTouch_scan. rewrite scan_bytes_spec. reflexivity. }
  split; [rewrite E; reflexivity|].
  rewrite E, !andb_true_iff. tauto.
Qed.

Example CheckDeviceIsTouch_scan_examples :
  CheckDeviceIsTouch_scan touch_bits = true /\
  CheckDeviceIsTouch_scan [0; 0; 0; 0; 0; 128; 32] = false /\
  CheckDeviceIsTouch_scan [255; 255; 255; 255; 255] = false /\
  CheckDeviceIsTouch_scan [] = false.
Proof. repeat split. Qed.

(** ** Slot selection and position events *)

(** X2.  A slot-index event is never dropped and never fails: a value in
    [0, 10) selects that slot, any other value (negative or too large)
    selects slot 0.  The thread's slot afterwards is always below 10,
    and the event changes no state and produces no output. *)
Theorem slot_event_clamps (vlen : My_Vector2 -> Q) (d : nat) (now v : Z)
    (s : State) (slot : nat) :
  let r := TouchReadThread_event vlen d now (abs_event ABS_MT_SLOT v) s slot in
  fst (fst r) = s /\ snd r = [] /\
  (snd (fst r) < 10)%nat /\
  Z.of_nat (snd (fst r)) = (if (0 <=? v) && (v <? 10) then v else 0).
Proof.
  cbv zeta. unfold TouchReadThread_event. cbn.
  repeat split; unfold select_slot, MAX_FINGERS;
    destruct (Z.ltb_spec v 0), (Z.leb_spec 10 v), (Z.leb_spec 0 v), (Z.ltb_spec v 10);
    cbn; lia.
Qed.

(** X3.  A position event stores [value * scale] of its own device into
    one coordinate of the current slot: the other coordinate, the
    origin, identity, down flag, velocity, pressure and timestamp of that
    slot and every other slot are unchanged, and nothing is emitted. *)
Theorem position_event_scales (vlen : My_Vector2 -> Q) (d : nat) (now v : Z)
    (s : State) (slot : nat) (device : TouchDevice) (f : TouchPoint) :
  g_devices s !! d = Some device ->
  fingers device !! slot = Some f ->
  let rx := TouchReadThread_event vlen d now (abs_event ABS_MT_POSITION_X v) s slot in
  let ry := TouchReadThread_event vlen d now (abs_event ABS_MT_POSITION_Y v) s slot in
  finger_at (g_devices (fst (fst rx))) d slot
    = Some (set_pos (mkVec (inject_Z v * scaleX device) (vy (pos f))) f) /\
  finger_at (g_devices (fst (fst ry))) d slot
    = Some (set_pos (mkVec (vx (pos f)) (inject_Z v * scaleY device)) f) /\
  (forall d' k, (d', k) <> (d, slot) ->
     finger_at (g_devices (fst (fst rx))) d' k = finger_at (g_devices s) d' k /\
     finger_at (g_devices (fst (fst ry))) d' k = finger_at (g_devices s) d' k) /\
  snd rx = [] /\ snd ry = [] /\
  snd (fst rx) = slot /\ snd (fst ry) = slot.
Proof.
  intros Hd Hf. cbv zeta. unfold TouchReadThread_event, alter_slot. cbn.
  rewrite Hd. cbn.
  assert (Hat : finger_at (g_devices s) d slot = Some f)
    by (unfold finger_at; rewrite Hd; exact Hf).
  rewrite !finger_at_alter_eq, Hat. cbn.
  repeat split; try reflexivity; apply finger_at_alter_ne; assumption.
Qed.

Lemma position_event_scales_witness :
  let f := mkTouchPoint vzero vzero vzero 0 false 1 0 in
  let device := mkTouchDevice 3 (1080 # 1080) (2400 # 2400)
                  (mkAbs 0 0 1080 0 0 0) (mkAbs 0 0 2400 0 0 0)
                  (replicate 10 TouchPoint_default) in
  let rx := TouchReadThread_event vec_length 0 t0
              (abs_event ABS_MT_POSITION_X 540) st_readonly 2 in
  let ry := TouchReadThread_event vec_length 0 t0
              (abs_event ABS_MT_POSITION_Y 540) st_readonly 2 in
  finger_at (g_devices (fst (fst rx))) 0 2
    = Some (set_pos (mkVec (inject_Z 540 * scaleX device) (vy (pos f))) f) /\
  finger_at (g_devices (fst (fst ry))) 0 2
    = Some (set_pos (mkVec (vx (pos f)) (inject_Z 540 * scaleY device)) f) /\
  (forall d' k, (d', k) <> (0%nat, 2%nat) ->
     finger_at (g_devices (fst (fst rx))) d' k = finger_at (g_devices st_readonly) d' k /\
     finger_at (g_devices (fst (fst ry))) d' k = finger_at (g_devices st_readonly) d' k) /\
  snd rx = [] /\ snd ry = [] /\
  snd (fst rx) = 2%nat /\ snd (fst ry) = 2%nat.
Proof.
  apply (position_event_scales vec_length 0 t0 540 st_readonly 2
           (mkTouchDevice 3 (1080 # 1080) (2400 # 2400)
              (mkAbs 0 0 1080 0 0 0) (mkAbs 0 0 2400 0 0 0)
              (replicate 10 TouchPoint_default))
           (mkTouchPoint vzero vzero vzero 0 false 1 0)).
  - vm_compute. reflexivity.
  - vm_compute. reflexivity.
Defined.

(** ** Orientation *)

(** X4.  [SetOrientation] stores [orientation % 4] with C++ truncation.
    For a non-negative argument the stored code is one of 0, 1, 2, 3 and
    adding 4 changes nothing.  For a negative argument the stored code is
    never positive, so [TouchToScreen] takes its default branch and the
    subsystem behaves as unrotated. *)
Theorem SetOrientation_codes (orientation : Z) (s : State) :
  let c := g_orientation (SetOrientation orientation s) in
  (0 <= orientation ->
     0 <= c <= 3 /\ c = orientation mod 4 /\
     SetOrientation (orientation + 4) s = SetOrientation orientation s) /\
  (orientation < 0 ->
     -3 <= c <= 0 /\
     forall p, TouchToScreen (SetOrientation orientation s) p
               = TouchToScreen (SetOrientation 0 s) p).
Proof.
  cbv zeta. unfold SetOrientation. cbn [g_orientation set_g_orientation]. split.
  - intros H. rewrite Z.rem_mod_nonneg by lia.
    pose proof (Z.mod_pos_bound orientation 4 ltac:(lia)).
    split; [lia|]. split; [reflexivity|].
    rewrite Z.rem_mod_nonneg by lia.
    replace (orientation + 4) with (orientation + 1 * 4) by lia.
    rewrite Z.mod_add by lia. reflexivity.
  - intros H.
    assert (Hc : -3 <= Z.rem orientation 4 <= 0).
    { replace orientation with (- (- orientation)) by lia.
      rewrite Z.rem_opp_l by lia.
      pose proof (Z.rem_bound_pos (- orientation) 4 ltac:(lia) ltac:(lia)). lia. }
    split; [exact Hc|]. intros p. unfold TouchToScreen. cbn.
    replace (Z.rem orientation 4 =? 1) with false by (symmetry; apply Z.eqb_neq; lia).
    replace (Z.rem orientation 4 =? 2) with false by (symmetry; apply Z.eqb_neq; lia).
    replace (Z.rem orientation 4 =? 3) with false by (symmetry; apply Z.eqb_neq; lia).
    reflexivity.
Qed.

Example SetOrientation_examples :
  g_orientation (SetOrientation 5 State_initial) = 1 /\
  g_orientation (SetOrientation (-1) State_initial) = -1 /\
  g_orientation (SetOrientation (-4) State_initial) = 0.
Proof. repeat split. Qed.

(** ** Initialisation *)

Lemma Close_state (s : State) :
  fst (Close s) =
  if g_initialized s then
    set_g_devices []
      (set_g_outputFd (if 0 <? g_outputFd s then -1 else g_outputFd s)
         (set_g_initialized false s))
  else s.
Proof.
  unfold Close. destruct (g_initialized s); [|reflexivity].
  destruct (0 <? g_outputFd s); [reflexivity|]. destruct s; reflexivity.
Qed.

Lemma probe_devices_fresh (env : Env) (readOnly : bool) (indices : list nat) :
  Forall (fun device =>
            fingers device = replicate 10 TouchPoint_default /\ 0 <= fd device)
         (fst (probe_devices env readOnly indices)).
Proof.
  induction indices as [|i rest IH]; cbn [probe_devices]; [constructor|].
  destruct (probe_devices env readOnly rest) as [ds out]. cbn [fst] in IH.
  destruct (Z.ltb_spec (node_fd (env_node env i)) 0); [exact IH|].
  destruct (CheckDeviceIsTouch _); [|exact IH].
  destruct (node_absX _); [|exact IH].
  destruct (node_absY _); [|exact IH].
  cbn [fst]. constructor; [split; [reflexivity|assumption]|exact IH].
Qed.

(** In read-only mode the probing loop grabs nothing. *)
Lemma probe_devices_read_only (env : Env) (indices : list nat) :
  Forall (fun o => is_grab o = false) (snd (probe_devices env true indices)).
Proof.
  induction indices as [|i rest IH]; cbn [probe_devices]; [constructor|].
  destruct (probe_devices env true rest) as [ds out]. cbn [snd] in IH.
  destruct (node_fd (env_node env i) <? 0); [exact IH|].
  destruct (CheckDeviceIsTouch _); [|constructor; [reflexivity|exact IH]].
  destruct (node_absX _); [|exact IH].
  destruct (node_absY _); exact IH.
Qed.

(** The state reached by a successful [Init], written out. *)
Lemma Init_success (env : Env) (screenSize : My_Vector2) (readOnly : bool) (s : State) :
  snd (fst (Init env screenSize readOnly s)) = true ->
  exists first rest out1,
    probe_devices env readOnly (seq 0 (S (env_eventCount env))) = (first :: rest, out1) /\
    snd (Init env screenSize readOnly s) = snd (Close s) ++ out1 /\
    let touchWidth := abs_maximum (absX first) in
    let touchHeight := abs_maximum (absY first) in
    let landscape := Qltb (vy screenSize) (vx screenSize) in
    let actualSize :=
      if landscape then mkVec (vy screenSize) (vx screenSize) else screenSize in
    fst (fst (Init env screenSize readOnly s)) =
      set_g_initialized true
        (set_g_touchScale
           (mkVec (inject_Z touchWidth / vx actualSize)
                  (inject_Z touchHeight / vy actualSize))
           (set_g_devices
              (map (fun device =>
                      set_scales
                        (inject_Z touchWidth / inject_Z (abs_maximum (absX device)))
                        (inject_Z touchHeight / inject_Z (abs_maximum (absY device)))
                        device) (first :: rest))
              ((if readOnly then fun x => x else set_g_outputFd (env_uinput_fd env))
                 (set_g_screenSize
                    (if landscape then screenSize
                     else mkVec (vy screenSize) (vx screenSize))
                    (set_g_readOnly readOnly (set_g_devices [] (fst (Close s)))))))).
Proof.
  unfold Init. destruct (Close s) as [s0 out0]. cbn [fst snd].
  destruct (negb (env_opendir env)); [discriminate|].
  destruct (probe_devices env readOnly _) as [devices out1].
  destruct devices as [|first rest]; [discriminate|].
  destruct (negb readOnly && (env_uinput_fd env <=? 0)); [discriminate|].
  destruct (negb readOnly && negb (env_dev_create env =? 0)); [discriminate|].
  intros _. exists first, rest, out1. cbn [fst snd].
  split; [reflexivity|]. split; [reflexivity|].
  destruct readOnly; reflexivity.
Qed.

(** X5.  [Init] returns true exactly when the device directory opens, at
    least one probed node qualifies, and, unless read-only, /dev/uinput
    opens with a positive descriptor and UI_DEV_CREATE returns 0.  A
    descriptor 0 from [open] counts as a failure. *)
Theorem Init_returns_true_iff (env : Env) (screenSize : My_Vector2)
    (readOnly : bool) (s : State) :
  snd (fst (Init env screenSize readOnly s)) = true <->
  env_opendir env = true /\
  fst (probe_devices env readOnly (seq 0 (S (env_eventCount env)))) <> [] /\
  (readOnly = true \/ (0 < env_uinput_fd env /\ env_dev_create env = 0)).
Proof.
  unfold Init. destruct (Close s) as [s0 out0].
  destruct (env_opendir env); cbn [negb fst snd];
    [|split; [discriminate|intros [H _]; discriminate]].
  destruct (probe_devices env readOnly _) as [devices out1]. cbn [fst].
  destruct devices as [|first rest];
    [split; [discriminate|intros [_ [H _]]; contradiction]|].
  destruct readOnly; cbn [negb andb fst snd].
  - split; [intros _; repeat split; [discriminate|left; reflexivity]|reflexivity].
  - destruct (Z.leb_spec (env_uinput_fd env) 0) as [Hle|Hgt]; cbn [fst snd].
    + split; [discriminate|intros [_ [_ [H|[H _]]]]; [discriminate|lia]].
    + destruct (Z.eqb_spec (env_dev_create env) 0) as [He|Hne]; cbn [negb fst snd].
      * split; [intros _; repeat split; [discriminate|right; split; assumption]|reflexivity].
      * split; [discriminate|intros [_ [_ [H|[_ H]]]]; [discriminate|contradiction]].
Qed.

Example Init_descriptor_zero :
  snd (fst (Init (env_panels 1 0 0) portrait false State_initial)) = false /\
  snd (fst (Init (env_panels 1 4 0) portrait false State_initial)) = true /\
  snd (fst (Init (env_panels 1 4 (-1)) portrait false State_initial)) = false /\
  snd (fst (Init (env_panels 1 (-1) (-1)) portrait true State_initial)) = true.
Proof. repeat split. Qed.

(** X6.  After a successful [Init] the subsystem is initialised in the
    requested mode with a non-empty registry in which every device has
    an open descriptor and ten slots, none of them down.  The callbacks,
    the gesture configuration and context, the orientation and the two
    function-local statics are those from before the call. *)
Theorem Init_success_state (env : Env) (screenSize : My_Vector2) (readOnly : bool)
    (s : State) :
  snd (fst (Init env screenSize readOnly s)) = true ->
  let s' := fst (fst (Init env screenSize readOnly s)) in
  g_initialized s' = true /\ g_readOnly s' = readOnly /\
  g_devices s' <> [] /\ registry_idle s' = true /\
  Forall (fun device => 0 <= fd device) (g_devices s') /\
  (g_touchCallback s', g_gestureCallback s', g_gestureEnabled s',
   g_gestureConfig s', g_gestureState s', g_orientation s',
   isFirstDown s', lastCallbackTime s')
  = (g_touchCallback s, g_gestureCallback s, g_gestureEnabled s,
     g_gestureConfig s, g_gestureState s, g_orientation s,
     isFirstDown s, lastCallbackTime s).
Proof.
  intros Hok. cbv zeta.
  destruct (Init_success env screenSize readOnly s Hok)
    as [first [rest [out1 [Hp [_ Hs]]]]].
  cbv zeta in Hs. rewrite Hs, Close_state.
  pose proof (probe_devices_fresh env readOnly (seq 0 (S (env_eventCount env)))) as Hf.
  rewrite Hp in Hf. cbn [fst] in Hf.
  assert (Hidle : forall g ds,
            Forall (fun device =>
              fingers device = replicate 10 TouchPoint_default /\ 0 <= fd device) ds ->
            forallb (fun device =>
              Nat.eqb (length (fingers device)) 10
              && forallb (fun f => negb (isDown f)) (fingers device))
              (map (fun device => set_scales (fst (g device)) (snd (g device)) device) ds)
            = true /\
            Forall (fun device => 0 <= fd device)
              (map (fun device => set_scales (fst (g device)) (snd (g device)) device) ds)).
  { intros g ds H. induction H as [|dev ds [H1 H2] _ IH]; [split; [reflexivity|constructor]|].
    destruct IH as [IH1 IH2]. cbn. rewrite H1, IH1.
    split; [reflexivity|constructor; assumption]. }
  destruct (Hidle (fun device =>
      (inject_Z (abs_maximum (absX first)) / inject_Z (abs_maximum (absX device)),
       inject_Z (abs_maximum (absY first)) / inject_Z (abs_maximum (absY device)))%Q)
    (first :: rest) Hf) as [Hi1 Hi2].
  split; [|split; [|split; [|split; [|split]]]].
  - destruct readOnly, (g_initialized s); reflexivity.
  - destruct readOnly, (g_initialized s); reflexivity.
  - destruct readOnly, (g_initialized s); discriminate.
  - unfold registry_idle.
    destruct readOnly, (g_initialized s); exact Hi1.
  - destruct readOnly, (g_initialized s); exact Hi2.
  - destruct readOnly, (g_initialized s); reflexivity.
Qed.

Lemma Init_success_state_witness :
  let s' := fst (fst (Init (env_panels 3 4 0) portrait false st_gestures)) in
  g_initialized s' = true /\ g_readOnly s' = false /\
  g_devices s' <> [] /\ registry_idle s' = true /\
  Forall (fun device => 0 <= fd device) (g_devices s') /\
  (g_touchCallback s', g_gestureCallback s', g_gestureEnabled s',
   g_gestureConfig s', g_gestureState s', g_orientation s',
   isFirstDown s', lastCallbackTime s')
  = (g_touchCallback st_gestures, g_gestureCallback st_gestures,
     g_gestureEnabled st_gestures, g_gestureConfig st_gestures,
     g_gestureState st_gestures, g_orientation st_gestures,
     isFirstDown st_gestures, lastCallbackTime st_gestures).
Proof.
  apply (Init_success_state (env_panels 3 4 0) portrait false st_gestures).
  vm_compute. reflexivity.
Defined.

Lemma Close_no_grab (s : State) :
  Forall (fun o => is_grab o = false) (snd (Close s)).
Proof.
  unfold Close. destruct (g_initialized s); [|constructor].
  assert (H : Forall (fun o => is_grab o = false)
            (flat_map (fun device =>
               (if negb (g_readOnly s) then [UngrabOut (fd device)] else [])
               ++ [CloseOut (fd device)]) (g_devices s))).
  { induction (g_devices s) as [|dev ds IH]; [constructor|].
    cbn [flat_map]. apply Forall_app. split; [|exact IH].
    destruct (negb (g_readOnly s)); repeat constructor. }
  destruct (0 <? g_outputFd s); cbn [snd]; [|exact H].
  apply Forall_app. split; [exact H|repeat constructor].
Qed.

(** X7.  A read-only [Init] is passive whatever its outcome: it grabs no
    device and it neither opens nor changes the descriptor of the
    virtual device. *)
Theorem Init_read_only_passive (env : Env) (screenSize : My_Vector2) (s : State) :
  Forall (fun o => is_grab o = false) (snd (Init env screenSize true s)) /\
  g_outputFd (fst (fst (Init env screenSize true s))) = g_outputFd (fst (Close s)).
Proof.
  pose proof (Close_no_grab s) as Hc.
  pose proof (probe_devices_read_only env (seq 0 (S (env_eventCount env)))) as Hp.
  unfold Init. destruct (Close s) as [s0 out0]. cbn [fst snd] in *.
  destruct (negb (env_opendir env)); [split; [exact Hc|reflexivity]|].
  destruct (probe_devices env true _) as [devices out1]. cbn [snd] in Hp.
  destruct devices as [|first rest]; cbn [negb andb fst snd];
    (split; [apply Forall_app; split; assumption|reflexivity]).
Qed.

(** X8.  Whatever its outcome, [Init] stores the screen size with the
    larger dimension first: the argument itself when it is wider than
    high, the argument with its components exchanged otherwise. *)
Theorem Init_screen_size_sorted (env : Env) (screenSize : My_Vector2)
    (readOnly : bool) (s : State) :
  let size := g_screenSize (fst (fst (Init env screenSize readOnly s))) in
  size = (if Qltb (vy screenSize) (vx screenSize) then screenSize
          else mkVec (vy screenSize) (vx screenSize)) /\
  (vy size <= vx size)%Q.
Proof.
  cbv zeta.
  assert (E : g_screenSize (fst (fst (Init env screenSize readOnly s))) =
              (if Qltb (vy screenSize) (vx screenSize) then screenSize
               else mkVec (vy screenSize) (vx screenSize))).
  { unfold Init. destruct (Close s) as [s0 out0].
    destruct (negb (env_opendir env)); [reflexivity|].
    destruct (probe_devices env readOnly _) as [devices out1].
    destruct devices as [|first rest]; [reflexivity|].
    destruct (negb readOnly && (env_uinput_fd env <=? 0));
      [destruct readOnly; reflexivity|].
    destruct (negb readOnly && negb (env_dev_create env =? 0));
      destruct readOnly; reflexivity. }
  split; [exact E|]. rewrite E. unfold Qltb.
  destruct (Qle_bool (vx screenSize) (vy screenSize)) eqn:H; cbn [negb vx vy].
  - apply Qle_bool_iff. exact H.
  - destruct screenSize as [x y]. cbn [vx vy] in *.
    destruct (Qlt_le_dec y x) as [Hlt|Hle]; [apply Qlt_le_weak; exact Hlt|].
    apply Qle_bool_iff in Hle. congruence.
Qed.

Example Init_screen_size_examples :
  g_screenSize (fst (fst (Init (env_panels 0 4 0) (mkVec 1080 2400) true State_initial)))
    = mkVec 2400 1080 /\
  g_screenSize (fst (fst (Init (env_panels 1 4 0) (mkVec 2400 1080) true State_initial)))
    = mkVec 2400 1080.
Proof. split; reflexivity. Qed.

Lemma Q_div_mul_cancel (a b : Q) : ~ (b == 0)%Q -> (a / b * b == a)%Q.
Proof. intros H. field. exact H. Qed.

Lemma Q_mul_div_cancel (a b : Q) : ~ (a == 0)%Q -> (a * (b / a) == b)%Q.
Proof. intros H. field. exact H. Qed.

(** X9.  After a successful [Init], every device's scale factors bring
    its own axis maxima onto those of the first device (for non-zero
    maxima), and [ScreenToTouch] sends the far corner of the portrait
    screen, (short side, long side), to the first device's maxima. *)
Theorem Init_normalises_scales (env : Env) (screenSize : My_Vector2)
    (readOnly : bool) (s : State) :
  snd (fst (Init env screenSize readOnly s)) = true ->
  (0 < vx screenSize)%Q -> (0 < vy screenSize)%Q ->
  let s' := fst (fst (Init env screenSize readOnly s)) in
  exists first rest,
    g_devices s' = first :: rest /\
    Forall (fun device =>
              (abs_maximum (absX device) <> 0 ->
               (scaleX device * inject_Z (abs_maximum (absX device))
                == inject_Z (abs_maximum (absX first)))%Q) /\
              (abs_maximum (absY device) <> 0 ->
               (scaleY device * inject_Z (abs_maximum (absY device))
                == inject_Z (abs_maximum (absY first)))%Q))
           (g_devices s') /\
    veq (ScreenToTouch s'
           (if Qltb (vy screenSize) (vx screenSize)
            then mkVec (vy screenSize) (vx screenSize) else screenSize))
        (mkVec (inject_Z (abs_maximum (absX first)))
               (inject_Z (abs_maximum (absY first)))).
Proof.
  intros Hok Hx Hy. cbv zeta.
  destruct (Init_success env screenSize readOnly s Hok)
    as [first [rest [out1 [_ [_ Hs]]]]].
  cbv zeta in Hs. rewrite Hs. clear Hs.
  set (W := abs_maximum (absX first)). set (H := abs_maximum (absY first)).
  assert (Hnz : forall z : Z, z <> 0 -> ~ (inject_Z z == 0)%Q).
  { intros z Hz E. unfold Qeq in E. cbn in E. lia. }
  eexists. eexists. split; [reflexivity|]. split.
  - cbn [g_devices set_g_initialized set_g_touchScale set_g_devices].
    apply Forall_forall. intros dev Hin. apply list_elem_of_In in Hin.
    apply in_map_iff in Hin as [dev0 [<- _]].
    cbn [scaleX scaleY absX absY set_scales]. split; intros Hm.
    + apply Q_div_mul_cancel. apply Hnz. exact Hm.
    + apply Q_div_mul_cancel. apply Hnz. exact Hm.
  - unfold ScreenToTouch, veq, vmul.
    cbn [g_touchScale set_g_initialized set_g_touchScale vx vy].
    destruct (Qltb (vy screenSize) (vx screenSize)); cbn [vx vy absX absY set_scales];
      split; apply Q_mul_div_cancel; intros E; rewrite E in *;
      first [exact (Qlt_irrefl _ Hx)|exact (Qlt_irrefl _ Hy)].
Qed.

Lemma Init_normalises_scales_witness :
  let s' := fst (fst (Init (env_panels 3 4 0) portrait false State_initial)) in
  exists first rest,
    g_devices s' = first :: rest /\
    Forall (fun device =>
              (abs_maximum (absX device) <> 0 ->
               (scaleX device * inject_Z (abs_maximum (absX device))
                == inject_Z (abs_maximum (absX first)))%Q) /\
              (abs_maximum (absY device) <> 0 ->
               (scaleY device * inject_Z (abs_maximum (absY device))
                == inject_Z (abs_maximum (absY first)))%Q))
           (g_devices s') /\
    veq (ScreenToTouch s'
           (if Qltb (vy portrait) (vx portrait)
            then mkVec (vy portrait) (vx portrait) else portrait))
        (mkVec (inject_Z (abs_maximum (absX first)))
               (inject_Z (abs_maximum (absY first)))).
Proof.
  apply (Init_normalises_scales (env_panels 3 4 0) portrait false State_initial).
  - vm_compute. reflexivity.
  - vm_compute. reflexivity.
  - vm_compute. reflexivity.
Defined.

(** ** Shutdown *)

(** X10.  [Close] on an initialised subsystem releases everything: the
    flag is cleared, the registry is emptied, the descriptor of the
    virtual device is no longer positive, every registered device is
    closed, and every device is ungrabbed first exactly when the
    subsystem was not read-only; a positive virtual-device descriptor
    is destroyed and closed. *)
Theorem Close_releases (s : State) :
  g_initialized s = true ->
  let s' := fst (Close s) in
  let out := snd (Close s) in
  g_initialized s' = false /\ g_devices s' = [] /\ g_outputFd s' <= 0 /\
  (forall device, In device (g_devices s) ->
     In (CloseOut (fd device)) out /\
     (In (UngrabOut (fd device)) out <-> g_readOnly s = false)) /\
  (0 < g_outputFd s ->
     In (DestroyOut (g_outputFd s)) out /\ In (CloseOut (g_outputFd s)) out).
Proof.
  intros Hi. cbv zeta. unfold Close. rewrite Hi.
  set (per := fun device : TouchDevice =>
         (if negb (g_readOnly s) then [UngrabOut (fd device)] else [])
         ++ [CloseOut (fd device)]).
  assert (Hdev : forall device, In device (g_devices s) ->
            In (CloseOut (fd device)) (flat_map per (g_devices s)) /\
            (g_readOnly s = false ->
             In (UngrabOut (fd device)) (flat_map per (g_devices s)))).
  { intros device Hin. split; [|intros Hro]; apply in_flat_map; exists device;
      (split; [exact Hin|]); unfold per.
    - apply in_or_app. right. left. reflexivity.
    - rewrite Hro. left. reflexivity. }
  assert (Hro : forall f0, In (UngrabOut f0) (flat_map per (g_devices s)) ->
            g_readOnly s = false).
  { intros f0 Hin. apply in_flat_map in Hin as [device [_ Hin]]. unfold per in Hin.
    destruct (g_readOnly s); [|reflexivity].
    cbn in Hin. destruct Hin as [Hin|[]]. discriminate. }
  destruct (Z.ltb_spec 0 (g_outputFd s)) as [Hpos|Hneg]; cbn [fst snd].
  - split; [reflexivity|]. split; [reflexivity|]. split; [cbn; lia|]. split.
    + intros device Hin. destruct (Hdev device Hin) as [H1 H2]. split.
      * apply in_or_app. left. exact H1.
      * split.
        -- intros H. apply in_app_or in H as [H|H]; [exact (Hro _ H)|].
           cbn in H. destruct H as [H|[H|[]]]; discriminate.
        -- intros H. apply in_or_app. left. exact (H2 H).
    + intros _. split; apply in_or_app; right; cbn; auto.
  - split; [reflexivity|]. split; [reflexivity|]. split; [cbn; lia|]. split.
    + intros device Hin. destruct (Hdev device Hin) as [H1 H2].
      split; [exact H1|]. split; [apply Hro|exact H2].
    + intros H. lia.
Qed.

Lemma Close_releases_witness :
  let s' := fst (Close st_three_panels) in
  let out := snd (Close st_three_panels) in
  g_initialized s' = false /\ g_devices s' = [] /\ g_outputFd s' <= 0 /\
  (forall device, In device (g_devices st_three_panels) ->
     In (CloseOut (fd device)) out /\
     (In (UngrabOut (fd device)) out <-> g_readOnly st_three_panels = false)) /\
  (0 < g_outputFd st_three_panels ->
     In (DestroyOut (g_outputFd st_three_panels)) out /\
     In (CloseOut (g_outputFd st_three_panels)) out).
Proof. apply (Close_releases st_three_panels). reflexivity. Defined.

Lemma Close_twice (s : State) :
  g_initialized (fst (Close s)) = false /\
  Close (fst (Close s)) = (fst (Close s), []).
Proof.
  assert (H : g_initialized (fst (Close s)) = false).
  { rewrite Close_state. destruct (g_initialized s) eqn:E; [reflexivity|exact E]. }
  split; [exact H|]. apply Close_uninitialized. exact H.
Qed.

Lemma Init_ignores_prior_Close (env : Env) (screenSize : My_Vector2) (readOnly : bool)
    (s : State) :
  fst (Init env screenSize readOnly (fst (Close s)))
  = fst (Init env screenSize readOnly s).
Proof.
  destruct (Close_twice s) as [_ Hc].
  unfold Init. rewrite Hc. destruct (Close s) as [s0 out0]. cbn [fst].
  destruct (negb (env_opendir env)); [reflexivity|].
  destruct (probe_devices env readOnly _) as [devices out1].
  destruct devices as [|first rest]; [reflexivity|].
  destruct (negb readOnly && (env_uinput_fd env <=? 0)); [reflexivity|].
  destruct (negb readOnly && negb (env_dev_create env =? 0)); reflexivity.
Qed.

(** X11.  [Close] is safe to repeat: after any [Close] the flag is off
    and a second [Close] changes nothing and releases nothing.  And
    since [Init] begins by closing, the explicit [Close] that main.cpp
    issues before re-initialising on a rotation is redundant: with or
    without it, [Init] returns the same result and leaves the same
    state. *)
Theorem Close_then_Init (env : Env) (screenSize : My_Vector2) (readOnly : bool)
    (s : State) :
  g_initialized (fst (Close s)) = false /\
  Close (fst (Close s)) = (fst (Close s), []) /\
  fst (Init env screenSize readOnly (fst (Close s)))
  = fst (Init env screenSize readOnly s).
Proof.
  destruct (Close_twice s) as [H1 H2].
  split; [exact H1|]. split; [exact H2|]. apply Init_ignores_prior_Close.
Qed.

(** ** Rotated coordinates stay on the screen *)

Lemma unscale_bound (t w a : Q) :
  (0 < w)%Q -> (0 < a)%Q -> (0 <= t <= w)%Q -> (0 <= t / (w / a) <= a)%Q.
Proof.
  intros Hw Ha [Ht0 Ht1].
  assert (Hwn : ~ (w == 0)%Q) by (intros E; rewrite E in Hw; exact (Qlt_irrefl _ Hw)).
  assert (Han : ~ (a == 0)%Q) by (intros E; rewrite E in Ha; exact (Qlt_irrefl _ Ha)).
  assert (E : (t / (w / a) == t * a / w)%Q) by (field; split; assumption).
  rewrite E. split.
  - apply Qle_shift_div_l; [exact Hw|]. rewrite Qmult_0_l.
    apply Qmult_le_0_compat; [exact Ht0|apply Qlt_le_weak; exact Ha].
  - apply Qle_shift_div_r; [exact Hw|]. rewrite (Qmult_comm a w).
    apply Qmult_le_compat_r; [exact Ht1|apply Qlt_le_weak; exact Ha].
Qed.

(** X12.  After a successful [Init] on a screen with positive sides and
    a first device with positive axis maxima, under orientation code 1
    or 3 [TouchToScreen] sends every point of the panel,
    [0 <= x <= maxX] and [0 <= y <= maxY], into the stored (landscape)
    screen rectangle. *)
Theorem TouchToScreen_rotated_in_screen (env : Env) (screenSize : My_Vector2)
    (readOnly : bool) (s : State) (o : Z) (first : TouchDevice) (x y : Q) :
  snd (fst (Init env screenSize readOnly s)) = true ->
  (0 < vx screenSize)%Q -> (0 < vy screenSize)%Q ->
  head (g_devices (fst (fst (Init env screenSize readOnly s)))) = Some first ->
  0 < abs_maximum (absX first) -> 0 < abs_maximum (absY first) ->
  o = 1 \/ o = 3 ->
  (0 <= x <= inject_Z (abs_maximum (absX first)))%Q ->
  (0 <= y <= inject_Z (abs_maximum (absY first)))%Q ->
  let s' := SetOrientation o (fst (fst (Init env screenSize readOnly s))) in
  let q := TouchToScreen s' (mkVec x y) in
  (0 <= vx q <= vx (g_screenSize s'))%Q /\ (0 <= vy q <= vy (g_screenSize s'))%Q.
Proof.
  intros Hok Hsx Hsy Hhead Hw Hh Ho Hx Hy. cbv zeta.
  destruct (Init_success env screenSize readOnly s Hok)
    as [first0 [rest [out1 [_ [_ Hs]]]]].
  cbv zeta in Hs. rewrite Hs in Hhead |- *. clear Hs.
  cbn in Hhead. injection Hhead as <-.
  cbn [absX absY set_scales] in *.
  assert (HW : (0 < inject_Z (abs_maximum (absX first0)))%Q)
    by (unfold Qlt; cbn; lia).
  assert (HH : (0 < inject_Z (abs_maximum (absY first0)))%Q)
    by (unfold Qlt; cbn; lia).
  unfold TouchToScreen, SetOrientation.
  cbn [g_orientation g_touchScale g_screenSize set_g_orientation set_g_initialized
       set_g_touchScale set_g_devices set_g_screenSize set_g_outputFd set_g_readOnly
       vx vy].
  assert (Hsize : forall v, g_screenSize
            ((if readOnly then fun x0 => x0 else set_g_outputFd (env_uinput_fd env)) v)
            = g_screenSize v) by (intros v; destruct readOnly; reflexivity).
  rewrite !Hsize. cbn [g_screenSize set_g_screenSize].
  assert (Hr : Z.rem o 4 = o) by (destruct Ho as [-> | ->]; reflexivity).
  rewrite Hr.
  destruct (Qltb (vy screenSize) (vx screenSize)) eqn:Hl; cbn [vx vy].
  - pose proof (unscale_bound x _ (vy screenSize) HW Hsy Hx) as [Hx0 Hx1].
    pose proof (unscale_bound y _ (vx screenSize) HH Hsx Hy) as [Hy0 Hy1].
    destruct Ho as [-> | ->]; cbn [Z.eqb Pos.eqb vx vy]; split; split; lra.
  - pose proof (unscale_bound x _ (vx screenSize) HW Hsx Hx) as [Hx0 Hx1].
    pose proof (unscale_bound y _ (vy screenSize) HH Hsy Hy) as [Hy0 Hy1].
    destruct Ho as [-> | ->]; cbn [Z.eqb Pos.eqb vx vy]; split; split; lra.
Qed.

Lemma TouchToScreen_rotated_in_screen_witness :
  let s' := SetOrientation 1
              (fst (fst (Init (env_panels 1 (-1) (-1)) portrait true State_initial))) in
  let q := TouchToScreen s' (mkVec 540 1200) in
  (0 <= vx q <= vx (g_screenSize s'))%Q /\ (0 <= vy q <= vy (g_screenSize s'))%Q.
Proof.
  apply (TouchToScreen_rotated_in_screen (env_panels 1 (-1) (-1)) portrait true
           State_initial 1
           (mkTouchDevice 3 (1080 # 1080) (2400 # 2400)
              (mkAbs 0 0 1080 0 0 0) (mkAbs 0 0 2400 0 0 0)
              (replicate 10 TouchPoint_default)) 540 1200).
  - vm_compute. reflexivity.
  - reflexivity.
  - reflexivity.
  - vm_compute. reflexivity.
  - simpl. lia.
  - simpl. lia.
  - left. reflexivity.
  - unfold Qle. simpl. lia.
  - unfold Qle. simpl. lia.
Defined.

(** ** The buffer written by Upload *)

Lemma flat_map_finger_events_length (l : list TouchPoint) :
  length (flat_map finger_events l) = (6 * length l)%nat.
Proof.
  induction l as [|f l IH]; [reflexivity|].
  cbn [flat_map]. rewrite length_app, IH. cbn [length finger_events]. lia.
Qed.

Lemma Upload_fingers_take (fs : list TouchPoint) (l : UploadLoop)
    (seen : list TouchPoint) :
  lp_events l = flat_map finger_events (take 21 seen) ->
  (if lp_finished l then (21 < length seen)%nat
   else lp_fingerCount l = Z.of_nat (length seen) /\ (length seen <= 21)%nat) ->
  let l' := Upload_fingers fs l in
  let seen' := seen ++ filter is_down fs in
  lp_events l' = flat_map finger_events (take 21 seen') /\
  (if lp_finished l' then (21 < length seen')%nat
   else lp_fingerCount l' = Z.of_nat (length seen') /\ (length seen' <= 21)%nat).
Proof.
  revert l seen. induction fs as [|f fs IH]; intros l seen He Hc; cbv zeta.
  - cbn [Upload_fingers]. rewrite filter_nil, app_nil_r. auto.
  - cbn [Upload_fingers]. destruct (lp_finished l) eqn:Hfin.
    + rewrite Hfin, take_app_le by lia. rewrite length_app. split; [exact He|lia].
    + destruct Hc as [Hc1 Hc2]. destruct (isDown f) eqn:Hd.
      * rewrite filter_cons_True by exact Hd.
        destruct (Z.ltb_spec 20 (lp_fingerCount l)) as [Hgt|Hle].
        -- cbn [lp_events lp_finished]. rewrite take_app_le by lia.
           rewrite length_app. cbn [length]. split; [exact He|lia].
        -- replace (seen ++ f :: filter is_down fs)
             with ((seen ++ [f]) ++ filter is_down fs)
             by (rewrite <- app_assoc; reflexivity).
           apply IH; cbn [lp_events lp_finished lp_fingerCount].
           ++ rewrite He, !take_ge by (rewrite ?length_app; cbn [length]; lia).
              rewrite flat_map_app. cbn [flat_map]. rewrite app_nil_r. reflexivity.
           ++ rewrite length_app. cbn [length]. lia.
      * rewrite filter_cons_False by (unfold is_down; rewrite Hd; discriminate).
        apply IH; [exact He|]. rewrite Hfin. auto.
Qed.

Lemma Upload_devices_take (ds : list TouchDevice) (l : UploadLoop)
    (seen : list TouchPoint) :
  lp_events l = flat_map finger_events (take 21 seen) ->
  (if lp_finished l then (21 < length seen)%nat
   else lp_fingerCount l = Z.of_nat (length seen) /\ (length seen <= 21)%nat) ->
  lp_events (Upload_devices ds l)
  = flat_map finger_events
      (take 21 (seen ++ filter is_down (concat (map fingers ds)))).
Proof.
  revert l seen. induction ds as [|d ds IH]; intros l seen He Hc.
  - cbn [Upload_devices map concat].
    change (filter is_down []) with (@nil TouchPoint). rewrite app_nil_r. exact He.
  - cbn [Upload_devices map concat]. rewrite filter_app, app_assoc.
    destruct (lp_finished l) eqn:Hfin.
    + rewrite take_app_le by (rewrite length_app; lia).
      rewrite take_app_le by lia. exact He.
    + destruct (Upload_fingers_take (fingers d) l seen He) as [H1 H2];
        [rewrite Hfin; exact Hc|].
      apply IH; assumption.
Qed.

Lemma Upload_events_take (s : State) :
  lp_events (Upload_devices (g_devices s) (mkLoop [] 0 false))
  = flat_map finger_events (take 21 (GetActiveTouches s)).
Proof.
  rewrite (Upload_devices_take (g_devices s) (mkLoop [] 0 false) []).
  - reflexivity.
  - reflexivity.
  - cbn. split; [reflexivity|lia].
Qed.

(** X13.  When at least one finger is down, [Upload] writes the
    six-event groups of the first twenty-one down fingers in registry
    order (device by device, slot by slot), followed by SYN_REPORT.  The
    two key-down events precede them exactly when the sticky flag is
    set, and the call clears the flag, so the press edge is written
    once. *)
Theorem Upload_buffer_with_touch (s : State) :
  0 < GetTouchCount s ->
  Upload_buffer s =
    (if isFirstDown s then downEvent else [])
    ++ flat_map finger_events (take 21 (GetActiveTouches s))
    ++ [ev EV_SYN SYN_REPORT 0] /\
  Upload s = (set_isFirstDown false s, [WriteOut (g_outputFd s) (Upload_buffer s)]).
Proof.
  intros H.
  pose proof (Upload_devices_some_down _ (mkLoop [] 0 false) eq_refl
                ltac:(cbn; lia) (GetTouchCount_pos s H)) as Hne.
  unfold Upload_buffer, Upload, Upload_fill.
  rewrite Upload_events_take in *.
  destruct (flat_map finger_events (take 21 (GetActiveTouches s))) as [|e es];
    [contradiction|].
  destruct (isFirstDown s); cbn [andb]; split; reflexivity.
Qed.

Lemma Upload_buffer_with_touch_witness :
  Upload_buffer st_thirty_down =
    (if isFirstDown st_thirty_down then downEvent else [])
    ++ flat_map finger_events (take 21 (GetActiveTouches st_thirty_down))
    ++ [ev EV_SYN SYN_REPORT 0] /\
  Upload st_thirty_down
  = (set_isFirstDown false st_thirty_down,
     [WriteOut (g_outputFd st_thirty_down) (Upload_buffer st_thirty_down)]).
Proof. apply (Upload_buffer_with_touch st_thirty_down). vm_compute. reflexivity. Defined.

(** X14.  One [Upload] stores at most 127 events in [g_input.event]
    (room for 512) and writes at most 129, so the fixed buffer cannot
    overflow however many devices and fingers are down. *)
Theorem Upload_buffer_fits (s : State) :
  (length (fst (fst (Upload_fill s))) <= 127)%nat /\
  (length (Upload_buffer s) <= 129)%nat.
Proof.
  unfold Upload_buffer, Upload_fill. rewrite Upload_events_take.
  pose proof (flat_map_finger_events_length (take 21 (GetActiveTouches s))) as Hl.
  pose proof (length_take_le (GetActiveTouches s) 21) as Ht.
  assert (Ht' : (length (take 21 (GetActiveTouches s)) <= 21)%nat).
  { rewrite length_take. lia. }
  destruct (flat_map finger_events (take 21 (GetActiveTouches s))) as [|e es].
  - destruct (isFirstDown s); cbn; lia.
  - cbn [fst snd]. destruct (isFirstDown s); cbn [andb];
      rewrite ?length_app; cbn [length downEvent] in *; lia.
Qed.

(** X15.  Every [Upload] issues exactly one write, on [g_outputFd],
    whose last event is SYN_REPORT, and changes no state other than
    its sticky flag. *)
Theorem Upload_single_write (s : State) :
  snd (Upload s) = [WriteOut (g_outputFd s) (Upload_buffer s)] /\
  last (Upload_buffer s) = Some (ev EV_SYN SYN_REPORT 0) /\
  exists b, fst (Upload s) = set_isFirstDown b s.
Proof.
  split; [|split; [|apply Upload_frame]].
  - unfold Upload, Upload_buffer.
    destruct (Upload_fill s) as [[events first] hasTouch].
    destruct (hasTouch && first); reflexivity.
  - unfold Upload_buffer, Upload_fill.
    destruct (lp_events _) as [|e es].
    + destruct (isFirstDown s); reflexivity.
    + destruct (isFirstDown s); cbn [andb];
        rewrite ?app_assoc; apply last_snoc.
Qed.

(** ** Queries *)

Lemma count_fingers_spec (fs : list TouchPoint) (count : Z) :
  count_fingers fs count = count + Z.of_nat (length (filter is_down fs)).
Proof.
  revert count. induction fs as [|f fs IH]; intros count; cbn [count_fingers].
  - change (filter is_down []) with (@nil TouchPoint). cbn. lia.
  - rewrite IH. destruct (isDown f) eqn:Hd.
    + rewrite filter_cons_True by exact Hd. cbn [length]. lia.
    + rewrite filter_cons_False by (unfold is_down; rewrite Hd; discriminate). lia.
Qed.

Lemma count_devices_spec (ds : list TouchDevice) (count : Z) :
  count_devices ds count
  = count + Z.of_nat (length (filter is_down (concat (map fingers ds)))).
Proof.
  revert count. induction ds as [|d ds IH]; intros count; cbn [count_devices map concat].
  - change (filter is_down []) with (@nil TouchPoint). cbn. lia.
  - rewrite IH, count_fingers_spec, filter_app, length_app. lia.
Qed.

Lemma IsTouching_active (s : State) :
  IsTouching s = true <-> GetActiveTouches s <> [].
Proof.
  unfold IsTouching, GetTouchCount. rewrite Z.ltb_lt.
  destruct (GetActiveTouches s); cbn [length]; split; intros H;
    try discriminate; try lia; contradiction.
Qed.

(** X16.  The counting loops of [GetTouchCount] return the number of
    entries that [GetActiveTouches] returns; the count is never negative
    and never exceeds the number of slots in the registry, and
    [IsTouching] holds exactly when [GetActiveTouches] is non-empty. *)
Theorem GetTouchCount_loop_spec (s : State) :
  GetTouchCount_loop s = Z.of_nat (length (GetActiveTouches s)) /\
  GetTouchCount_loop s = GetTouchCount s /\
  0 <= GetTouchCount_loop s
    <= Z.of_nat (length (concat (map fingers (g_devices s)))) /\
  (IsTouching s = true <-> GetActiveTouches s <> []).
Proof.
  assert (E : GetTouchCount_loop s = Z.of_nat (length (GetActiveTouches s))).
  { unfold GetTouchCount_loop. rewrite count_devices_spec. reflexivity. }
  split; [exact E|]. split; [exact E|]. split.
  - rewrite E. unfold GetActiveTouches.
    pose proof (length_filter (fun f => isDown f = true)
                  (concat (map fingers (g_devices s)))). lia.
  - apply IsTouching_active.
Qed.

Lemma filter_alter_count (l : list TouchPoint) (k : nat)
    (g : TouchPoint -> TouchPoint) (f : TouchPoint) :
  l !! k = Some f ->
  Z.of_nat (length (filter is_down (alter g k l)))
  = Z.of_nat (length (filter is_down l))
    - Z.b2z (isDown f) + Z.b2z (isDown (g f)).
Proof.
  revert k. induction l as [|x l IH]; intros k Hk; [discriminate|].
  assert (Hc : forall (y : TouchPoint) (r : list TouchPoint),
            Z.of_nat (length (filter is_down (y :: r)))
            = Z.b2z (isDown y) + Z.of_nat (length (filter is_down r))).
  { intros y r. destruct (isDown y) eqn:Hd.
    - rewrite filter_cons_True by exact Hd. cbn [length Z.b2z]. lia.
    - rewrite filter_cons_False by (unfold is_down; rewrite Hd; discriminate).
      cbn [Z.b2z]. lia. }
  destruct k as [|k].
  - cbn in Hk. injection Hk as ->. cbn [alter list_alter]. rewrite !Hc. lia.
  - cbn in Hk. cbn [alter list_alter].
    change (list_alter g k l) with (alter g k l).
    rewrite !Hc, (IH k Hk). lia.
Qed.

Lemma registry_alter_count (ds : list TouchDevice) (d k : nat)
    (g : TouchPoint -> TouchPoint) (f : TouchPoint) :
  finger_at ds d k = Some f ->
  Z.of_nat (length (filter is_down
                      (concat (map fingers (alter (alter_finger k g) d ds)))))
  = Z.of_nat (length (filter is_down (concat (map fingers ds))))
    - Z.b2z (isDown f) + Z.b2z (isDown (g f)).
Proof.
  revert d. induction ds as [|dev ds IH]; intros d Hf; [destruct d; discriminate|].
  destruct d as [|d].
  - unfold finger_at in Hf. cbn in Hf. cbn [alter list_alter map concat].
    rewrite !filter_app, !length_app, !Nat2Z.inj_add.
    cbn [alter_finger set_fingers fingers].
    rewrite (filter_alter_count _ _ g f Hf). lia.
  - unfold finger_at in Hf. cbn in Hf. cbn [alter list_alter map concat].
    change (list_alter (alter_finger k g) d ds) with (alter (alter_finger k g) d ds).
    rewrite !filter_app, !length_app, !Nat2Z.inj_add.
    rewrite (IH d); [lia|]. exact Hf.
Qed.

(** X17.  A contact arrival on a slot that was up raises the touch count
    by one, a lift of a slot that was down lowers it by one; an arrival
    on a slot that is already down and a lift of a slot that is already
    up leave the count as it is. *)
Theorem GetTouchCount_arrival_lift (vlen : My_Vector2 -> Q) (d : nat) (now v : Z)
    (s : State) (slot : nat) (f : TouchPoint) :
  finger_at (g_devices s) d slot = Some f ->
  v <> -1 ->
  GetTouchCount
    (fst (fst (TouchReadThread_event vlen d now (abs_event ABS_MT_TRACKING_ID v) s slot)))
  = GetTouchCount s + (if isDown f then 0 else 1) /\
  GetTouchCount
    (fst (fst (TouchReadThread_event vlen d now (abs_event ABS_MT_TRACKING_ID (-1)) s slot)))
  = GetTouchCount s - (if isDown f then 1 else 0).
Proof.
  intros Hf Hv. unfold TouchReadThread_event, alter_slot. cbn.
  replace (v =? -1) with false by (symmetry; apply Z.eqb_neq; exact Hv).
  unfold GetTouchCount, GetActiveTouches. cbn [g_devices set_g_devices fst].
  change (fun f0 : TouchPoint => isDown f0 = true) with is_down.
  rewrite !(registry_alter_count _ _ _ _ f Hf). cbn [isDown contact_arrival
    set_timestamp set_startPos set_isDown set_id Z.b2z].
  destruct (isDown f); cbn [Z.b2z]; lia.
Qed.

Lemma GetTouchCount_arrival_lift_witness :
  GetTouchCount
    (fst (fst (TouchReadThread_event vec_length 0 t0
                 (abs_event ABS_MT_TRACKING_ID 7) st_readonly 4)))
  = GetTouchCount st_readonly + (if isDown TouchPoint_default then 0 else 1) /\
  GetTouchCount
    (fst (fst (TouchReadThread_event vec_length 0 t0
                 (abs_event ABS_MT_TRACKING_ID (-1)) st_readonly 4)))
  = GetTouchCount st_readonly - (if isDown TouchPoint_default then 1 else 0).
Proof.
  apply (GetTouchCount_arrival_lift vec_length 0 t0 7 st_readonly 4 TouchPoint_default).
  - vm_compute. reflexivity.
  - lia.
Defined.

Lemma find_finger_Some (test : TouchPoint -> bool) (fs : list TouchPoint) (k0 k : nat) :
  find_finger test fs k0 = Some k ->
  (k0 <= k)%nat /\ exists f, fs !! (k - k0)%nat = Some f /\ test f = true.
Proof.
  revert k0. induction fs as [|x fs IH]; intros k0 H; [discriminate|].
  cbn [find_finger] in H. destruct (test x) eqn:Hx.
  - injection H as <-. split; [lia|]. exists x. rewrite Nat.sub_diag. auto.
  - destruct (IH (S k0) H) as [Hle [f [Hf Ht]]]. split; [lia|]. exists f.
    replace (k - k0)%nat with (S (k - S k0)) by lia. auto.
Qed.

Lemma find_finger_None (test : TouchPoint -> bool) (fs : list TouchPoint) (k0 : nat) :
  find_finger test fs k0 = None ->
  forall i f, fs !! i = Some f -> test f = false.
Proof.
  revert k0. induction fs as [|x fs IH]; intros k0 H i f Hf; [discriminate|].
  cbn [find_finger] in H. destruct (test x) eqn:Hx; [discriminate|].
  destruct i as [|i]; [injection Hf as <-; exact Hx|].
  exact (IH (S k0) H i f Hf).
Qed.

Lemma find_touch_Some (test : TouchPoint -> bool) (ds : list TouchDevice)
    (d0 d k : nat) :
  find_touch test ds d0 = Some (d, k) ->
  (d0 <= d)%nat /\ exists f, finger_at ds (d - d0) k = Some f /\ test f = true.
Proof.
  revert d0. induction ds as [|dev ds IH]; intros d0 H; [discriminate|].
  cbn [find_touch] in H.
  destruct (find_finger test (fingers dev) 0) as [k1|] eqn:Hk.
  - injection H as <- <-. split; [lia|].
    destruct (find_finger_Some _ _ _ _ Hk) as [_ [f [Hf Ht]]].
    exists f. rewrite Nat.sub_diag. rewrite Nat.sub_0_r in Hf. auto.
  - destruct (IH (S d0) H) as [Hle [f [Hf Ht]]]. split; [lia|]. exists f.
    replace (d - d0)%nat with (S (d - S d0)) by lia. auto.
Qed.

Lemma find_touch_None (test : TouchPoint -> bool) (ds : list TouchDevice) (d0 : nat) :
  find_touch test ds d0 = None ->
  forall d k f, finger_at ds d k = Some f -> test f = false.
Proof.
  revert d0. induction ds as [|dev ds IH]; intros d0 H d k f Hf;
    [destruct d; discriminate|].
  cbn [find_touch] in H.
  destruct (find_finger test (fingers dev) 0) as [k1|] eqn:Hk; [discriminate|].
  destruct d as [|d].
  - exact (find_finger_None _ _ _ Hk k f Hf).
  - exact (IH (S d0) H d k f Hf).
Qed.

(** X18.  [GetTouchById] returns a pointer only to a slot that is down
    and carries the requested identity, and it returns [nullptr] exactly
    when no down slot carries it; the identity stored in a slot that is
    up is never matched. *)
Theorem GetTouchById_place_spec (s : State) (i : Z) :
  (forall d k, GetTouchById_place s i = Some (d, k) ->
     exists f, finger_at (g_devices s) d k = Some f /\
               isDown f = true /\ id f = i) /\
  (GetTouchById_place s i = None <->
   forall d k f, finger_at (g_devices s) d k = Some f -> isDown f = true -> id f <> i).
Proof.
  unfold GetTouchById_place. split; [|split].
  - intros d k H. destruct (find_touch_Some _ _ _ _ _ H) as [_ [f [Hf Ht]]].
    rewrite Nat.sub_0_r in Hf. apply andb_prop in Ht as [H1 H2].
    apply Z.eqb_eq in H2. eauto.
  - intros H d k f Hf Hd Hi.
    pose proof (find_touch_None _ _ _ H d k f Hf) as Ht. cbn in Ht.
    rewrite Hd in Ht. cbn in Ht. apply Z.eqb_neq in Ht. contradiction.
  - intros H. destruct (find_touch _ _ _) as [[d k]|] eqn:E; [|reflexivity].
    destruct (find_touch_Some _ _ _ _ _ E) as [_ [f [Hf Ht]]].
    rewrite Nat.sub_0_r in Hf. apply andb_prop in Ht as [H1 H2].
    apply Z.eqb_eq in H2. exfalso. exact (H d k f Hf H1 H2).
Qed.

(** Every down slot reached by the reader threads from an idle registry
    carries the identity of its place. *)
Lemma run_readers_placed (vlen : My_Vector2 -> Q)
    (trace : list (nat * list (Z * input_event))) (s0 : State) :
  registry_idle s0 = true ->
  slots_satisfy placed
    (g_devices (fst (fst (run_readers vlen trace s0 slots_initial)))).
Proof.
  intros Hidle.
  destruct (run_readers_inv vlen (fun s => slots_satisfy placed (g_devices s))
              (fun _ => True) (fun _ _ => true))
    with (trace := trace) (s := s0) (slots := slots_initial) as [_ [H _]].
  - intros d now ie s slot _ Hslot Hs. split.
    + apply TouchReadThread_event_placed; assumption.
    + apply Forall_forall. auto.
  - apply trace_ok_any.
  - intros d. cbv. lia.
  - intros d k f Hf Hd.
    rewrite (registry_idle_slots s0 d k f Hidle Hf) in Hd. discriminate.
  - exact H.
Qed.

(** X19.  After any run of the reader threads from an idle registry,
    looking a down contact up by its own identity returns that very
    slot: [GetTouchById (finger.id)] points back at [finger]. *)
Theorem GetTouchById_round_trip (vlen : My_Vector2 -> Q)
    (trace : list (nat * list (Z * input_event))) (s0 : State) :
  registry_idle s0 = true ->
  let s := fst (fst (run_readers vlen trace s0 slots_initial)) in
  forall d k f, finger_at (g_devices s) d k = Some f -> isDown f = true ->
    GetTouchById_place s (id f) = Some (d, k).
Proof.
  intros Hidle. cbv zeta. intros d k f Hf Hd.
  pose proof (run_readers_placed vlen trace s0 Hidle) as Hpl.
  set (s := fst (fst (run_readers vlen trace s0 slots_initial))) in *.
  unfold GetTouchById_place.
  destruct (find_touch _ (g_devices s) 0) as [[d' k']|] eqn:E.
  - destruct (find_touch_Some _ _ _ _ _ E) as [_ [f' [Hf' Ht]]].
    rewrite Nat.sub_0_r in Hf'. apply andb_prop in Ht as [Hd' Hi'].
    apply Z.eqb_eq in Hi'.
    destruct (Hpl d k f Hf Hd) as [Hk Hi].
    destruct (Hpl d' k' f' Hf' Hd') as [Hk' Hi''].
    destruct (contact_id_injective d' k' d k Hk' Hk) as [-> ->]; [congruence|].
    reflexivity.
  - pose proof (find_touch_None _ _ _ E d k f Hf) as Ht. cbn in Ht.
    rewrite Hd, Z.eqb_refl in Ht. discriminate.
Qed.

Lemma GetTouchById_round_trip_witness :
  let s := fst (fst (run_readers vec_length (all_slots_down 3) st_three_panels
                       slots_initial)) in
  registry_idle st_three_panels = true /\
  GetTouchCount s = 30 /\
  (forall d k f, finger_at (g_devices s) d k = Some f -> isDown f = true ->
     GetTouchById_place s (id f) = Some (d, k)).
Proof.
  split; [vm_compute; reflexivity|]. split; [vm_compute; reflexivity|].
  apply (GetTouchById_round_trip vec_length (all_slots_down 3) st_three_panels).
  vm_compute. reflexivity.
Defined.

Example GetTouchById_examples :
  GetTouchById_place st_thirty_down 35 = Some (1%nat, 5%nat) /\
  GetTouchById_place st_thirty_down 20 = None /\
  GetTouchById_place st_readonly 0 = None.
Proof. repeat split; vm_compute; reflexivity. Qed.

Lemma existsb_pointwise {A} (f g : A -> bool) (l : list A) :
  (forall x, f x = g x) -> existsb f l = existsb g l.
Proof. intros H. induction l as [|x l IH]; cbn; [reflexivity|]. rewrite H, IH. reflexivity. Qed.

(** X20.  [IsTouchingAt] holds exactly when some down slot lies, in
    screen coordinates, within the squared radius of the point.  Only
    the square of the radius is used, so a negative radius acts like its
    absolute value; and a positive answer implies [IsTouching]. *)
Theorem IsTouchingAt_spec (s : State) (p : My_Vector2) (radius : Q) :
  (IsTouchingAt s p radius = true <->
   exists d k f, finger_at (g_devices s) d k = Some f /\ isDown f = true /\
     (vx (vsub (TouchToScreen s (pos f)) p) * vx (vsub (TouchToScreen s (pos f)) p)
      + vy (vsub (TouchToScreen s (pos f)) p) * vy (vsub (TouchToScreen s (pos f)) p)
      <= radius * radius)%Q) /\
  IsTouchingAt s p (- radius) = IsTouchingAt s p radius /\
  (IsTouchingAt s p radius = true -> IsTouching s = true).
Proof.
  assert (Hiff : IsTouchingAt s p radius = true <->
   exists d k f, finger_at (g_devices s) d k = Some f /\ isDown f = true /\
     (vx (vsub (TouchToScreen s (pos f)) p) * vx (vsub (TouchToScreen s (pos f)) p)
      + vy (vsub (TouchToScreen s (pos f)) p) * vy (vsub (TouchToScreen s (pos f)) p)
      <= radius * radius)%Q).
  { unfold IsTouchingAt. cbv zeta. rewrite existsb_exists. split.
    - intros [dev [Hdev Hex]]. apply existsb_exists in Hex as [f [Hf Ht]].
      apply andb_prop in Ht as [Hd Hq]. apply Qle_bool_iff in Hq.
      apply list_elem_of_In, list_elem_of_lookup in Hdev as [d Hd'].
      apply list_elem_of_In, list_elem_of_lookup in Hf as [k Hk].
      exists d, k, f. unfold finger_at. rewrite Hd'. auto.
    - intros [d [k [f [Hf [Hd Hq]]]]]. unfold finger_at in Hf.
      destruct (g_devices s !! d) as [dev|] eqn:E; [|discriminate].
      exists dev. split; [apply list_elem_of_In; eapply list_elem_of_lookup_2; eauto|].
      apply existsb_exists. exists f.
      split; [apply list_elem_of_In; eapply list_elem_of_lookup_2; eauto|].
      rewrite Hd. cbn. apply Qle_bool_iff. exact Hq. }
  split; [exact Hiff|]. split.
  - unfold IsTouchingAt. cbv zeta. apply existsb_pointwise. intros dev.
    apply existsb_pointwise. intros f. f_equal.
    apply eq_true_iff_eq. rewrite !Qle_bool_iff.
    assert (E : (- radius * - radius == radius * radius)%Q) by ring.
    rewrite E. reflexivity.
  - intros H. apply Hiff in H as [d [k [f [Hf [Hd _]]]]].
    apply IsTouching_active.
    unfold GetActiveTouches. intros Hnil.
    unfold finger_at in Hf. destruct (g_devices s !! d) as [dev|] eqn:E; [|discriminate].
    assert (Hin : f ∈ filter (fun f0 : TouchPoint => isDown f0 = true)
                    (concat (map fingers (g_devices s)))).
    { apply list_elem_of_filter. split; [exact Hd|].
      apply list_elem_of_In, in_concat. exists (fingers dev). split.
      - apply in_map. apply list_elem_of_In. eapply list_elem_of_lookup_2; eauto.
      - apply list_elem_of_In. eapply list_elem_of_lookup_2; eauto. }
    rewrite Hnil in Hin. inversion Hin.
Qed.

(** ** Synthetic input *)

(** [alter_touch] followed by [Upload], the common shape of [Down], [Move]
    and [Up] on a registry that has slot 9 of device 0. *)
Lemma alter_touch_Upload (g : TouchPoint -> TouchPoint) (s : State) (f : TouchPoint) :
  finger_at (g_devices s) 0 9 = Some f ->
  let r := Upload (alter_touch g s) in
  finger_at (g_devices (fst r)) 0 9 = Some (g f) /\
  (forall d k, (d, k) <> (0%nat, 9%nat) ->
     finger_at (g_devices (fst r)) d k = finger_at (g_devices s) d k) /\
  g_touchScale (fst r) = g_touchScale s /\
  g_outputFd (fst r) = g_outputFd s /\
  g_gestureState (fst r) = g_gestureState s /\
  (exists buf, snd r = [WriteOut (g_outputFd s) buf]) /\
  GetTouchCount (fst r) = GetTouchCount s - Z.b2z (isDown f) + Z.b2z (isDown (g f)).
Proof.
  intros Hf. cbv zeta.
  destruct (Upload_frame (alter_touch g s)) as [b Hb].
  destruct (Upload_writes_only (alter_touch g s)) as [buf Hw].
  rewrite Hb, Hw. unfold alter_touch.
  cbn [g_devices g_touchScale g_outputFd g_gestureState set_isFirstDown set_g_devices].
  split; [rewrite finger_at_alter_eq, Hf; reflexivity|].
  split; [intros d k Hne; apply finger_at_alter_ne; exact Hne|].
  repeat (split; [reflexivity|]).
  split; [eauto|].
  unfold GetTouchCount, GetActiveTouches. cbn [g_devices].
  change (fun f0 : TouchPoint => isDown f0 = true) with is_down.
  apply registry_alter_count. exact Hf.
Qed.

Lemma has_touch_slot_not_empty (s : State) (f : TouchPoint) :
  finger_at (g_devices s) 0 9 = Some f -> is_empty (g_devices s) = false.
Proof. unfold finger_at. destruct (g_devices s); [discriminate|reflexivity]. Qed.

(** X21.  On a registry that has slot 9 of device 0, [Down] rewrites
    exactly that slot: identity [touchId] (19 for a negative [touchId]),
    position and origin [(x, y) * g_touchScale], down, timestamp [now],
    with velocity and pressure kept.  [Move] changes only the position
    and [Up] only the down flag.  Each of the three leaves every other
    slot alone and issues exactly one write on [g_outputFd]. *)
Theorem synthetic_input_effect (now : Z) (x y : Q) (touchId : Z) (s : State)
    (f : TouchPoint) :
  finger_at (g_devices s) 0 9 = Some f ->
  let p := vmul (mkVec x y) (g_touchScale s) in
  let result r (f' : TouchPoint) :=
    finger_at (g_devices (fst r)) 0 9 = Some f' /\
    (forall d k, (d, k) <> (0%nat, 9%nat) ->
       finger_at (g_devices (fst r)) d k = finger_at (g_devices s) d k) /\
    exists buf, snd r = [WriteOut (g_outputFd s) buf] in
  result (Down now x y touchId s)
    (mkTouchPoint p p (velocity f) (if 0 <=? touchId then touchId else 19)
                  true (pressure f) now) /\
  result (Move x y touchId s) (set_pos p f) /\
  result (Up touchId s) (set_isDown false f).
Proof.
  intros Hf. cbv zeta. unfold Down, Move, Up.
  rewrite (has_touch_slot_not_empty s f Hf).
  split; [|split].
  - destruct (alter_touch_Upload
                (fun touch => set_timestamp now (set_isDown true
                   (set_startPos (vmul (mkVec x y) (g_touchScale s))
                      (set_pos (vmul (mkVec x y) (g_touchScale s))
                         (set_id (if 0 <=? touchId then touchId else 19) touch)))))
                s f Hf) as [H1 [H2 [_ [_ [_ [H3 _]]]]]].
    split; [exact H1|]. split; [exact H2|exact H3].
  - destruct (alter_touch_Upload (set_pos (vmul (mkVec x y) (g_touchScale s))) s f Hf)
      as [H1 [H2 [_ [_ [_ [H3 _]]]]]].
    split; [exact H1|]. split; [exact H2|exact H3].
  - destruct (alter_touch_Upload (set_isDown false) s f Hf)
      as [H1 [H2 [_ [_ [_ [H3 _]]]]]].
    split; [exact H1|]. split; [exact H2|exact H3].
Qed.

Lemma synthetic_input_effect_witness :
  let s := st_inject in
  let f := TouchPoint_default in
  let p := vmul (mkVec 100 200) (g_touchScale s) in
  let result r (f' : TouchPoint) :=
    finger_at (g_devices (fst r)) 0 9 = Some f' /\
    (forall d k, (d, k) <> (0%nat, 9%nat) ->
       finger_at (g_devices (fst r)) d k = finger_at (g_devices s) d k) /\
    exists buf, snd r = [WriteOut (g_outputFd s) buf] in
  result (Down t0 100 200 (-5) s)
    (mkTouchPoint p p (velocity f) (if 0 <=? -5 then -5 else 19)
                  true (pressure f) t0) /\
  result (Move 100 200 (-5) s) (set_pos p f) /\
  result (Up (-5) s) (set_isDown false f).
Proof.
  apply (synthetic_input_effect t0 100 200 (-5) st_inject TouchPoint_default).
  vm_compute. reflexivity.
Defined.

Lemma Upload_idle (s : State) :
  GetTouchCount s = 0 ->
  Upload s =
    (set_isFirstDown true s,
     [WriteOut (g_outputFd s)
        ([ev EV_SYN SYN_MT_REPORT 0]
         ++ (if isFirstDown s then []
             else [ev EV_KEY BTN_TOUCH 0; ev EV_KEY BTN_TOOL_FINGER 0])
         ++ [ev EV_SYN SYN_REPORT 0])]).
Proof.
  intros H. apply GetTouchCount_zero in H.
  unfold Upload, Upload_fill. rewrite (Upload_devices_all_up _ _ H). cbn.
  destruct (isFirstDown s) eqn:E; cbn; [|reflexivity].
  rewrite <- E. destruct s; reflexivity.
Qed.

Lemma Upload_touching (s : State) :
  0 < GetTouchCount s ->
  Upload s =
    (set_isFirstDown false s,
     [WriteOut (g_outputFd s)
        ((if isFirstDown s then downEvent else [])
         ++ flat_map finger_events (take 21 (GetActiveTouches s))
         ++ [ev EV_SYN SYN_REPORT 0])]).
Proof.
  intros H.
  pose proof (Upload_devices_some_down _ (mkLoop [] 0 false) eq_refl
                ltac:(cbn; lia) (GetTouchCount_pos s H)) as Hne.
  unfold Upload, Upload_fill. rewrite Upload_events_take in *.
  destruct (flat_map finger_events (take 21 (GetActiveTouches s))) as [|e es];
    [contradiction|].
  destruct (isFirstDown s); reflexivity.
Qed.

Lemma finger_at_active (s : State) (d k : nat) (f : TouchPoint) :
  finger_at (g_devices s) d k = Some f -> isDown f = true ->
  f ∈ GetActiveTouches s.
Proof.
  intros Hf Hd. unfold finger_at in Hf.
  destruct (g_devices s !! d) as [dev|] eqn:E; [|discriminate].
  unfold GetActiveTouches. apply list_elem_of_filter. split; [exact Hd|].
  apply list_elem_of_In, in_concat. exists (fingers dev). split.
  - apply in_map. apply list_elem_of_In. eapply list_elem_of_lookup_2; eauto.
  - apply list_elem_of_In. eapply list_elem_of_lookup_2; eauto.
Qed.

Lemma single_active (s : State) (d k : nat) (f : TouchPoint) :
  GetTouchCount s = 1 -> finger_at (g_devices s) d k = Some f -> isDown f = true ->
  GetActiveTouches s = [f].
Proof.
  intros Hc Hf Hd. pose proof (finger_at_active s d k f Hf Hd) as Hin.
  unfold GetTouchCount in Hc.
  destruct (GetActiveTouches s) as [|x [|y l]]; cbn [length] in Hc; try lia.
  apply list_elem_of_singleton in Hin. congruence.
Qed.

Lemma idle_slot_up (s : State) (d k : nat) (f : TouchPoint) :
  GetTouchCount s = 0 -> finger_at (g_devices s) d k = Some f -> isDown f = false.
Proof.
  intros Hc Hf. destruct (isDown f) eqn:Hd; [|reflexivity].
  pose proof (finger_at_active s d k f Hf Hd) as Hin.
  unfold GetTouchCount in Hc.
  destruct (GetActiveTouches s); [inversion Hin|cbn [length] in Hc; lia].
Qed.

(** X22.  A timed tap on an idle registry whose sticky flag is set is a
    complete press and release: the first write carries the two key-down
    events, the group of slot 9 and SYN_REPORT, the second carries
    SYN_MT_REPORT, the two key-up events and SYN_REPORT.  Afterwards no
    finger is down and the sticky flag is set again, so the next tap
    produces the same two writes. *)
Theorem TouchAt_round_trip (now : Z) (p : My_Vector2) (durationMs : Z) (s : State)
    (f : TouchPoint) :
  finger_at (g_devices s) 0 9 = Some f ->
  GetTouchCount s = 0 -> isFirstDown s = true ->
  let q := vmul (mkVec (vx p) (vy p)) (g_touchScale s) in
  let f1 := mkTouchPoint q q (velocity f) 0 true (pressure f) now in
  let r := TouchAt now p durationMs s in
  snd r =
    [ WriteOut (g_outputFd s)
        (downEvent ++ finger_events f1 ++ [ev EV_SYN SYN_REPORT 0]);
      WriteOut (g_outputFd s)
        [ev EV_SYN SYN_MT_REPORT 0; ev EV_KEY BTN_TOUCH 0;
         ev EV_KEY BTN_TOOL_FINGER 0; ev EV_SYN SYN_REPORT 0] ] /\
  GetTouchCount (fst r) = 0 /\ isFirstDown (fst r) = true /\
  finger_at (g_devices (fst r)) 0 9 = Some (set_isDown false f1).
Proof.
  intros Hf Hc Hfirst. cbv zeta.
  pose proof (idle_slot_up s 0 9 f Hc Hf) as Hup.
  unfold TouchAt, Down, Up. rewrite (has_touch_slot_not_empty s f Hf).
  set (gD := fun touch : TouchPoint => set_timestamp now (set_isDown true
               (set_startPos (vmul (mkVec (vx p) (vy p)) (g_touchScale s))
                  (set_pos (vmul (mkVec (vx p) (vy p)) (g_touchScale s))
                     (set_id (if 0 <=? 0 then 0 else 19) touch))))).
  set (sA := alter_touch gD s).
  assert (HfA : finger_at (g_devices sA) 0 9 = Some (gD f))
    by (unfold sA, alter_touch; cbn [g_devices set_g_devices];
        rewrite finger_at_alter_eq, Hf; reflexivity).
  assert (HcA : GetTouchCount sA = 1).
  { unfold sA, alter_touch, GetTouchCount, GetActiveTouches.
    cbn [g_devices set_g_devices].
    change (fun f0 : TouchPoint => isDown f0 = true) with is_down.
    rewrite (registry_alter_count _ _ _ _ f Hf), Hup.
    unfold GetTouchCount, GetActiveTouches in Hc.
    change (fun f0 : TouchPoint => isDown f0 = true) with is_down in Hc.
    rewrite Hc. reflexivity. }
  rewrite (Upload_touching sA) by lia.
  rewrite (single_active sA 0 9 (gD f) HcA HfA eq_refl).
  set (s1 := set_isFirstDown false sA).
  assert (Hne1 : is_empty (g_devices s1) = false)
    by (apply (has_touch_slot_not_empty s1 (gD f)); exact HfA).
  rewrite Hne1.
  set (sB := alter_touch (set_isDown false) s1).
  assert (HcB : GetTouchCount sB = 0).
  { unfold sB, alter_touch, GetTouchCount, GetActiveTouches.
    cbn [g_devices set_g_devices].
    change (fun f0 : TouchPoint => isDown f0 = true) with is_down.
    rewrite (registry_alter_count _ _ _ _ (gD f) HfA).
    unfold GetTouchCount, GetActiveTouches in HcA.
    change (fun f0 : TouchPoint => isDown f0 = true) with is_down in HcA.
    cbn [g_devices s1 set_isFirstDown]. rewrite HcA. reflexivity. }
  rewrite (Upload_idle sB HcB). cbn [fst snd].
  split; [|split; [|split]].
  - unfold sA, alter_touch.
    cbn [isFirstDown g_outputFd set_isFirstDown set_g_devices sB s1 alter_touch].
    rewrite Hfirst. cbn [take flat_map]. rewrite app_nil_r. reflexivity.
  - exact HcB.
  - reflexivity.
  - unfold sB, alter_touch. cbn [g_devices set_isFirstDown set_g_devices].
    rewrite finger_at_alter_eq. cbn [g_devices s1 set_isFirstDown].
    rewrite HfA. reflexivity.
Qed.

Lemma TouchAt_round_trip_witness :
  let s := st_inject in
  let f := TouchPoint_default in
  let q := vmul (mkVec 100 200) (g_touchScale s) in
  let f1 := mkTouchPoint q q (velocity f) 0 true (pressure f) t0 in
  let r := TouchAt t0 (mkVec 100 200) 50 s in
  snd r =
    [ WriteOut (g_outputFd s)
        (downEvent ++ finger_events f1 ++ [ev EV_SYN SYN_REPORT 0]);
      WriteOut (g_outputFd s)
        [ev EV_SYN SYN_MT_REPORT 0; ev EV_KEY BTN_TOUCH 0;
         ev EV_KEY BTN_TOOL_FINGER 0; ev EV_SYN SYN_REPORT 0] ] /\
  GetTouchCount (fst r) = 0 /\ isFirstDown (fst r) = true /\
  finger_at (g_devices (fst r)) 0 9 = Some (set_isDown false f1).
Proof.
  apply (TouchAt_round_trip t0 (mkVec 100 200) 50 st_inject TouchPoint_default).
  - vm_compute. reflexivity.
  - vm_compute. reflexivity.
  - vm_compute. reflexivity.
Defined.

Lemma Swipe_loop_spec (start delta : My_Vector2) (n : nat) (i : Z) (s : State)
    (f : TouchPoint) :
  finger_at (g_devices s) 0 9 = Some f ->
  let r := Swipe_loop start delta n i s in
  length (snd r) = n /\
  Forall (fun o => exists buf, o = WriteOut (g_outputFd s) buf) (snd r) /\
  g_touchScale (fst r) = g_touchScale s /\ g_outputFd (fst r) = g_outputFd s /\
  exists p', finger_at (g_devices (fst r)) 0 9 = Some (set_pos p' f).
Proof.
  revert i s f. induction n as [|n IH]; intros i s f Hf; cbv zeta.
  - cbn. repeat split; [constructor|]. exists (pos f). rewrite Hf. destruct f; reflexivity.
  - cbn [Swipe_loop]. unfold Move. rewrite (has_touch_slot_not_empty s f Hf).
    set (p := vmul _ (g_touchScale s)).
    destruct (alter_touch_Upload (set_pos p) s f Hf)
      as [H1 [_ [H3 [H4 [_ [[buf H5] _]]]]]].
    destruct (Upload (alter_touch (set_pos p) s)) as [s1 out1]. cbn [fst snd] in *.
    destruct (IH (i + 1) s1 (set_pos p f) H1) as [I1 [I2 [I3 [I4 [p' I5]]]]].
    destruct (Swipe_loop start delta n (i + 1) s1) as [s2 out2]. cbn [fst snd] in *.
    subst out1. cbn [app length]. rewrite I1, I3, I4, H3, H4.
    repeat split.
    + constructor; [eauto|]. rewrite <- H4. exact I2.
    + exists p'. rewrite I5. reflexivity.
Qed.

(** X23.  On a registry that has slot 9 of device 0, [Swipe] issues
    [3 + max (steps - 1, 0)] writes, all on [g_outputFd]: one for the
    contact-down, one per interpolated point, one for the end point and
    one for the lift; a duration below 32 ms gives no interpolated point
    at all.  It leaves slot 9 up, at the scaled end point, with the
    scaled start point as its origin.  On an empty registry it does
    nothing. *)
Theorem Swipe_writes (now : Z) (start end_ : My_Vector2) (durationMs : Z)
    (s : State) :
  (g_devices s = [] -> Swipe now start end_ durationMs s = (s, [])) /\
  (forall f, finger_at (g_devices s) 0 9 = Some f ->
     let r := Swipe now start end_ durationMs s in
     length (snd r) = (3 + Z.to_nat (Swipe_steps durationMs - 1))%nat /\
     Forall (fun o => exists buf, o = WriteOut (g_outputFd s) buf) (snd r) /\
     finger_at (g_devices (fst r)) 0 9
     = Some (mkTouchPoint (vmul (mkVec (vx end_) (vy end_)) (g_touchScale s))
                          (vmul (mkVec (vx start) (vy start)) (g_touchScale s))
                          (velocity f) 0 false (pressure f) now)).
Proof.
  split.
  - intros He.
    assert (Hl : forall delta m j, Swipe_loop start delta m j s = (s, [])).
    { intros delta m. induction m as [|m IHm]; intros j; cbn [Swipe_loop];
        [reflexivity|].
      unfold Move. rewrite He. cbn [is_empty]. rewrite IHm. reflexivity. }
    unfold Swipe, Down, Move, Up. rewrite He. cbn [is_empty].
    destruct (Swipe_delta start end_ durationMs) as [delta|]; [rewrite Hl|];
      rewrite ?He; cbn [is_empty]; rewrite ?He; reflexivity.
  - intros f Hf. cbv zeta. unfold Swipe.
    set (gD := fun touch : TouchPoint => set_timestamp now (set_isDown true
               (set_startPos (vmul (mkVec (vx start) (vy start)) (g_touchScale s))
                  (set_pos (vmul (mkVec (vx start) (vy start)) (g_touchScale s))
                     (set_id (if 0 <=? 0 then 0 else 19) touch))))).
    assert (HD : Down now (vx start) (vy start) 0 s = Upload (alter_touch gD s))
      by (unfold Down; rewrite (has_touch_slot_not_empty s f Hf); reflexivity).
    rewrite HD.
    destruct (alter_touch_Upload gD s f Hf) as [H1 [_ [H3 [H4 [_ [[buf1 H5] _]]]]]].
    destruct (Upload (alter_touch gD s)) as [s1 out1]. cbn [fst snd] in *.
    assert (HL : exists s2 out2 p',
              match Swipe_delta start end_ durationMs with
              | Some delta =>
                  Swipe_loop start delta (Z.to_nat (Swipe_steps durationMs - 1)) 1 s1
              | None => (s1, [])
              end = (s2, out2) /\
              (Swipe_delta start end_ durationMs = None ->
               Z.to_nat (Swipe_steps durationMs - 1) = 0%nat) /\
              (length out2 = Z.to_nat (Swipe_steps durationMs - 1)
               \/ (Swipe_delta start end_ durationMs = None /\ out2 = [])) /\
              Forall (fun o => exists buf, o = WriteOut (g_outputFd s) buf) out2 /\
              g_touchScale s2 = g_touchScale s /\ g_outputFd s2 = g_outputFd s /\
              finger_at (g_devices s2) 0 9 = Some (set_pos p' (gD f))).
    { destruct (Swipe_delta start end_ durationMs) as [delta|] eqn:Ed.
      - destruct (Swipe_loop_spec start delta
                    (Z.to_nat (Swipe_steps durationMs - 1)) 1 s1 (gD f) H1)
          as [I1 [I2 [I3 [I4 [p' I5]]]]].
        destruct (Swipe_loop _ _ _ _ _) as [s2 out2]. cbn [fst snd] in *.
        exists s2, out2, p'. rewrite H4 in I2.
        repeat split; try assumption; try congruence. left. exact I1.
      - exists s1, [], (pos (gD f)).
        unfold Swipe_delta, vdiv_int in Ed.
        destruct (Z.eqb_spec (Swipe_steps durationMs) 0) as [E0|]; [|discriminate].
        split; [reflexivity|]. split; [intros _; rewrite E0; reflexivity|].
        split; [right; split; reflexivity|]. split; [constructor|].
        split; [exact H3|]. split; [exact H4|].
        rewrite H1. destruct (gD f); reflexivity. }
    destruct HL as [s2 [out2 [p' [EL [Hnone [Hlen [Hall [Hs2 [Hfd2 Hf2]]]]]]]]].
    rewrite EL.
    assert (HM : Move (vx end_) (vy end_) 0 s2
                 = Upload (alter_touch
                             (set_pos (vmul (mkVec (vx end_) (vy end_)) (g_touchScale s2)))
                             s2))
      by (unfold Move; rewrite (has_touch_slot_not_empty s2 _ Hf2); reflexivity).
    rewrite HM.
    destruct (alter_touch_Upload
                (set_pos (vmul (mkVec (vx end_) (vy end_)) (g_touchScale s2)))
                s2 _ Hf2) as [M1 [_ [M3 [M4 [_ [[buf3 M5] _]]]]]].
    destruct (Upload (alter_touch _ s2)) as [s3 out3]. cbn [fst snd] in *.
    assert (HU : Up 0 s3 = Upload (alter_touch (set_isDown false) s3))
      by (unfold Up; rewrite (has_touch_slot_not_empty s3 _ M1); reflexivity).
    rewrite HU.
    destruct (alter_touch_Upload (set_isDown false) s3 _ M1)
      as [U1 [_ [_ [_ [_ [[buf4 U5] _]]]]]].
    destruct (Upload (alter_touch (set_isDown false) s3)) as [s4 out4].
    cbn [fst snd] in *. subst out1 out3 out4.
    split; [|split].
    + rewrite !length_app. cbn [length].
      destruct Hlen as [Hlen|[Hn ->]]; [lia|].
      rewrite (Hnone Hn). reflexivity.
    + constructor; [eauto|]. apply Forall_app. split; [exact Hall|].
      constructor; [rewrite <- Hfd2; eauto|].
      constructor; [rewrite <- Hfd2, <- M4; eauto|constructor].
    + rewrite U1, Hs2. reflexivity.
Qed.

Example Swipe_examples :
  length (snd (Swipe t0 (mkVec 100 200) (mkVec 100 1400) 300 st_inject)) = 20%nat /\
  length (snd (Swipe t0 (mkVec 100 200) (mkVec 100 1400) 10 st_inject)) = 3%nat /\
  Swipe t0 (mkVec 100 200) (mkVec 100 1400) 300 State_initial = (State_initial, []).
Proof. repeat split; vm_compute; reflexivity. Qed.

(** ** Delivery at a report boundary *)

Lemma RecognizeGesture_only_gestures (vlen : My_Vector2 -> Q) (now : Z)
    (device : TouchDevice) (s : State) :
  Forall (fun o => is_gesture o = true) (snd (RecognizeGesture vlen now device s)).
Proof.
  unfold RecognizeGesture.
  destruct (negb (g_gestureEnabled s) || negb (g_gestureCallback s)); [constructor|].
  destruct (count_active (fingers device) 0 vzero) as [n avg].
  destruct (n =? 0).
  - unfold Recognize_ended.
    destruct (_ && _); [destruct (_ && _)|destruct (Qltb _ _)];
      cbn [snd]; repeat constructor.
  - unfold Recognize_active.
    destruct (negb (isLongPressing (g_gestureState s))); [destruct (_ && _)|];
      cbn [snd]; apply Forall_app; split; try (repeat constructor);
      (destruct (n =? 2); [|constructor]);
      (destruct (filter _ _) as [|t1 [|t2 ts]]; try constructor);
      (destruct (Qltb _ _); repeat constructor).
Qed.

Lemma RecognizeGesture_off (vlen : My_Vector2 -> Q) (now : Z) (device : TouchDevice)
    (s : State) :
  g_gestureEnabled s = false \/ g_gestureCallback s = false ->
  RecognizeGesture vlen now device s = (s, []).
Proof.
  intros [H|H]; unfold RecognizeGesture; rewrite H;
    [|rewrite orb_true_r]; reflexivity.
Qed.

(** The report boundary with the recogniser's contribution named. *)
Lemma report_boundary_cases (vlen : My_Vector2 -> Q) (d : nat) (now : Z) (s : State) :
  let s1 :=
    set_g_devices
      (alter (fun device => set_fingers (map (update_velocity now) (fingers device)) device)
             d (g_devices s)) s in
  exists gs out2,
    Forall (fun o => is_gesture o = true) out2 /\
    (g_gestureEnabled s = false \/ g_gestureCallback s = false ->
     gs = g_gestureState s /\ out2 = []) /\
    report_boundary vlen d now s =
      let s2 := set_g_gestureState gs s1 in
      if now - lastCallbackTime s <? MIN_CALLBACK_INTERVAL then (s2, out2)
      else if g_touchCallback s then
        (set_lastCallbackTime now s2, out2 ++ [TouchOut (g_devices s1)])
      else if negb (g_readOnly s) then
        (fst (Upload (set_lastCallbackTime now s2)),
         out2 ++ snd (Upload (set_lastCallbackTime now s2)))
      else (set_lastCallbackTime now s2, out2).
Proof.
  cbv zeta. unfold report_boundary.
  set (s1 := set_g_devices _ s).
  assert (Hid : s1 = set_g_gestureState (g_gestureState s1) s1)
    by (destruct s; reflexivity).
  assert (H2 : exists gs out2,
     (if g_gestureEnabled s1
      then match g_devices s1 !! d with
           | Some device => RecognizeGesture vlen now device s1
           | None => (s1, [])
           end
      else (s1, [])) = (set_g_gestureState gs s1, out2) /\
     Forall (fun o => is_gesture o = true) out2 /\
     (g_gestureEnabled s = false \/ g_gestureCallback s = false ->
      gs = g_gestureState s /\ out2 = [])).
  { destruct (g_gestureEnabled s1) eqn:He;
      [destruct (g_devices s1 !! d) as [device|]|].
    - destruct (RecognizeGesture_frame vlen now device s1) as [gs [E _]].
      pose proof (RecognizeGesture_only_gestures vlen now device s1) as Hg.
      pose proof (RecognizeGesture_off vlen now device s1) as Hoff.
      destruct (RecognizeGesture vlen now device s1) as [s2 out2].
      cbn [fst snd] in *. subst s2. exists gs, out2.
      split; [reflexivity|]. split; [exact Hg|].
      intros Hc. specialize (Hoff Hc). injection Hoff as Hs ->.
      split; [exact Hs|reflexivity].
    - exists (g_gestureState s1), []. rewrite <- Hid.
      split; [reflexivity|]. split; [constructor|]. intros _. split; reflexivity.
    - exists (g_gestureState s1), []. rewrite <- Hid.
      split; [reflexivity|]. split; [constructor|]. intros _. split; reflexivity. }
  destruct H2 as [gs [out2 [E [Hg Hoff]]]]. exists gs, out2.
  split; [exact Hg|]. split; [exact Hoff|]. rewrite E.
  cbn [lastCallbackTime set_g_gestureState g_touchCallback g_readOnly
       set_lastCallbackTime g_devices].
  change (lastCallbackTime s1) with (lastCallbackTime s).
  change (g_touchCallback s1) with (g_touchCallback s).
  change (g_readOnly s1) with (g_readOnly s).
  destruct (now - lastCallbackTime s <? MIN_CALLBACK_INTERVAL); [reflexivity|].
  destruct (g_touchCallback s); [reflexivity|].
  destruct (negb (g_readOnly s)); [|reflexivity].
  destruct (Upload _); reflexivity.
Qed.



Example report_delivery_examples :
  snd (TouchReadThread_event vec_length 0 t0 syn_report
         (SetTouchCallback true st_inject) 0)
    = [TouchOut (g_devices st_inject)] /\
  snd (TouchReadThread_event vec_length 0 t0 syn_report st_readonly 0) = [] /\
  snd (TouchReadThread_event vec_length 0 3 syn_report
         (SetTouchCallback true st_inject) 0) = [] /\
  snd (TouchReadThread_event vec_length 0 t0 syn_report st_inject 0)
    = [WriteOut 4 [ev EV_SYN SYN_MT_REPORT 0; ev EV_SYN SYN_REPORT 0]].
Proof. repeat split; vm_compute; reflexivity. Qed.

Lemma gestures_are_not_writes (out : list Output) :
  Forall (fun o => is_gesture o = true) out -> Forall (fun o => is_write o = false) out.
Proof.
  intros H. apply (Forall_impl _ _ _ H).
  intros [g|ds|fd0 buf|fd0|fd0|fd0|fd0]; cbn; congruence.
Qed.

(** What one decoded event can do to the state and to the outputs. *)
Lemma TouchReadThread_event_state (vlen : My_Vector2 -> Q) (d : nat) (now : Z)
    (ie : input_event) (s : State) (slot : nat) :
  let r := TouchReadThread_event vlen d now ie s slot in
  exists ds gs b t,
    fst (fst r)
    = set_lastCallbackTime t
        (set_isFirstDown b (set_g_gestureState gs (set_g_devices ds s))) /\
    (g_gestureEnabled s = false \/ g_gestureCallback s = false ->
     gs = g_gestureState s /\ Forall (fun o => is_gesture o = false) (snd r)) /\
    (g_readOnly s = true \/ g_touchCallback s = true ->
     Forall (fun o => is_write o = false) (snd r)).
Proof.
  cbv zeta.
  assert (Hsame : forall ds,
    exists ds' gs b t,
      set_g_devices ds s
      = set_lastCallbackTime t
          (set_isFirstDown b (set_g_gestureState gs (set_g_devices ds' s))) /\
      (g_gestureEnabled s = false \/ g_gestureCallback s = false ->
       gs = g_gestureState s /\ Forall (fun o => is_gesture o = false) (@nil Output)) /\
      (g_readOnly s = true \/ g_touchCallback s = true ->
       Forall (fun o => is_write o = false) (@nil Output))).
  { intros ds. exists ds, (g_gestureState s), (isFirstDown s), (lastCallbackTime s).
    split; [destruct s; reflexivity|]. split; intros _; [split|]; constructor. }
  assert (Hsame0 :
    exists ds' gs b t,
      s = set_lastCallbackTime t
            (set_isFirstDown b (set_g_gestureState gs (set_g_devices ds' s))) /\
      (g_gestureEnabled s = false \/ g_gestureCallback s = false ->
       gs = g_gestureState s /\ Forall (fun o => is_gesture o = false) (@nil Output)) /\
      (g_readOnly s = true \/ g_touchCallback s = true ->
       Forall (fun o => is_write o = false) (@nil Output))).
  { destruct (Hsame (g_devices s)) as [ds' [gs [b [t [E H]]]]].
    exists ds', gs, b, t. split; [|exact H].
    rewrite <- E. destruct s; reflexivity. }
  unfold TouchReadThread_event, alter_slot.
  case_axis ie ABS_MT_SLOT; [exact Hsame0|].
  case_axis ie ABS_MT_TRACKING_ID; [destruct (ie_value ie =? -1); apply Hsame|].
  case_axis ie ABS_MT_POSITION_X;
    [destruct (g_devices s !! d); [apply Hsame|exact Hsame0]|].
  case_axis ie ABS_MT_POSITION_Y;
    [destruct (g_devices s !! d); [apply Hsame|exact Hsame0]|].
  case_axis ie ABS_MT_PRESSURE; [apply Hsame|].
  case_report ie; [|exact Hsame0].
  destruct (report_boundary_cases vlen d now s) as [gs [out2 [Hg [Hoff E]]]].
  cbv zeta in E. rewrite E. clear E.
  set (ds := alter _ d (g_devices s)).
  pose proof (gestures_are_not_writes out2 Hg) as Hnw.
  assert (Hng : g_gestureEnabled s = false \/ g_gestureCallback s = false ->
                Forall (fun o => is_gesture o = false) out2)
    by (intros Hc; destruct (Hoff Hc) as [_ ->]; constructor).
  destruct (now - lastCallbackTime s <? MIN_CALLBACK_INTERVAL); cbn [fst snd].
  - exists ds, gs, (isFirstDown s), (lastCallbackTime s).
    split; [destruct s; reflexivity|]. split; [|intros _; exact Hnw].
    intros Hc. split; [exact (proj1 (Hoff Hc))|exact (Hng Hc)].
  - destruct (g_touchCallback s) eqn:Hcb; cbn [fst snd].
    + exists ds, gs, (isFirstDown s), now.
      split; [destruct s; reflexivity|]. split.
      * intros Hc. split; [exact (proj1 (Hoff Hc))|].
        apply Forall_app. split; [exact (Hng Hc)|repeat constructor].
      * intros _. apply Forall_app. split; [exact Hnw|repeat constructor].
    + destruct (g_readOnly s) eqn:Hro; cbn [negb fst snd].
      * exists ds, gs, (isFirstDown s), now.
        split; [destruct s; reflexivity|]. split; [|intros _; exact Hnw].
        intros Hc. split; [exact (proj1 (Hoff Hc))|exact (Hng Hc)].
      * destruct (Upload_frame (set_lastCallbackTime now
                    (set_g_gestureState gs (set_g_devices ds s)))) as [b Hb].
        destruct (Upload_writes_only (set_lastCallbackTime now
                    (set_g_gestureState gs (set_g_devices ds s)))) as [buf Hw].
        rewrite Hb, Hw. exists ds, gs, b, now.
        split; [destruct s; reflexivity|]. split.
        -- intros Hc. split; [exact (proj1 (Hoff Hc))|].
           apply Forall_app. split; [exact (Hng Hc)|repeat constructor].
        -- intros [H|H]; discriminate.
Qed.

(** X25.  While the subsystem is read-only or a touch callback is
    registered, the reader threads never write to the virtual device,
    whatever they decode. *)
Theorem readers_never_write (vlen : My_Vector2 -> Q)
    (trace : list (nat * list (Z * input_event))) (s0 : State) :
  g_readOnly s0 = true \/ g_touchCallback s0 = true ->
  Forall (fun o => is_write o = false)
         (snd (run_readers vlen trace s0 slots_initial)).
Proof.
  intros H0.
  destruct (run_readers_inv vlen
              (fun s => g_readOnly s = g_readOnly s0
                        /\ g_touchCallback s = g_touchCallback s0)
              (fun o => is_write o = false) (fun _ _ => true))
    with (trace := trace) (s := s0) (slots := slots_initial) as [_ [_ H]].
  - intros d now ie s slot _ _ [H1 H2].
    destruct (TouchReadThread_event_state vlen d now ie s slot)
      as [ds [gs [b [t [E [_ Hw]]]]]].
    split.
    + rewrite E. cbn. auto.
    + apply Hw. rewrite H1, H2. exact H0.
  - apply trace_ok_any.
  - intros d. cbv. lia.
  - auto.
  - exact H.
Qed.

Lemma readers_never_write_witness :
  Forall (fun o => is_write o = false)
         (snd (run_readers vec_length tap_trace st_readonly slots_initial)).
Proof.
  apply (readers_never_write vec_length tap_trace st_readonly).
  left. reflexivity.
Defined.

(** X26.  While gesture recognition is disabled or no gesture callback
    is registered, the reader threads deliver no gesture and leave the
    recognition context (last tap, tap count, long-press flag) exactly
    as it was. *)
Theorem readers_recognise_nothing_when_off (vlen : My_Vector2 -> Q)
    (trace : list (nat * list (Z * input_event))) (s0 : State) :
  g_gestureEnabled s0 = false \/ g_gestureCallback s0 = false ->
  Forall (fun o => is_gesture o = false)
         (snd (run_readers vlen trace s0 slots_initial)) /\
  g_gestureState (fst (fst (run_readers vlen trace s0 slots_initial)))
  = g_gestureState s0.
Proof.
  intros H0.
  destruct (run_readers_inv vlen
              (fun s => g_gestureEnabled s = g_gestureEnabled s0
                        /\ g_gestureCallback s = g_gestureCallback s0
                        /\ g_gestureState s = g_gestureState s0)
              (fun o => is_gesture o = false) (fun _ _ => true))
    with (trace := trace) (s := s0) (slots := slots_initial) as [_ [[_ [_ H1]] H2]].
  - intros d now ie s slot _ _ [H1 [H2 H3]].
    destruct (TouchReadThread_event_state vlen d now ie s slot)
      as [ds [gs [b [t [E [Hoff _]]]]]].
    assert (Hc : g_gestureEnabled s = false \/ g_gestureCallback s = false)
      by (rewrite H1, H2; exact H0).
    destruct (Hoff Hc) as [Hgs Hout].
    split; [|exact Hout].
    rewrite E. cbn. rewrite Hgs. auto.
  - apply trace_ok_any.
  - intros d. cbv. lia.
  - auto.
  - split; assumption.
Qed.

Lemma readers_recognise_nothing_when_off_witness :
  Forall (fun o => is_gesture o = false)
         (snd (run_readers vec_length tap_trace st_readonly slots_initial)) /\
  g_gestureState (fst (fst (run_readers vec_length tap_trace st_readonly slots_initial)))
  = g_gestureState st_readonly.
Proof.
  apply (readers_recognise_nothing_when_off vec_length tap_trace st_readonly).
  left. reflexivity.
Defined.

(** ** Velocity and the long-press flag *)

(** X27.  A report boundary decoded for device [d] at time [now]
    recomputes the velocity of exactly those slots of device [d] that are
    down and whose arrival timestamp lies before [now]: their velocity
    becomes the displacement [pos - startPos] (not a rate).  Every other
    field of every slot, and the velocity of every other slot, is
    unchanged. *)
Theorem report_updates_velocity (vlen : My_Vector2 -> Q) (d : nat) (now : Z)
    (s : State) (slot : nat) :
  let s' := fst (fst (TouchReadThread_event vlen d now syn_report s slot)) in
  forall d' k f, finger_at (g_devices s) d' k = Some f ->
    exists f', finger_at (g_devices s') d' k = Some f' /\
      (pos f', startPos f', id f', isDown f', pressure f', timestamp f')
      = (pos f, startPos f, id f, isDown f, pressure f, timestamp f) /\
      velocity f' =
        if Nat.eqb d' d && isDown f && (timestamp f <? now)
        then vsub (pos f) (startPos f) else velocity f.
Proof.
  cbv zeta. unfold TouchReadThread_event. cbn.
  destruct (report_boundary_fields vlen d now s) as [Hd _].
  destruct (report_boundary vlen d now s) as [s' out]. cbn [fst] in *.
  intros d' k f Hf. rewrite Hd, finger_at_velocity.
  destruct (decide (d = d')) as [<-|Hne].
  - rewrite Hf, Nat.eqb_refl. cbn [fmap option_fmap option_map andb].
    eexists. split; [reflexivity|]. unfold update_velocity.
    replace (0 <? now - timestamp f) with (timestamp f <? now)
      by (destruct (Z.ltb_spec (timestamp f) now), (Z.ltb_spec 0 (now - timestamp f));
          try reflexivity; lia).
    destruct (isDown f) eqn:E; [destruct (timestamp f <? now)|];
      cbn; rewrite ?E; split; reflexivity.
  - rewrite Hf. replace (Nat.eqb d' d) with false
      by (symmetry; apply Nat.eqb_neq; congruence).
    eexists. split; [reflexivity|]. split; reflexivity.
Qed.

Lemma report_updates_velocity_witness :
  let s :=
    fst (fst (TouchReadThread_batch vec_length 0
                [ (t0, abs_event ABS_MT_TRACKING_ID 1);
                  (t0 + 8, abs_event ABS_MT_POSITION_X 300) ] st_readonly 0)) in
  exists f, finger_at (g_devices s) 0 0 = Some f /\ isDown f = true /\
    exists f',
      finger_at (g_devices (fst (fst (TouchReadThread_event vec_length 0 (t0 + 8)
                                        syn_report s 0)))) 0 0 = Some f' /\
      velocity f' = vsub (pos f) (startPos f).
Proof.
  cbv zeta.
  set (s := fst (fst (TouchReadThread_batch vec_length 0 _ st_readonly 0))).
  destruct (finger_at (g_devices s) 0 0) as [f|] eqn:E;
    [|vm_compute in E; discriminate].
  assert (Hd : isDown f = true /\ (timestamp f <? t0 + 8) = true).
  { vm_compute in E. injection E as <-. split; reflexivity. }
  destruct Hd as [Hd Ht].
  destruct (report_updates_velocity vec_length 0 (t0 + 8) s 0 0%nat 0%nat f E)
    as [f' [H1 [_ H3]]].
  exists f. split; [reflexivity|]. split; [exact Hd|].
  exists f'. split; [exact H1|].
  rewrite H3, Hd, Ht. reflexivity.
Defined.

Example report_updates_velocity_example :
  let moved :=
    [ (t0, abs_event ABS_MT_TRACKING_ID 1);
      (t0 + 8, abs_event ABS_MT_POSITION_X 300);
      (t0 + 8, abs_event ABS_MT_POSITION_Y 40);
      (t0 + 8, syn_report) ] in
  velocity <$>
    finger_at (g_devices (fst (fst (TouchReadThread_batch vec_length 0 moved st_readonly 0))))
      0 0
  = Some (mkVec ((324000 # 1080) - 0) ((96000 # 2400) - 0))%Q.
Proof. vm_compute. reflexivity. Qed.




(** A finger resting near the origin: the first report already delivers
    a LongPress (the duration is measured from time 0), the second does
    not repeat it. *)
Example long_press_example :
  let resting :=
    [ (t0, abs_event ABS_MT_POSITION_X 5); (t0, abs_event ABS_MT_TRACKING_ID 1);
      (t0, syn_report); (t0 + 10, syn_report) ] in
  map is_long_press
      (snd (TouchReadThread_batch vec_length 0 resting st_gestures 0))
  = [true].
Proof. vm_compute. reflexivity. Qed.

(** ** Nearest touch *)

Lemma Qltb_true (a b : Q) : Qltb a b = true <-> (a < b)%Q.
Proof.
  unfold Qltb. rewrite negb_true_iff. split.
  - intros H. apply Qnot_le_lt. intros Hle. apply Qle_bool_iff in Hle. congruence.
  - intros H. destruct (Qle_bool b a) eqn:E; [|reflexivity].
    apply Qle_bool_iff in E. exfalso. exact (Qlt_not_le _ _ H E).
Qed.

Lemma Qltb_false (a b : Q) : Qltb a b = false <-> (b <= a)%Q.
Proof.
  unfold Qltb. rewrite negb_false_iff. apply Qle_bool_iff.
Qed.

Section Nearest.

Variable vlen : My_Vector2 -> Q.
Variable touchPos : My_Vector2.

Lemma nearest_fingers_spec (d : nat) (fs : list TouchPoint) (k0 : nat)
    (acc : option (nat * nat) * Q) :
  let r := nearest_fingers vlen touchPos d fs k0 acc in
  (snd r <= snd acc)%Q /\
  (forall i f, fs !! i = Some f -> isDown f = true ->
     (snd r <= vlen (vsub (pos f) touchPos))%Q) /\
  (r = acc \/
   exists i f, fs !! i = Some f /\ isDown f = true /\
     r = (Some (d, (k0 + i)%nat), vlen (vsub (pos f) touchPos)) /\
     (vlen (vsub (pos f) touchPos) < snd acc)%Q).
Proof.
  revert k0 acc. induction fs as [|x fs IH]; intros k0 acc; cbv zeta.
  - cbn [nearest_fingers]. split; [apply Qle_refl|]. split; [|left; reflexivity].
    intros i f Hf. destruct i; discriminate.
  - cbn [nearest_fingers].
    set (acc' := if isDown x then _ else acc).
    assert (Hacc : (snd acc' <= snd acc)%Q /\
              (isDown x = true -> (snd acc' <= vlen (vsub (pos x) touchPos))%Q) /\
              (acc' = acc \/
               (isDown x = true /\
                acc' = (Some (d, k0), vlen (vsub (pos x) touchPos)) /\
                (vlen (vsub (pos x) touchPos) < snd acc)%Q))).
    { unfold acc'. destruct (isDown x);
        [|split; [apply Qle_refl|split; [discriminate|left; reflexivity]]].
      destruct (Qltb (vlen (vsub (pos x) touchPos)) (snd acc)) eqn:E.
      - apply Qltb_true in E. cbn [snd].
        split; [apply Qlt_le_weak; exact E|]. split; [intros _; apply Qle_refl|].
        right. auto.
      - apply Qltb_false in E.
        split; [apply Qle_refl|]. split; [intros _; exact E|left; reflexivity]. }
    destruct Hacc as [A1 [A2 A3]].
    destruct (IH (S k0) acc') as [I1 [I2 I3]]. cbv zeta in I1, I2, I3.
    split; [eapply Qle_trans; eassumption|]. split.
    + intros [|i] f Hf Hd.
      * injection Hf as <-. eapply Qle_trans; [exact I1|]. exact (A2 Hd).
      * exact (I2 i f Hf Hd).
    + destruct I3 as [I3|[i [f [Hf [Hd [Hr Hlt]]]]]].
      * rewrite I3. destruct A3 as [A3|[Hd [A3 Hlt]]]; [left; exact A3|].
        right. exists 0%nat, x. rewrite Nat.add_0_r. auto.
      * right. exists (S i), f.
        replace (k0 + S i)%nat with (S k0 + i)%nat by lia.
        repeat split; try assumption.
        eapply Qlt_le_trans; eassumption.
Qed.

Lemma nearest_devices_spec (ds : list TouchDevice) (d0 : nat)
    (acc : option (nat * nat) * Q) :
  let r := nearest_devices vlen touchPos ds d0 acc in
  (snd r <= snd acc)%Q /\
  (forall j i f, finger_at ds j i = Some f -> isDown f = true ->
     (snd r <= vlen (vsub (pos f) touchPos))%Q) /\
  (r = acc \/
   exists j i f, finger_at ds j i = Some f /\ isDown f = true /\
     r = (Some ((d0 + j)%nat, i), vlen (vsub (pos f) touchPos)) /\
     (vlen (vsub (pos f) touchPos) < snd acc)%Q).
Proof.
  revert d0 acc. induction ds as [|dev ds IH]; intros d0 acc; cbv zeta.
  - cbn [nearest_devices]. split; [apply Qle_refl|]. split; [|left; reflexivity].
    intros j i f Hf. destruct j; discriminate.
  - cbn [nearest_devices].
    destruct (nearest_fingers_spec d0 (fingers dev) 0 acc) as [F1 [F2 F3]].
    cbv zeta in F1, F2, F3.
    set (acc' := nearest_fingers vlen touchPos d0 (fingers dev) 0 acc) in *.
    destruct (IH (S d0) acc') as [I1 [I2 I3]]. cbv zeta in I1, I2, I3.
    split; [eapply Qle_trans; eassumption|]. split.
    + intros [|j] i f Hf Hd.
      * eapply Qle_trans; [exact I1|]. exact (F2 i f Hf Hd).
      * exact (I2 j i f Hf Hd).
    + destruct I3 as [I3|[j [i [f [Hf [Hd [Hr Hlt]]]]]]].
      * rewrite I3. destruct F3 as [F3|[i [f [Hf [Hd [Hr Hlt]]]]]]; [left; exact F3|].
        right. exists 0%nat, i, f. rewrite Nat.add_0_r. auto.
      * right. exists (S j), i, f.
        replace (d0 + S j)%nat with (S d0 + j)%nat by lia.
        repeat split; try assumption.
        eapply Qlt_le_trans; eassumption.
Qed.

End Nearest.

(** X29.  [GetNearestTouch] returns a pointer to a slot that is down,
    whose distance to the scaled point is below FLT_MAX and not larger
    than the distance of any other down slot.  It returns [nullptr]
    exactly when no down slot is closer than FLT_MAX, in particular when
    no slot is down.  The point is converted with [ScreenToTouch], so the
    comparison takes place in panel coordinates without rotation. *)
Theorem GetNearestTouch_spec (vlen : My_Vector2 -> Q) (s : State) (p : My_Vector2) :
  let dist f := vlen (vsub (pos f) (ScreenToTouch s p)) in
  match GetNearestTouch vlen s p with
  | Some (d, k) =>
      exists f, finger_at (g_devices s) d k = Some f /\ isDown f = true /\
        (dist f < FLT_MAX)%Q /\
        forall d' k' g, finger_at (g_devices s) d' k' = Some g -> isDown g = true ->
          (dist f <= dist g)%Q
  | None =>
      forall d k f, finger_at (g_devices s) d k = Some f -> isDown f = true ->
        (FLT_MAX <= dist f)%Q
  end.
Proof.
  cbv zeta. unfold GetNearestTouch.
  destruct (nearest_devices_spec vlen (ScreenToTouch s p) (g_devices s) 0
              (None, FLT_MAX)) as [_ [H2 H3]].
  cbv zeta in H2, H3. cbn [snd] in H3.
  destruct H3 as [H3|[j [i [f [Hf [Hd [Hr Hlt]]]]]]].
  - rewrite H3 in *. cbn [fst snd] in *. exact H2.
  - rewrite Hr in *. cbn [fst snd Nat.add] in *.
    exists f. repeat split; assumption.
Qed.

Example GetNearestTouch_examples :
  GetNearestTouch vec_length st_thirty_down (mkVec 0 0) = Some (0%nat, 0%nat) /\
  GetNearestTouch vec_length st_readonly (mkVec 0 0) = None /\
  GetNearestTouch vec_length
    (fst (fst (TouchReadThread_batch vec_length 0 batch_down st_readonly 0)))
    (mkVec 100 100) = Some (0%nat, 0%nat).
Proof. repeat split; vm_compute; reflexivity. Qed.

(** ** The touch set-up of the render thread *)

(** X30.  When the render thread's touch set-up succeeds, the subsystem
    is initialised read-only with the touch callback registered and the
    orientation code 1 for a window wider than high and 0 otherwise; the
    virtual-device descriptor is untouched.  When [Init] fails the
    set-up returns early and registers nothing.  The re-initialisation
    done after a rotation always registers the callback and the
    orientation, even when its [Init] fails, and for the same size it
    reaches the state of the set-up whenever that one succeeds. *)
Theorem RenderThread_touch_setup_spec (env : Env) (width height : Z) (s : State) :
  let size := mkVec (inject_Z width) (inject_Z height) in
  let reinit := RenderThread_touch_reinit env width height s in
  g_touchCallback reinit = true /\
  g_orientation reinit = (if height <? width then 1 else 0) /\
  g_initialized reinit = snd (fst (Init env size true s)) /\
  match RenderThread_touch_setup env width height s with
  | Some s' =>
      snd (fst (Init env size true s)) = true /\
      g_initialized s' = true /\ g_readOnly s' = true /\
      g_touchCallback s' = true /\
      g_orientation s' = (if height <? width then 1 else 0) /\
      g_outputFd s' = g_outputFd (fst (Close s)) /\
      reinit = s'
  | None => snd (fst (Init env size true s)) = false
  end.
Proof.
  cbv zeta.
  assert (Hre : RenderThread_touch_reinit env width height s
                = SetTouchCallback true
                    (SetOrientation (if height <? width then 1 else 0)
                       (fst (fst (Init env (mkVec (inject_Z width) (inject_Z height))
                                    true s))))).
  { unfold RenderThread_touch_reinit.
    rewrite <- (Init_ignores_prior_Close env _ true s).
    destruct (Close s) as [s1 o1]. cbn [fst].
    destruct (Init env _ true s1) as [[s2 b2] o2]. reflexivity. }
  rewrite Hre. unfold RenderThread_touch_setup.
  pose proof (Init_success env (mkVec (inject_Z width) (inject_Z height)) true s) as Hs.
  pose proof (Init_false_uninitialized env
                (mkVec (inject_Z width) (inject_Z height)) true s) as Hf.
  destruct (Init env (mkVec (inject_Z width) (inject_Z height)) true s)
    as [[s1 started] out]. cbn [fst snd] in *.
  destruct started.
  - destruct (Hs eq_refl) as [first [rest [out1 [_ [_ E]]]]]. cbv zeta in E.
    rewrite E.
    repeat split; destruct (height <? width); reflexivity.
  - split; [reflexivity|]. split; [destruct (height <? width); reflexivity|].
    split; [|reflexivity].
    destruct (height <? width); cbn; apply Hf; reflexivity.
Qed.

Example RenderThread_touch_setup_examples :
  (g_orientation <$> RenderThread_touch_setup (env_panels 1 (-1) (-1)) 2400 1080
                       State_initial) = Some 1 /\
  (g_orientation <$> RenderThread_touch_setup (env_panels 1 (-1) (-1)) 1080 2400
                       State_initial) = Some 0 /\
  RenderThread_touch_setup (env_panels 0 (-1) (-1)) 1080 2400 State_initial = None.
Proof. repeat split. Qed.
